(** * Skyline GPU texture synchronisation (skyline/gpu/texture/texture.cpp)

    A shallow embedding of [skyline::gpu::Texture]: the texture objects, the
    CPU-visible memory they copy through, the fence cycles they track and the
    command sequences they record, followed by the properties of the
    synchronisation, copy and layout-transition operations. *)

From Stdlib Require Import ZArith List Bool Lia.
From Stdlib.Strings Require Import Byte.
From stdpp Require Import base decidable option list numbers.
Import ListNotations.

Local Open Scope Z_scope.

(** ** Vulkan values used by texture.cpp *)

Abbreviation VkImage := Z (only parsing).
Abbreviation VkBuffer := Z (only parsing).
Definition VK_NULL_HANDLE : Z := 0.

(** [~0U]: "all remaining mip levels / array layers" *)
Definition VK_REMAINING_MIP_LEVELS : Z := 4294967295.
Definition VK_REMAINING_ARRAY_LAYERS : Z := 4294967295.

(** Arithmetic on [u32] wraps around. *)
Definition wrap32 (z : Z) : Z := z mod 2 ^ 32.

Inductive ImageLayout :=
| eUndefined
| eGeneral
| eColorAttachmentOptimal
| eDepthStencilAttachmentOptimal
| eDepthStencilReadOnlyOptimal
| eShaderReadOnlyOptimal
| eTransferSrcOptimal
| eTransferDstOptimal
| ePreinitialized
| ePresentSrcKHR.

Inductive ImageTiling := eOptimal | eLinear | eDrmFormatModifierEXT.

Inductive PipelineStage := eTopOfPipe | eTransfer | eBottomOfPipe.

(** [vk::AccessFlagBits], combined with bitwise or *)
Definition eTransferRead : Z := 0x800.
Definition eTransferWrite : Z := 0x1000.
Definition eMemoryRead : Z := 0x8000.
Definition eMemoryWrite : Z := 0x10000.

#[global] Instance ImageLayout_eq_dec : EqDecision ImageLayout.
Proof. solve_decision. Defined.
#[global] Instance ImageTiling_eq_dec : EqDecision ImageTiling.
Proof. solve_decision. Defined.
#[global] Instance PipelineStage_eq_dec : EqDecision PipelineStage.
Proof. solve_decision. Defined.

(** ** Texture data *)

(** A pointer is the index of a CPU-visible allocation in the memory of the
    [World] below (a guest mapping, a mapped host image or a staging buffer). *)
Abbreviation Pointer := nat (only parsing).
Abbreviation TextureId := nat (only parsing).
Abbreviation CycleId := nat (only parsing).

Record Dimensions := { width : Z; height : Z; depth : Z }.

#[global] Instance Dimensions_eq_dec : EqDecision Dimensions.
Proof. solve_decision. Defined.

(** [texture::Format] is a handle to a format description; two formats are
    compared by handle. *)
Abbreviation Format := Z (only parsing).

Inductive TileMode := Linear | Pitch | Block.

Record TileConfig := { mode : TileMode }.

(** [span<u8>]: one mapping of guest memory *)
Record span := { data : Pointer; size : Z }.

Record GuestTexture := {
  mappings : list span;
  guest_dimensions : Dimensions;
  guest_format : Format;
  tileConfig : TileConfig;
  guest_layerCount : Z
}.

(** Modelled from the spec: the type of [backing] is declared in texture.h,
    which is not part of the sources; the backing is "either absent (deferred)
    or an owned host image resource, itself either GPU-local or CPU-mappable".
    [MemoryImage] is the alternative [memory::Image], the only one
    [std::holds_alternative<memory::Image>] accepts and [data()] maps. *)
Inductive BackingType :=
| NoBacking
| DeviceImage (image : VkImage)
| MemoryImage (image : VkImage) (mapped : Pointer).

Definition GetBackingOf (b : BackingType) : VkImage :=
  match b with
  | NoBacking => VK_NULL_HANDLE
  | DeviceImage image => image
  | MemoryImage image _ => image
  end.

Definition holds_memory_image (b : BackingType) : bool :=
  match b with MemoryImage _ _ => true | _ => false end.

Record ImageSubresourceRange := {
  aspectMask : Z;
  baseMipLevel : Z;
  levelCount : Z;
  baseArrayLayer : Z;
  range_layerCount : Z
}.

Record ImageSubresourceLayers := {
  layers_aspectMask : Z;
  mipLevel : Z;
  layers_baseArrayLayer : Z;
  layers_layerCount : Z
}.

Record ImageViewCreateInfo := {
  view_image : VkImage;
  viewType : Z;
  view_format : Z;
  components : Z;
  view_subresourceRange : ImageSubresourceRange
}.

Record Texture := {
  backing : BackingType;
  layout : ImageLayout;
  guest : option GuestTexture;
  dimensions : Dimensions;
  format : Format;
  tiling : ImageTiling;
  mipLevels : Z;
  layerCount : Z;
  sampleCount : Z;
  cycle : option CycleId;        (* std::weak_ptr<FenceCycle> *)
  views : list (ImageViewCreateInfo * Z)
}.

Definition GetBacking (t : Texture) : VkImage := GetBackingOf (backing t).

Definition set_layout (l : ImageLayout) (t : Texture) : Texture :=
  {| backing := backing t; layout := l; guest := guest t;
     dimensions := dimensions t; format := format t; tiling := tiling t;
     mipLevels := mipLevels t; layerCount := layerCount t;
     sampleCount := sampleCount t; cycle := cycle t; views := views t |}.

Definition set_cycle (c : option CycleId) (t : Texture) : Texture :=
  {| backing := backing t; layout := layout t; guest := guest t;
     dimensions := dimensions t; format := format t; tiling := tiling t;
     mipLevels := mipLevels t; layerCount := layerCount t;
     sampleCount := sampleCount t; cycle := c; views := views t |}.

(** ** Recorded commands *)

Record ImageMemoryBarrier := {
  barrier_image : VkImage;
  srcAccessMask : Z;
  dstAccessMask : Z;
  oldLayout : ImageLayout;
  newLayout : ImageLayout;
  subresourceRange : ImageSubresourceRange
}.

Record BufferImageCopy := {
  imageExtent : Dimensions;
  imageSubresource : ImageSubresourceLayers
}.

Record ImageCopy := {
  srcSubresource : ImageSubresourceLayers;
  dstSubresource : ImageSubresourceLayers;
  extent : Dimensions
}.

Inductive Command :=
| pipelineBarrier (srcStage dstStage : PipelineStage) (b : ImageMemoryBarrier)
| copyBufferToImage (src : VkBuffer) (dst : VkImage) (dstLayout : ImageLayout)
    (region : BufferImageCopy)
| copyImageToBuffer (src : VkImage) (srcLayout : ImageLayout) (dst : VkBuffer)
    (region : BufferImageCopy)
| copyImage (src : VkImage) (srcLayout : ImageLayout) (dst : VkImage)
    (dstLayout : ImageLayout) (region : ImageCopy).

(** ** Collaborators: staging buffers, fence cycles, the world *)

Record StagingBuffer := { vkBuffer : VkBuffer; staging_data : Pointer; staging_size : Z }.

(** [Texture::TextureBufferCopy]: a texture and an optional staging buffer *)
Record TextureBufferCopy := {
  copy_texture : TextureId;
  copy_stagingBuffer : option StagingBuffer
}.

(** What [FenceCycle::AttachObject(s)] is given in texture.cpp. *)
Inductive Attachment :=
| AttachedStagingBuffer (b : StagingBuffer)
| AttachedTexture (t : TextureId)
| AttachedCopy (g : TextureBufferCopy).

(** Modelled from the spec: fence_cycle.h is not part of the sources. A Fence
    Cycle "represents completion of one host GPU submission; supports blocking
    wait and attach object for deferred release on completion"; [expired]
    says that every owner has dropped it, so that a weak reference to it no
    longer locks. *)
Record FenceCycle := {
  signalled : bool;
  attached : list Attachment;
  expired : bool
}.

Record World := {
  textures : list Texture;            (* the Texture objects, by shared_ptr *)
  memory : list (list byte);          (* CPU-visible allocations, by pointer *)
  cycles : list FenceCycle;           (* the fence cycles handed out so far *)
  submitted : list (list Command)     (* units submitted through the scheduler *)
}.

Definition set_textures (ts : list Texture) (w : World) : World :=
  {| textures := ts; memory := memory w; cycles := cycles w; submitted := submitted w |}.
Definition set_memory (m : list (list byte)) (w : World) : World :=
  {| textures := textures w; memory := m; cycles := cycles w; submitted := submitted w |}.
Definition set_cycles (cs : list FenceCycle) (w : World) : World :=
  {| textures := textures w; memory := memory w; cycles := cs; submitted := submitted w |}.
Definition set_submitted (s : list (list Command)) (w : World) : World :=
  {| textures := textures w; memory := memory w; cycles := cycles w; submitted := s |}.

(** The exceptions texture.cpp throws, by message. The allocator, the
    scheduler and the wait on a fence cycle always succeed here: a failure of
    a collaborator, which would pass through the calls of texture.cpp
    uncaught, is not modelled, and the theorems are about the runs in which
    the collaborators succeed. *)
Inductive exception :=
| NoGuestToSynchronizeFrom         (* "Synchronization of host textures requires a valid guest texture to synchronize from" *)
| DimensionsDifferent              (* "Guest and host dimensions being different is not supported currently" *)
| MultipleMappings (n : nat)       (* "Synchronizing textures across {} mappings is not supported" *)
| GuestToHostNotImplemented (t : ImageTiling)  (* "Guest -> Host synchronization of images tiled as '{}' isn't implemented" *)
| NoGuestToSynchronizeTo           (* "Synchronization of guest textures requires a valid guest texture to synchronize to" *)
| HostToGuestNotImplemented (t : ImageTiling)  (* "Host -> Guest synchronization of images tiled as '{}' isn't implemented" *)
| CopyUndefinedLayout              (* "Cannot copy from image with undefined layout" *)
| CopyDifferentDimensions          (* "Cannot copy from image with different dimensions" *)
| CopyDifferentFormat.             (* "Cannot copy from image with different format" *)

(** The outcome of a call: it returns, it throws (what it changed before the
    throw stays changed), it runs into undefined behaviour (an index or a copy
    out of range, a null or dangling reference), or it blocks for ever on the
    backing condition, which only another thread can signal. *)
Inductive Result (A : Type) :=
| Ok (a : A) (w : World)
| Throw (e : exception) (w : World)
| Undefined
| Blocked.

Arguments Ok {A} a w.
Arguments Throw {A} e w.
Arguments Undefined {A}.
Arguments Blocked {A}.

Definition M (A : Type) : Type := World -> Result A.

Definition ret {A} (a : A) : M A := fun w => Ok a w.

Definition bind {A B} (m : M A) (k : A -> M B) : M B :=
  fun w =>
    match m w with
    | Ok a w' => k a w'
    | Throw e w' => Throw e w'
    | Undefined => Undefined
    | Blocked => Blocked
    end.

Definition throw {A} (e : exception) : M A := fun w => Throw e w.
Definition undefined {A} : M A := fun _ => Undefined.
Definition blocked {A} : M A := fun _ => Blocked.

Notation "x <- m ;; k" := (bind m (fun x => k))
  (at level 100, m at next level, right associativity).
Notation "m ;;; k" := (bind m (fun _ => k))
  (at level 100, right associativity).

Definition when (b : bool) (m : M unit) : M unit := if b then m else ret tt.

(** ** Primitive accesses to the world *)

(** Dereferencing a [shared_ptr<Texture>]; a dangling one is undefined. *)
Definition getTexture (t : TextureId) : M Texture :=
  fun w =>
    match textures w !! t with
    | Some x => Ok x w
    | None => Undefined
    end.

Definition modifyTexture (t : TextureId) (f : Texture -> Texture) : M unit :=
  fun w =>
    match textures w !! t with
    | Some x => Ok tt (set_textures (<[t := f x]> (textures w)) w)
    | None => Undefined
    end.

(** [v[0]] on a vector: undefined when the vector is empty. *)
Definition front {A} (v : list A) : M A :=
  match v with
  | x :: _ => ret x
  | [] => undefined
  end.

(** [*o] on a [std::optional]: undefined when it is empty. *)
Definition deref {A} (o : option A) : M A :=
  match o with
  | Some x => ret x
  | None => undefined
  end.

(** [std::memcpy(dst, src, n)]: the first [n] bytes of [src] replace the first
    [n] bytes of [dst]; reading or writing past the end of an allocation, and
    copying between overlapping regions, is undefined. *)
Definition memcpy (dst src : Pointer) (n : Z) : M unit :=
  fun w =>
    match memory w !! dst, memory w !! src with
    | Some d, Some s =>
        let k := Z.to_nat n in
        if (k <=? length d)%nat && (k <=? length s)%nat
           && (negb (dst =? src)%nat || (k =? 0)%nat)
        then Ok tt (set_memory (<[dst := take k s ++ drop k d]> (memory w)) w)
        else Undefined
    | _, _ => Undefined
    end.

(** A call into the tiling codec: [f g input output] is what the codec leaves
    in the output allocation. *)
Definition convert (f : GuestTexture -> list byte -> list byte -> list byte)
    (g : GuestTexture) (input output : Pointer) : M unit :=
  fun w =>
    match memory w !! input, memory w !! output with
    | Some i, Some o => Ok tt (set_memory (<[output := f g i o]> (memory w)) w)
    | _, _ => Undefined
    end.

(** Modelled from the spec: the allocator is not part of the sources;
    "AllocateStagingBuffer(size) -> StagingBuffer{pointer, size}". The buffer
    is a fresh allocation of [size] bytes. *)
Definition AllocateStagingBuffer (sz : Z) : M StagingBuffer :=
  fun w =>
    let p := length (memory w) in
    Ok {| vkBuffer := Z.of_nat p + 1; staging_data := p; staging_size := sz |}
       (set_memory (memory w ++ [replicate (Z.to_nat sz) x00]) w).

(** [weak_ptr::lock]: the cycle, unless it has expired. *)
Definition lock (c : option CycleId) : M (option CycleId) :=
  fun w =>
    match c with
    | None => Ok None w
    | Some id =>
        match cycles w !! id with
        | Some fc => if expired fc then Ok None w else Ok (Some id) w
        | None => Ok None w
        end
    end.

(** Modelled from the spec: the scheduler is not part of the sources;
    "Submit(recorded-work) -> FenceCycle". The work is recorded at once into a
    command buffer of its own, which is submitted as one unit, and a new
    cycle stands for its completion. *)
Definition Submit (record : M (list Command)) : M CycleId :=
  cmds <- record ;;
  fun w =>
    Ok (length (cycles w))
       (set_submitted (submitted w ++ [cmds])
          (set_cycles (cycles w ++ [{| signalled := false; attached := []; expired := false |}]) w)).

(** Modelled from the spec: "AttachObject(s)(ownedRefs...) (defer release
    until completion)". Through a null cycle it is undefined. *)
Definition AttachObjects (c : option CycleId) (objs : list Attachment) : M unit :=
  fun w =>
    match c with
    | None => Undefined
    | Some id =>
        match cycles w !! id with
        | Some fc =>
            Ok tt (set_cycles (<[id := {| signalled := signalled fc;
                                          attached := attached fc ++ objs;
                                          expired := expired fc |}]> (cycles w)) w)
        | None => Undefined
        end
    end.

Definition is_some {A} (o : option A) : bool :=
  match o with Some _ => true | None => false end.

Definition same_cycle (a b : option CycleId) : bool := bool_decide (a = b).

(** What texture.cpp uses of texture.h and copy.h, which are not part of the
    sources: the size of an image in a format, the aspect of a format, and the
    tiling codec, "a pure byte-layout transform between a guest tiled buffer
    and a linear buffer" ([f g input output] is what the codec leaves in the
    output allocation). *)
Record External := {
  GetSize : Format -> Dimensions -> Z;
  vkAspect : Format -> Z;
  CopyBlockLinearToLinear : GuestTexture -> list byte -> list byte -> list byte;
  CopyPitchLinearToLinear : GuestTexture -> list byte -> list byte -> list byte;
  CopyLinearToBlockLinear : GuestTexture -> list byte -> list byte -> list byte;
  CopyLinearToPitchLinear : GuestTexture -> list byte -> list byte -> list byte
}.

Section Skyline.

Variable ext : External.

(** ** Texture::CopyToGuest *)
Definition CopyToGuest (this : TextureId) (hostBuffer : Pointer) : M unit :=
  t <- getTexture this ;;
  g <- deref (guest t) ;;
  m0 <- front (mappings g) ;;
  let guestOutput := data m0 in
  let size := GetSize ext (format t) (dimensions t) in
  match mode (tileConfig g) with
  | Block => convert (CopyLinearToBlockLinear ext) g hostBuffer guestOutput
  | Pitch => convert (CopyLinearToPitchLinear ext) g hostBuffer guestOutput
  | Linear => memcpy hostBuffer guestOutput size
  end.

(** ** Texture::TextureBufferCopy::~TextureBufferCopy
    [std::get<memory::Image>] on another alternative throws out of a
    destructor, which terminates the program. *)
Definition TextureBufferCopy_release (g : TextureBufferCopy) : M unit :=
  match copy_stagingBuffer g with
  | Some stagingBuffer => CopyToGuest (copy_texture g) (staging_data stagingBuffer)
  | None =>
      t <- getTexture (copy_texture g) ;;
      match backing t with
      | MemoryImage _ mapped => CopyToGuest (copy_texture g) mapped
      | _ => undefined
      end
  end.

(** Releasing an attached object: a copy guard runs its destructor; a staging
    buffer or a texture that loses one of its owners does nothing here. *)
Definition release (a : Attachment) : M unit :=
  match a with
  | AttachedCopy g => TextureBufferCopy_release g
  | AttachedStagingBuffer _ => ret tt
  | AttachedTexture _ => ret tt
  end.

Fixpoint release_all (l : list Attachment) : M unit :=
  match l with
  | [] => ret tt
  | a :: l' => release a ;;; release_all l'
  end.

(** Modelled from the spec: [FenceCycle::Wait] is not part of the sources;
    "Wait() (blocking)", and an attached object is "released exactly once when
    that cycle's completion handling runs": the first wait that sees the
    cycle complete marks it signalled and releases what was attached. *)
Definition FenceCycle_Wait (c : CycleId) : M unit :=
  fun w =>
    match cycles w !! c with
    | None => Undefined
    | Some fc =>
        if signalled fc then Ok tt w
        else release_all (attached fc)
               (set_cycles (<[c := {| signalled := true; attached := [];
                                      expired := expired fc |}]> (cycles w)) w)
    end.

(** ** Texture::WaitOnBacking *)
Definition WaitOnBacking (this : TextureId) : M bool :=
  t <- getTexture this ;;
  if negb (GetBacking t =? VK_NULL_HANDLE) then ret false else blocked.

(** ** Texture::WaitOnFence *)
Definition WaitOnFence (this : TextureId) : M unit :=
  t <- getTexture this ;;
  lCycle <- lock (cycle t) ;;
  match lCycle with
  | Some c => FenceCycle_Wait c ;;; modifyTexture this (set_cycle None)
  | None => ret tt
  end.

(** The guard [if (cycle.lock() != pCycle) WaitOnFence();] of the
    synchronisation calls: the wait is left out when the texture already
    tracks the cycle the caller supplies. *)
Definition wait_unless (this : TextureId) (pCycle : option CycleId) : M unit :=
  t <- getTexture this ;;
  lCycle <- lock (cycle t) ;;
  when (negb (same_cycle lCycle pCycle)) (WaitOnFence this).

(** The dispatch on the guest tile mode in [SynchronizeHostImpl]. *)
Definition convert_from_guest (g : GuestTexture) (pointer bufferData : Pointer) (size : Z)
  : M unit :=
  match mode (tileConfig g) with
  | Block => convert (CopyBlockLinearToLinear ext) g pointer bufferData
  | Pitch => convert (CopyPitchLinearToLinear ext) g pointer bufferData
  | Linear => memcpy bufferData pointer size
  end.

(** ** Texture::SwapBacking *)
Definition SwapBacking (this : TextureId) (pBacking : BackingType) (pLayout : ImageLayout) : M unit :=
  WaitOnFence this ;;;
  modifyTexture this (fun t =>
    {| backing := pBacking; layout := pLayout; guest := guest t;
       dimensions := dimensions t; format := format t; tiling := tiling t;
       mipLevels := mipLevels t; layerCount := layerCount t;
       sampleCount := sampleCount t; cycle := cycle t; views := views t |}).

(** The subresource range of the whole image, as the barriers of the staging
    copies and of [TransitionLayout] write it. *)
Definition whole_range (t : Texture) : ImageSubresourceRange :=
  {| aspectMask := vkAspect ext (format t); baseMipLevel := 0; levelCount := mipLevels t;
     baseArrayLayer := 0; range_layerCount := layerCount t |}.

Definition whole_layers (t : Texture) : ImageSubresourceLayers :=
  {| layers_aspectMask := vkAspect ext (format t); mipLevel := 0;
     layers_baseArrayLayer := 0; layers_layerCount := layerCount t |}.

Definition first_stage (l : ImageLayout) : PipelineStage :=
  if decide (l <> eUndefined) then eTopOfPipe else eBottomOfPipe.

(** ** Texture::SynchronizeHostImpl *)
Definition SynchronizeHostImpl (this : TextureId) (pCycle : option CycleId)
  : M (option StagingBuffer) :=
  t <- getTexture this ;;
  match guest t with
  | None => throw NoGuestToSynchronizeFrom
  | Some g =>
      if decide (guest_dimensions g <> dimensions t) then throw DimensionsDifferent
      else if (1 <? length (mappings g))%nat then throw (MultipleMappings (length (mappings g)))
      else
        m0 <- front (mappings g) ;;
        let pointer := data m0 in
        let size := GetSize ext (format t) (dimensions t) in
        _ <- WaitOnBacking this ;;
        staged <-
          (if bool_decide (tiling t = eOptimal) || negb (holds_memory_image (backing t)) then
             stagingBuffer <- AllocateStagingBuffer size ;;
             ret (Some stagingBuffer, staging_data stagingBuffer)
           else if bool_decide (tiling t = eLinear) then
             match backing t with
             | MemoryImage _ mapped =>
                 wait_unless this pCycle ;;;
                 ret (None, mapped)
             | _ => undefined
             end
           else throw (GuestToHostNotImplemented (tiling t))) ;;
        let stagingBuffer := fst staged in
        let bufferData := snd staged in
        convert_from_guest g pointer bufferData size ;;;
        when (is_some stagingBuffer) (wait_unless this pCycle) ;;;
        ret stagingBuffer
  end.

(** ** Texture::CopyFromStagingBuffer
    The result is what the call records into the command buffer. *)
Definition CopyFromStagingBuffer (this : TextureId) (stagingBuffer : StagingBuffer)
  : M (list Command) :=
  t <- getTexture this ;;
  let image := GetBacking t in
  before <-
    (if decide (layout t <> eTransferDstOptimal) then
       when (bool_decide (layout t = eUndefined))
            (modifyTexture this (set_layout eTransferDstOptimal)) ;;;
       ret [pipelineBarrier (first_stage (layout t)) eTransfer
              {| barrier_image := image;
                 srcAccessMask := Z.lor eMemoryRead eMemoryWrite;
                 dstAccessMask := eTransferWrite;
                 oldLayout := layout t;
                 newLayout := eTransferDstOptimal;
                 subresourceRange := whole_range t |}]
     else ret []) ;;
  t' <- getTexture this ;;
  let copy := copyBufferToImage (vkBuffer stagingBuffer) image eTransferDstOptimal
                {| imageExtent := dimensions t'; imageSubresource := whole_layers t' |} in
  let after :=
    if decide (layout t' <> eTransferDstOptimal) then
      [pipelineBarrier eTransfer eTransfer
         {| barrier_image := image;
            srcAccessMask := eTransferWrite;
            dstAccessMask := eMemoryRead;
            oldLayout := eTransferDstOptimal;
            newLayout := layout t';
            subresourceRange := whole_range t' |}]
    else [] in
  ret (before ++ [copy] ++ after).

(** ** Texture::CopyIntoStagingBuffer *)
Definition CopyIntoStagingBuffer (this : TextureId) (stagingBuffer : StagingBuffer)
  : M (list Command) :=
  t <- getTexture this ;;
  let image := GetBacking t in
  before <-
    (if decide (layout t <> eTransferSrcOptimal) then
       when (bool_decide (layout t = eUndefined))
            (modifyTexture this (set_layout eTransferSrcOptimal)) ;;;
       ret [pipelineBarrier (first_stage (layout t)) eTransfer
              {| barrier_image := image;
                 srcAccessMask := Z.lor eMemoryRead eMemoryWrite;
                 dstAccessMask := eTransferRead;
                 oldLayout := layout t;
                 newLayout := eTransferSrcOptimal;
                 subresourceRange := whole_range t |}]
     else ret []) ;;
  t' <- getTexture this ;;
  let copy := copyImageToBuffer image eTransferSrcOptimal (vkBuffer stagingBuffer)
                {| imageExtent := dimensions t'; imageSubresource := whole_layers t' |} in
  let after :=
    if decide (layout t' <> eTransferSrcOptimal) then
      [pipelineBarrier eTransfer eTransfer
         {| barrier_image := image;
            srcAccessMask := eTransferRead;
            dstAccessMask := eMemoryWrite;
            oldLayout := eTransferSrcOptimal;
            newLayout := layout t';
            subresourceRange := whole_range t' |}]
    else [] in
  ret (before ++ [copy] ++ after).

(** ** Texture::TransitionLayout *)
Definition TransitionLayout (this : TextureId) (pLayout : ImageLayout) : M unit :=
  WaitOnBacking this ;;;
  WaitOnFence this ;;;
  t <- getTexture this ;;
  if decide (layout t <> pLayout) then
    lCycle <- Submit (ret [pipelineBarrier (first_stage (layout t)) eBottomOfPipe
                             {| barrier_image := GetBacking t;
                                srcAccessMask := eMemoryWrite;
                                dstAccessMask := eMemoryRead;
                                oldLayout := layout t;
                                newLayout := pLayout;
                                subresourceRange := whole_range t |}]) ;;
    modifyTexture this (set_cycle (Some lCycle)) ;;;
    modifyTexture this (set_layout pLayout)
  else ret tt.

(** ** Texture::SynchronizeHost *)
Definition SynchronizeHost (this : TextureId) : M unit :=
  stagingBuffer <- SynchronizeHostImpl this None ;;
  match stagingBuffer with
  | Some sb =>
      lCycle <- Submit (CopyFromStagingBuffer this sb) ;;
      AttachObjects (Some lCycle) [AttachedStagingBuffer sb; AttachedTexture this] ;;;
      modifyTexture this (set_cycle (Some lCycle))
  | None => ret tt
  end.

(** ** Texture::SynchronizeHostWithBuffer
    The result is what the call records into the caller's command buffer. *)
Definition SynchronizeHostWithBuffer (this : TextureId) (pCycle : option CycleId)
  : M (list Command) :=
  stagingBuffer <- SynchronizeHostImpl this pCycle ;;
  match stagingBuffer with
  | Some sb =>
      cmds <- CopyFromStagingBuffer this sb ;;
      AttachObjects pCycle [AttachedStagingBuffer sb; AttachedTexture this] ;;;
      modifyTexture this (set_cycle pCycle) ;;;
      ret cmds
  | None => ret []
  end.

(** ** Texture::SynchronizeGuest *)
Definition SynchronizeGuest (this : TextureId) : M unit :=
  t <- getTexture this ;;
  match guest t with
  | None => throw NoGuestToSynchronizeTo
  | Some g =>
      if decide (layout t = eUndefined) then ret tt
      else if (1 <? length (mappings g))%nat then throw (MultipleMappings (length (mappings g)))
      else
        WaitOnBacking this ;;;
        WaitOnFence this ;;;
        if bool_decide (tiling t = eOptimal) || negb (holds_memory_image (backing t)) then
          let size := GetSize ext (format t) (dimensions t) in
          stagingBuffer <- AllocateStagingBuffer size ;;
          lCycle <- Submit (CopyIntoStagingBuffer this stagingBuffer) ;;
          AttachObjects (Some lCycle)
            [AttachedCopy {| copy_texture := this; copy_stagingBuffer := Some stagingBuffer |}] ;;;
          modifyTexture this (set_cycle (Some lCycle))
        else if bool_decide (tiling t = eLinear) then
          match backing t with
          | MemoryImage _ mapped => CopyToGuest this mapped
          | _ => undefined
          end
        else throw (HostToGuestNotImplemented (tiling t))
  end.

(** ** Texture::SynchronizeGuestWithBuffer *)
Definition SynchronizeGuestWithBuffer (this : TextureId) (pCycle : option CycleId)
  : M (list Command) :=
  t <- getTexture this ;;
  match guest t with
  | None => throw NoGuestToSynchronizeTo
  | Some g =>
      if decide (layout t = eUndefined) then ret []
      else if (1 <? length (mappings g))%nat then throw (MultipleMappings (length (mappings g)))
      else
        WaitOnBacking this ;;;
        wait_unless this pCycle ;;;
        if bool_decide (tiling t = eOptimal) || negb (holds_memory_image (backing t)) then
          let size := GetSize ext (format t) (dimensions t) in
          stagingBuffer <- AllocateStagingBuffer size ;;
          cmds <- CopyIntoStagingBuffer this stagingBuffer ;;
          AttachObjects pCycle
            [AttachedCopy {| copy_texture := this; copy_stagingBuffer := Some stagingBuffer |}] ;;;
          modifyTexture this (set_cycle pCycle) ;;;
          ret cmds
        else if bool_decide (tiling t = eLinear) then
          match backing t with
          | MemoryImage _ mapped =>
              CopyToGuest this mapped ;;;
              AttachObjects pCycle
                [AttachedCopy {| copy_texture := this; copy_stagingBuffer := None |}] ;;;
              modifyTexture this (set_cycle pCycle) ;;;
              ret []
          | _ => undefined
          end
        else throw (HostToGuestNotImplemented (tiling t))
  end.

(** ** Texture::CopyFrom *)

(** The loop over the mip levels: one [copyImage] while
    [subresourceLayers.mipLevel] is below the bound of the loop. *)
Fixpoint copy_levels (fuel : nat) (sourceBacking destinationBacking : VkImage)
    (dims : Dimensions) (subresourceLayers : ImageSubresourceLayers) (bound : Z)
  : list Command :=
  match fuel with
  | O => []
  | S fuel' =>
      if mipLevel subresourceLayers <? bound then
        copyImage sourceBacking eTransferSrcOptimal destinationBacking eTransferDstOptimal
          {| srcSubresource := subresourceLayers;
             dstSubresource := subresourceLayers;
             extent := dims |}
        :: copy_levels fuel' sourceBacking destinationBacking dims
             {| layers_aspectMask := layers_aspectMask subresourceLayers;
                mipLevel := wrap32 (mipLevel subresourceLayers + 1);
                layers_baseArrayLayer := layers_baseArrayLayer subresourceLayers;
                layers_layerCount := layers_layerCount subresourceLayers |}
             bound
      else []
  end.

(** The bound the loop compares [mipLevel] with. *)
Definition level_bound (dst : Texture) (subresource : ImageSubresourceRange) : Z :=
  if levelCount subresource =? VK_REMAINING_MIP_LEVELS
  then wrap32 (mipLevels dst - baseMipLevel subresource)
  else levelCount subresource.

Definition first_layers (dst : Texture) (subresource : ImageSubresourceRange)
  : ImageSubresourceLayers :=
  {| layers_aspectMask := aspectMask subresource;
     mipLevel := baseMipLevel subresource;
     layers_baseArrayLayer := baseArrayLayer subresource;
     layers_layerCount :=
       if range_layerCount subresource =? VK_REMAINING_ARRAY_LAYERS
       then wrap32 (layerCount dst - baseArrayLayer subresource)
       else range_layerCount subresource |}.

(** What the work submitted by [CopyFrom] records. *)
Definition CopyFrom_record (this source : TextureId) (subresource : ImageSubresourceRange)
  : M (list Command) :=
  src <- getTexture source ;;
  let sourceBacking := GetBacking src in
  let toSource :=
    if decide (layout src <> eTransferSrcOptimal) then
      [pipelineBarrier eTopOfPipe eTransfer
         {| barrier_image := sourceBacking;
            srcAccessMask := Z.lor eMemoryRead eMemoryWrite;
            dstAccessMask := eTransferRead;
            oldLayout := layout src;
            newLayout := eTransferSrcOptimal;
            subresourceRange := subresource |}]
    else [] in
  dst <- getTexture this ;;
  let destinationBacking := GetBacking dst in
  toDestination <-
    (if decide (layout dst <> eTransferDstOptimal) then
       when (bool_decide (layout dst = eUndefined))
            (modifyTexture this (set_layout eTransferDstOptimal)) ;;;
       ret [pipelineBarrier (first_stage (layout dst)) eTransfer
              {| barrier_image := destinationBacking;
                 srcAccessMask := Z.lor eMemoryRead eMemoryWrite;
                 dstAccessMask := eTransferWrite;
                 oldLayout := layout dst;
                 newLayout := eTransferDstOptimal;
                 subresourceRange := subresource |}]
     else ret []) ;;
  dst' <- getTexture this ;;
  let bound := level_bound dst' subresource in
  let copies :=
    copy_levels (Z.to_nat (bound - baseMipLevel subresource))
      sourceBacking destinationBacking (dimensions dst')
      (first_layers dst' subresource) bound in
  let restoreDestination :=
    if decide (layout dst' <> eTransferDstOptimal) then
      [pipelineBarrier eTransfer eTransfer
         {| barrier_image := destinationBacking;
            srcAccessMask := eTransferWrite;
            dstAccessMask := eMemoryRead;
            oldLayout := eTransferDstOptimal;
            newLayout := layout dst';
            subresourceRange := subresource |}]
    else [] in
  src' <- getTexture source ;;
  let restoreSource :=
    if decide (layout dst' <> eTransferSrcOptimal) then
      [pipelineBarrier eTransfer eTransfer
         {| barrier_image := sourceBacking;
            srcAccessMask := eTransferRead;
            dstAccessMask := eMemoryWrite;
            oldLayout := eTransferSrcOptimal;
            newLayout := layout src';
            subresourceRange := subresource |}]
    else [] in
  ret (toSource ++ toDestination ++ copies ++ restoreDestination ++ restoreSource).

Definition CopyFrom (this source : TextureId) (subresource : ImageSubresourceRange) : M unit :=
  WaitOnBacking this ;;;
  WaitOnFence this ;;;
  WaitOnBacking source ;;;
  WaitOnFence source ;;;
  src <- getTexture source ;;
  dst <- getTexture this ;;
  if decide (layout src = eUndefined) then throw CopyUndefinedLayout
  else if decide (dimensions src <> dimensions dst) then throw CopyDifferentDimensions
  else if decide (format src <> format dst) then throw CopyDifferentFormat
  else
    lCycle <- Submit (CopyFrom_record this source subresource) ;;
    AttachObjects (Some lCycle) [AttachedTexture source; AttachedTexture this] ;;;
    modifyTexture this (set_cycle (Some lCycle)).

End Skyline.

(** ** Construction and views *)

(** A new [Texture] object: the next index of the store. *)
Definition newTexture (t : Texture) : M TextureId :=
  fun w => Ok (length (textures w)) (set_textures (textures w ++ [t]) w).

Definition set_backing (b : BackingType) (t : Texture) : Texture :=
  {| backing := b; layout := layout t; guest := guest t;
     dimensions := dimensions t; format := format t; tiling := tiling t;
     mipLevels := mipLevels t; layerCount := layerCount t;
     sampleCount := sampleCount t; cycle := cycle t; views := views t |}.

(** Modelled from the spec: the allocator is not part of the sources;
    "AllocateImage/AllocateMappedImage(createInfo) -> Image{handle, optional CPU
    pointer}". The handle is the allocator's choice, [image]; a mapped image
    comes with a fresh allocation of [mappedSize] bytes. *)
Definition AllocateImage (image : VkImage) : M BackingType :=
  ret (DeviceImage image).

Definition AllocateMappedImage (image : VkImage) (mappedSize : Z) : M BackingType :=
  fun w =>
    Ok (MemoryImage image (length (memory w)))
       (set_memory (memory w ++ [replicate (Z.to_nat mappedSize) x00]) w).

(** [vk::SampleCountFlagBits::e1] *)
Definition eSampleCount1 : Z := 1.

Section Lifecycle.

Variable ext : External.

(** ** Texture::Texture(GPU &, GuestTexture)
    The image create info only reaches the allocator. *)
Definition Texture_fromGuest (pGuest : GuestTexture) (image : VkImage) (mappedSize : Z)
  : M TextureId :=
  let tiling :=
    match mode (tileConfig pGuest) with Block => eOptimal | _ => eLinear end in
  this <- newTexture
            {| backing := NoBacking; layout := eUndefined; guest := Some pGuest;
               dimensions := guest_dimensions pGuest; format := guest_format pGuest;
               tiling := tiling; mipLevels := 1; layerCount := guest_layerCount pGuest;
               sampleCount := eSampleCount1; cycle := None; views := [] |} ;;
  b <- (if decide (tiling <> eLinear) then AllocateImage image
        else AllocateMappedImage image mappedSize) ;;
  modifyTexture this (set_backing b) ;;;
  TransitionLayout ext this eGeneral ;;;
  ret this.

(** ** Texture::Texture(GPU &, Dimensions, Format, ImageLayout, ImageUsageFlags, ...)
    The usage flags only reach the allocator. *)
Definition Texture_withLayout (pDimensions : Dimensions) (pFormat : Format)
    (initialLayout : ImageLayout) (pTiling : ImageTiling) (pMipLevels pLayerCount pSampleCount : Z)
    (image : VkImage) (mappedSize : Z) : M TextureId :=
  let layout0 :=
    if decide (initialLayout = ePreinitialized) then ePreinitialized else eUndefined in
  this <- newTexture
            {| backing := NoBacking; layout := layout0; guest := None;
               dimensions := pDimensions; format := pFormat;
               tiling := pTiling; mipLevels := pMipLevels; layerCount := pLayerCount;
               sampleCount := pSampleCount; cycle := None; views := [] |} ;;
  b <- (if decide (pTiling <> eLinear) then AllocateImage image
        else AllocateMappedImage image mappedSize) ;;
  modifyTexture this (set_backing b) ;;;
  when (bool_decide (initialLayout <> layout0)) (TransitionLayout ext this initialLayout) ;;;
  ret this.

(** ** Texture::~Texture *)
Definition Texture_destroy (this : TextureId) : M unit := WaitOnFence ext this.

End Lifecycle.

(** [vk::ImageType] and the [vk::ImageViewType] values [GetView] chooses *)
Inductive ImageType := e1D | e2D | e3D.

Definition eViewType1D : Z := 0.
Definition eViewType2D : Z := 1.
Definition eViewType3D : Z := 2.
Definition eViewType1DArray : Z := 4.
Definition eViewType2DArray : Z := 5.

#[global] Instance ImageSubresourceRange_eq_dec : EqDecision ImageSubresourceRange.
Proof. solve_decision. Defined.
#[global] Instance ImageViewCreateInfo_eq_dec : EqDecision ImageViewCreateInfo.
Proof. solve_decision. Defined.

(** [TextureView]: the texture it views, the type, format and component
    mapping it was made with, its range, and its own view, which nothing in
    texture.cpp sets. *)
Record TextureView := {
  view_backing : TextureId;
  view_type : Z;
  view_override : option Format;
  view_mapping : Z;
  view_range : ImageSubresourceRange;
  view_own : option Z
}.

(** What [GetView] uses of texture.h, which is not part of the sources: the
    image type of the dimensions and the Vulkan format of a format. *)
Record ViewExternal := {
  GetType : Dimensions -> ImageType;
  vkFormat : Format -> Z
}.

Definition view_type_of (ty : ImageType) (range : ImageSubresourceRange) : Z :=
  match ty with
  | e1D => if 1 <? range_layerCount range then eViewType1DArray else eViewType1D
  | e2D => if 1 <? range_layerCount range then eViewType2DArray else eViewType2D
  | e3D => eViewType3D
  end.

(** The create info [GetView] builds for a view of texture [t]. *)
Definition view_create_info (vext : ViewExternal) (v : TextureView) (t : Texture)
  : ImageViewCreateInfo :=
  {| view_image := GetBacking t;
     viewType := view_type_of (GetType vext (dimensions t)) (view_range v);
     view_format :=
       match view_override v with
       | Some f => vkFormat vext f
       | None => vkFormat vext (format t)
       end;
     components := view_mapping v;
     view_subresourceRange := view_range v |}.

Definition add_view (item : ImageViewCreateInfo * Z) (t : Texture) : Texture :=
  {| backing := backing t; layout := layout t; guest := guest t;
     dimensions := dimensions t; format := format t; tiling := tiling t;
     mipLevels := mipLevels t; layerCount := layerCount t;
     sampleCount := sampleCount t; cycle := cycle t; views := views t ++ [item] |}.

(** The test [item.first == createInfo] of the search through the cache. *)
Definition serves (info : ImageViewCreateInfo) (item : ImageViewCreateInfo * Z) : bool :=
  bool_decide (fst item = info).

(** ** TextureView::GetView
    [created] is the handle of the image view the device makes when the cache
    of the texture has none for the create info. *)
Definition GetView (vext : ViewExternal) (created : Z) (v : TextureView) : M Z :=
  match view_own v with
  | Some view => ret view
  | None =>
      t <- getTexture (view_backing v) ;;
      let createInfo := view_create_info vext v t in
      match List.find (serves createInfo) (views t) with
      | Some item => ret (snd item)
      | None =>
          modifyTexture (view_backing v) (add_view (createInfo, created)) ;;;
          ret created
      end
  end.


(** ** What the calls record, as functions of the textures *)

(** The barrier [TransitionLayout] records. *)
Definition transition_barrier (ext : External) (t : Texture) (pLayout : ImageLayout) : Command :=
  pipelineBarrier (first_stage (layout t)) eBottomOfPipe
    {| barrier_image := GetBacking t;
       srcAccessMask := eMemoryWrite;
       dstAccessMask := eMemoryRead;
       oldLayout := layout t;
       newLayout := pLayout;
       subresourceRange := whole_range ext t |}.

(** What [CopyFromStagingBuffer] records for a texture as it is before the
    call: the barrier to the transfer-destination layout unless the texture
    is in it, the copy, and the barrier back unless the layout was
    transfer-destination or undefined. *)
Definition upload_commands (ext : External) (t : Texture) (stagingBuffer : StagingBuffer)
  : list Command :=
  (if decide (layout t <> eTransferDstOptimal) then
     [pipelineBarrier (first_stage (layout t)) eTransfer
        {| barrier_image := GetBacking t;
           srcAccessMask := Z.lor eMemoryRead eMemoryWrite;
           dstAccessMask := eTransferWrite;
           oldLayout := layout t;
           newLayout := eTransferDstOptimal;
           subresourceRange := whole_range ext t |}]
   else [])
  ++ [copyBufferToImage (vkBuffer stagingBuffer) (GetBacking t) eTransferDstOptimal
        {| imageExtent := dimensions t; imageSubresource := whole_layers ext t |}]
  ++ (if decide (layout t <> eTransferDstOptimal /\ layout t <> eUndefined) then
        [pipelineBarrier eTransfer eTransfer
           {| barrier_image := GetBacking t;
              srcAccessMask := eTransferWrite;
              dstAccessMask := eMemoryRead;
              oldLayout := eTransferDstOptimal;
              newLayout := layout t;
              subresourceRange := whole_range ext t |}]
      else []).

(** The same for [CopyIntoStagingBuffer] and the transfer-source layout. *)
Definition download_commands (ext : External) (t : Texture) (stagingBuffer : StagingBuffer)
  : list Command :=
  (if decide (layout t <> eTransferSrcOptimal) then
     [pipelineBarrier (first_stage (layout t)) eTransfer
        {| barrier_image := GetBacking t;
           srcAccessMask := Z.lor eMemoryRead eMemoryWrite;
           dstAccessMask := eTransferRead;
           oldLayout := layout t;
           newLayout := eTransferSrcOptimal;
           subresourceRange := whole_range ext t |}]
   else [])
  ++ [copyImageToBuffer (GetBacking t) eTransferSrcOptimal (vkBuffer stagingBuffer)
        {| imageExtent := dimensions t; imageSubresource := whole_layers ext t |}]
  ++ (if decide (layout t <> eTransferSrcOptimal /\ layout t <> eUndefined) then
        [pipelineBarrier eTransfer eTransfer
           {| barrier_image := GetBacking t;
              srcAccessMask := eTransferRead;
              dstAccessMask := eMemoryWrite;
              oldLayout := eTransferSrcOptimal;
              newLayout := layout t;
              subresourceRange := whole_range ext t |}]
      else []).

(** The world after a staging copy has been recorded: an undefined layout has
    become the transfer layout [L]. *)
Definition define_layout (L : ImageLayout) (this : TextureId) (t : Texture) (w : World) : World :=
  if decide (layout t = eUndefined)
  then set_textures (<[this := set_layout L t]> (textures w)) w
  else w.

(** What [CopyFrom] records, as a function of the source and the destination
    as they are when the recording starts. *)
Definition CopyFrom_commands (src dst : Texture) (subresource : ImageSubresourceRange)
  : list Command :=
  let dst' := if decide (layout dst = eUndefined) then set_layout eTransferDstOptimal dst else dst in
  (if decide (layout src <> eTransferSrcOptimal) then
     [pipelineBarrier eTopOfPipe eTransfer
        {| barrier_image := GetBacking src;
           srcAccessMask := Z.lor eMemoryRead eMemoryWrite;
           dstAccessMask := eTransferRead;
           oldLayout := layout src;
           newLayout := eTransferSrcOptimal;
           subresourceRange := subresource |}]
   else [])
  ++ (if decide (layout dst <> eTransferDstOptimal) then
        [pipelineBarrier (first_stage (layout dst)) eTransfer
           {| barrier_image := GetBacking dst;
              srcAccessMask := Z.lor eMemoryRead eMemoryWrite;
              dstAccessMask := eTransferWrite;
              oldLayout := layout dst;
              newLayout := eTransferDstOptimal;
              subresourceRange := subresource |}]
      else [])
  ++ copy_levels (Z.to_nat (level_bound dst' subresource - baseMipLevel subresource))
       (GetBacking src) (GetBacking dst) (dimensions dst')
       (first_layers dst' subresource) (level_bound dst' subresource)
  ++ (if decide (layout dst' <> eTransferDstOptimal) then
        [pipelineBarrier eTransfer eTransfer
           {| barrier_image := GetBacking dst;
              srcAccessMask := eTransferWrite;
              dstAccessMask := eMemoryRead;
              oldLayout := eTransferDstOptimal;
              newLayout := layout dst';
              subresourceRange := subresource |}]
      else [])
  ++ (if decide (layout dst' <> eTransferSrcOptimal) then
        [pipelineBarrier eTransfer eTransfer
           {| barrier_image := GetBacking src;
              srcAccessMask := eTransferRead;
              dstAccessMask := eMemoryWrite;
              oldLayout := eTransferSrcOptimal;
              newLayout := layout src;
              subresourceRange := subresource |}]
      else []).

Definition is_copyImage (c : Command) : bool :=
  match c with copyImage _ _ _ _ _ => true | _ => false end.

Definition is_copyBufferToImage (c : Command) : bool :=
  match c with copyBufferToImage _ _ _ _ => true | _ => false end.

(** ** Worlds before and after a call *)

(** The world a call leaves behind, whether it returns or throws. *)
Definition after {A} (r : Result A) (w' : World) : Prop :=
  match r with
  | Ok _ w1 => w1 = w'
  | Throw _ w1 => w1 = w'
  | Undefined => False
  | Blocked => False
  end.

(** A computation keeps a relation between the worlds before and after it. *)
Definition keeps {A} (R : World -> World -> Prop) (m : M A) : Prop :=
  forall w w', after (m w) w' -> R w w'.

(** Only the memory and the state of the fence cycles may differ. *)
Definition same_objects (w w' : World) : Prop :=
  textures w' = textures w /\ submitted w' = submitted w /\
  length (cycles w') = length (cycles w).

(** The layout of every texture is as it was. *)
Definition same_layouts (w w' : World) : Prop :=
  layout <$> textures w' = layout <$> textures w.

(** The layout of [this] is as it was, unless it was undefined. *)
Definition layout_kept (this : TextureId) (w w' : World) : Prop :=
  forall t, textures w !! this = Some t -> layout t <> eUndefined ->
    exists t', textures w' !! this = Some t' /\ layout t' = layout t.

(** A call fails without having changed anything. *)
Definition fails_unchanged {A} (r : Result A) (w : World) : Prop :=
  exists e, r = Throw e w.

(** ** Statements of the specification, to compare the code with *)


(** "calling TransitionLayout(L) twice in a row issues only one GPU command;
    layout equals L after either call", read as exactly one command. *)
Definition transition_twice_as_specified (ext : External) (w : World) (this : TextureId)
    (L : ImageLayout) : Prop :=
  forall t, textures w !! this = Some t -> GetBacking t <> VK_NULL_HANDLE ->
    exists w1 w2,
      TransitionLayout ext this L w = Ok tt w1 /\
      TransitionLayout ext this L w1 = Ok tt w2 /\
      length (submitted w2) = S (length (submitted w)) /\
      submitted w2 = submitted w1 /\
      layout <$> textures w1 !! this = Some L /\
      layout <$> textures w2 !! this = Some L.

(** The sequence the specification describes for [CopyFrom]: the source to
    the transfer-source layout if it is in another one, the destination to
    the transfer-destination layout if it is in another one, one copy for
    each mip level of the range, the sentinels standing for all the levels
    and layers that remain from the base, and each image back to its own
    layout. [restoreDestination] says whether the destination is put back. *)
Definition copy_sequence (src dst : Texture) (subresource : ImageSubresourceRange)
    (restoreDestination : bool) : list Command :=
  let levels :=
    if levelCount subresource =? VK_REMAINING_MIP_LEVELS
    then mipLevels dst - baseMipLevel subresource
    else levelCount subresource in
  let layers :=
    if range_layerCount subresource =? VK_REMAINING_ARRAY_LAYERS
    then layerCount dst - baseArrayLayer subresource
    else range_layerCount subresource in
  let level (i : nat) : ImageSubresourceLayers :=
    {| layers_aspectMask := aspectMask subresource;
       mipLevel := baseMipLevel subresource + Z.of_nat i;
       layers_baseArrayLayer := baseArrayLayer subresource;
       layers_layerCount := layers |} in
  (if decide (layout src <> eTransferSrcOptimal) then
     [pipelineBarrier eTopOfPipe eTransfer
        {| barrier_image := GetBacking src;
           srcAccessMask := Z.lor eMemoryRead eMemoryWrite;
           dstAccessMask := eTransferRead;
           oldLayout := layout src;
           newLayout := eTransferSrcOptimal;
           subresourceRange := subresource |}]
   else [])
  ++ (if decide (layout dst <> eTransferDstOptimal) then
        [pipelineBarrier (first_stage (layout dst)) eTransfer
           {| barrier_image := GetBacking dst;
              srcAccessMask := Z.lor eMemoryRead eMemoryWrite;
              dstAccessMask := eTransferWrite;
              oldLayout := layout dst;
              newLayout := eTransferDstOptimal;
              subresourceRange := subresource |}]
      else [])
  ++ map (fun i => copyImage (GetBacking src) eTransferSrcOptimal
                     (GetBacking dst) eTransferDstOptimal
                     {| srcSubresource := level i; dstSubresource := level i;
                        extent := dimensions dst |})
         (seq 0 (Z.to_nat levels))
  ++ (if restoreDestination then
        [pipelineBarrier eTransfer eTransfer
           {| barrier_image := GetBacking dst;
              srcAccessMask := eTransferWrite;
              dstAccessMask := eMemoryRead;
              oldLayout := eTransferDstOptimal;
              newLayout := layout dst;
              subresourceRange := subresource |}]
      else [])
  ++ (if decide (layout src <> eTransferSrcOptimal) then
        [pipelineBarrier eTransfer eTransfer
           {| barrier_image := GetBacking src;
              srcAccessMask := eTransferRead;
              dstAccessMask := eMemoryWrite;
              oldLayout := eTransferSrcOptimal;
              newLayout := layout src;
              subresourceRange := subresource |}]
      else []).

(** "skipping the restore step when the layout already equals the transfer
    layout used": the destination is put back exactly when its layout was not
    the transfer-destination layout. *)
Definition copy_sequence_as_specified (src dst : Texture) (subresource : ImageSubresourceRange)
  : list Command :=
  copy_sequence src dst subresource (bool_decide (layout dst <> eTransferDstOptimal)).

(** As the code has it: a destination in the undefined layout is not put
    back either; it stays in the transfer-destination layout. *)
Definition copy_sequence_of_code (src dst : Texture) (subresource : ImageSubresourceRange)
  : list Command :=
  copy_sequence src dst subresource
    (bool_decide (layout dst <> eTransferDstOptimal /\ layout dst <> eUndefined)).

Definition copy_records_as_specified (ext : External) (w : World) (this source : TextureId)
    (subresource : ImageSubresourceRange) : Prop :=
  forall dst src,
    textures w !! this = Some dst -> textures w !! source = Some src ->
    layout src <> eUndefined -> dimensions src = dimensions dst -> format src = format dst ->
    exists w',
      CopyFrom ext this source subresource w = Ok tt w' /\
      submitted w' = submitted w ++ [copy_sequence_as_specified src dst subresource].

(** "fails before any command is submitted (destination and source state
    unchanged)", the state being the layout, the backing and the tracked
    cycle of each. *)
Definition copy_checks_as_specified (ext : External) (w : World) (this source : TextureId)
    (subresource : ImageSubresourceRange) : Prop :=
  forall dst src,
    textures w !! this = Some dst -> textures w !! source = Some src ->
    layout src = eUndefined \/ dimensions src <> dimensions dst \/ format src <> format dst ->
    exists e w',
      CopyFrom ext this source subresource w = Throw e w' /\
      submitted w' = submitted w /\
      exists dst' src',
        textures w' !! this = Some dst' /\ textures w' !! source = Some src' /\
        layout dst' = layout dst /\ backing dst' = backing dst /\ cycle dst' = cycle dst /\
        layout src' = layout src /\ backing src' = backing src /\ cycle src' = cycle src.

(** ** Example data *)

Definition ext0 : External :=
  {| GetSize := fun _ d => width d * height d * depth d * 4;
     vkAspect := fun _ => 1;
     CopyBlockLinearToLinear := fun _ i _ => rev i;
     CopyPitchLinearToLinear := fun _ i _ => i;
     CopyLinearToBlockLinear := fun _ i _ => rev i;
     CopyLinearToPitchLinear := fun _ i _ => i |}.

Definition dims1 : Dimensions := {| width := 1; height := 1; depth := 1 |}.
Definition dims2 : Dimensions := {| width := 2; height := 1; depth := 1 |}.

Definition guest0 (ms : list span) (d : Dimensions) (m : TileMode) : GuestTexture :=
  {| mappings := ms; guest_dimensions := d; guest_format := 7;
     tileConfig := {| mode := m |}; guest_layerCount := 1 |}.

Definition texture0 (b : BackingType) (l : ImageLayout) (g : option GuestTexture)
    (tl : ImageTiling) (c : option CycleId) : Texture :=
  {| backing := b; layout := l; guest := g; dimensions := dims1; format := 7;
     tiling := tl; mipLevels := 3; layerCount := 2; sampleCount := 1;
     cycle := c; views := [] |}.

Definition world0 (ts : list Texture) (cs : list FenceCycle) : World :=
  {| textures := ts;
     memory := [[x01; x02; x03; x04]; [x0a; x0b; x0c; x0d]; [x11; x12; x13; x14]];
     cycles := cs;
     submitted := [] |}.

Definition span0 : span := {| data := 0%nat; size := 4 |}.
Definition span2 : span := {| data := 2%nat; size := 4 |}.

(** A linear, CPU-mapped texture in the general layout over a [Linear] guest
    texture with one mapping: allocation 0 is the guest mapping, allocation 1
    the mapped host image. *)
Definition linear_texture : Texture :=
  texture0 (MemoryImage 5 1%nat) eGeneral (Some (guest0 [span0] dims1 Linear)) eLinear None.
Definition linear_world : World := world0 [linear_texture] [].

(** The same over a guest descriptor without any mapping. *)
Definition unmapped_texture : Texture :=
  texture0 (MemoryImage 5 1%nat) eGeneral (Some (guest0 [] dims1 Linear)) eLinear None.
Definition unmapped_world : World := world0 [unmapped_texture] [].

(** Two guest mappings under a texture in the undefined layout. *)
Definition undefined_texture : Texture :=
  texture0 (MemoryImage 5 1%nat) eUndefined (Some (guest0 [span0; span2] dims1 Linear)) eLinear None.
Definition undefined_world : World := world0 [undefined_texture] [].

(** A guest texture whose dimensions are not those of the host texture. *)
Definition mismatched_texture : Texture :=
  texture0 (MemoryImage 5 1%nat) eGeneral (Some (guest0 [span0] dims2 Linear)) eLinear None.
Definition mismatched_world : World := world0 [mismatched_texture] [].

(** A host-only texture. *)
Definition host_texture : Texture := texture0 (DeviceImage 6) eGeneral None eOptimal None.
Definition host_world : World := world0 [host_texture] [].

(** An optimally tiled texture over a guest texture, in the undefined layout. *)
Definition optimal_texture : Texture :=
  texture0 (DeviceImage 6) eUndefined (Some (guest0 [span0] dims1 Linear)) eOptimal None.
Definition optimal_world : World := world0 [optimal_texture] [].

Definition idle_cycle : FenceCycle :=
  {| signalled := false; attached := []; expired := false |}.

(** The linear texture next to a cycle a caller supplies. *)
Definition batched_world : World := world0 [linear_texture] [idle_cycle].

(** A destination that tracks a cycle still in flight, and a source in the
    undefined layout. *)
Definition tracking_texture : Texture := texture0 (DeviceImage 6) eGeneral None eOptimal (Some 0%nat).
Definition undefined_source : Texture := texture0 (DeviceImage 8) eUndefined None eOptimal None.
Definition tracking_world : World := world0 [tracking_texture; undefined_source] [idle_cycle].

(** A pair of textures to copy between, and ranges to copy. *)
Definition general_source : Texture := texture0 (DeviceImage 8) eGeneral None eOptimal None.
Definition undefined_destination : Texture := texture0 (DeviceImage 6) eUndefined None eOptimal None.
Definition transfer_source_destination : Texture :=
  texture0 (DeviceImage 6) eTransferSrcOptimal None eOptimal None.
Definition copy_world : World := world0 [host_texture; general_source] [].
Definition undefined_copy_world : World := world0 [undefined_destination; general_source] [].

Definition all_levels : ImageSubresourceRange :=
  {| aspectMask := 1; baseMipLevel := 0; levelCount := VK_REMAINING_MIP_LEVELS;
     baseArrayLayer := 0; range_layerCount := VK_REMAINING_ARRAY_LAYERS |}.
Definition first_level : ImageSubresourceRange :=
  {| aspectMask := 1; baseMipLevel := 0; levelCount := 1;
     baseArrayLayer := 0; range_layerCount := 1 |}.
Definition levels_from_1 : ImageSubresourceRange :=
  {| aspectMask := 1; baseMipLevel := 1; levelCount := 2;
     baseArrayLayer := 0; range_layerCount := 1 |}.

Definition staging0 : StagingBuffer :=
  {| vkBuffer := 4; staging_data := 3%nat; staging_size := 4 |}.

(** A texture whose backing is still to come. *)
Definition deferred_texture : Texture :=
  texture0 NoBacking eGeneral (Some (guest0 [span0] dims1 Linear)) eOptimal None.
Definition deferred_world : World := world0 [deferred_texture] [].

(** A CPU-mapped texture over a block-linear guest texture. *)
Definition block_texture : Texture :=
  texture0 (MemoryImage 5 1%nat) eGeneral (Some (guest0 [span0] dims1 Block)) eLinear None.
Definition block_world : World := world0 [block_texture] [].

(** A CPU-mapped texture whose tiling is neither optimal nor linear. *)
Definition drm_texture : Texture :=
  texture0 (MemoryImage 5 1%nat) eGeneral (Some (guest0 [span0] dims1 Linear))
    eDrmFormatModifierEXT None.
Definition drm_world : World := world0 [drm_texture] [].

(** Optimally tiled textures over a guest texture, next to a cycle a caller
    supplies or alone. *)
Definition batched_optimal_world : World := world0 [optimal_texture] [idle_cycle].
Definition optimal_general_texture : Texture :=
  texture0 (DeviceImage 6) eGeneral (Some (guest0 [span0] dims1 Linear)) eOptimal None.
Definition optimal_general_world : World := world0 [optimal_general_texture] [].
Definition batched_general_world : World := world0 [optimal_general_texture] [idle_cycle].

(** Views of texture 0. *)
Definition vext0 : ViewExternal :=
  {| GetType := fun d => if 1 <? depth d then e3D else e2D; vkFormat := fun f => f + 100 |}.
Definition view0 : TextureView :=
  {| view_backing := 0%nat; view_type := eViewType2D; view_override := None;
     view_mapping := 0; view_range := first_level; view_own := None |}.
Definition view1 : TextureView :=
  {| view_backing := 0%nat; view_type := eViewType2D; view_override := None;
     view_mapping := 0; view_range := all_levels; view_own := None |}.
Definition viewed_texture : Texture :=
  {| backing := DeviceImage 6; layout := eGeneral; guest := None; dimensions := dims1;
     format := 7; tiling := eOptimal; mipLevels := 3; layerCount := 2; sampleCount := 1;
     cycle := None; views := [(view_create_info vext0 view1 host_texture, 41)] |}.
Definition viewed_world : World := world0 [viewed_texture] [].

(** A copy whose source tracks a cycle still in flight. *)
Definition tracked_source : Texture := texture0 (DeviceImage 8) eGeneral None eOptimal (Some 0%nat).
Definition tracked_copy_world : World := world0 [host_texture; tracked_source] [idle_cycle].


(** A host texture of two texels, eight bytes, over a guest texture of one
    texel whose mapping has four bytes. *)
Definition wide_texture : Texture :=
  {| backing := MemoryImage 5 1%nat; layout := eGeneral;
     guest := Some (guest0 [span0] dims1 Linear); dimensions := dims2; format := 7;
     tiling := eLinear; mipLevels := 3; layerCount := 2; sampleCount := 1;
     cycle := None; views := [] |}.
Definition wide_world : World := world0 [wide_texture] [].

(** The block-linear texture next to a cycle a caller supplies. *)
Definition batched_block_world : World := world0 [block_texture] [idle_cycle].

(** What the GPU has rendered into the mapped image of a world, allocation 1,
    since the last synchronisation. *)
Definition rendered (w : World) : World :=
  set_memory (<[1%nat := [x21; x22; x23; x24]]> (memory w)) w.

(** Only the memory may differ. *)
Definition only_memory (w w' : World) : Prop :=
  textures w' = textures w /\ cycles w' = cycles w /\ submitted w' = submitted w.


(** The layout an image is in after a recorded sequence, following the
    commands that name the image: a barrier of the image must start from the
    layout the image is in and leaves it in its new layout; a copy must name
    the layout the image is in. [None] when a command does not fit. *)
Fixpoint layout_after (image : VkImage) (l : ImageLayout) (cmds : list Command)
  : option ImageLayout :=
  match cmds with
  | [] => Some l
  | pipelineBarrier _ _ b :: rest =>
      if decide (barrier_image b = image) then
        if decide (oldLayout b = l) then layout_after image (newLayout b) rest else None
      else layout_after image l rest
  | copyBufferToImage _ dst dstLayout _ :: rest =>
      if decide (dst = image) then
        if decide (dstLayout = l) then layout_after image l rest else None
      else layout_after image l rest
  | copyImageToBuffer src srcLayout _ _ :: rest =>
      if decide (src = image) then
        if decide (srcLayout = l) then layout_after image l rest else None
      else layout_after image l rest
  | copyImage src srcLayout dst dstLayout _ :: rest =>
      if decide (src = image /\ srcLayout <> l) then None
      else if decide (dst = image /\ dstLayout <> l) then None
      else layout_after image l rest
  end.


(** * Private guest memory (skyline/kernel/types/KPrivateMemory.cpp)

    An object of [KPrivateMemory] describes one region of the guest's address
    space: where it starts, how long it is, the permission it was made with
    and its memory state. Every member function reports what it did to the
    process's memory manager through [InsertChunk]. The memory manager, the
    test of page alignment, the address-space test and the values of the
    named memory states are defined outside these sources: they are
    parameters here, and the memory manager is the list of the descriptors
    it was given, the latest last. The result of each [mprotect] is supplied
    by the caller of the model. Pointers and sizes are 64-bit, unsigned. *)

Module Kernel.

(** [memory::Permission]: three flags; [{}] clears them all. *)
Record Permission := { r : bool; w : bool; x : bool }.

Definition noPermission : Permission := {| r := false; w := false; x := false |}.

Abbreviation MemoryState := Z (only parsing).

Record ChunkDescriptor := {
  chunk_ptr : Z;
  chunk_size : Z;
  chunk_permission : Permission;
  chunk_state : MemoryState
}.

Record KPrivateMemory := {
  ptr : Z;
  size : Z;
  permission : Permission;
  memoryState : MemoryState
}.

Definition set_size (n : Z) (this : KPrivateMemory) : KPrivateMemory :=
  {| ptr := ptr this; size := n; permission := permission this;
     memoryState := memoryState this |}.

Definition set_memoryState (s : MemoryState) (this : KPrivateMemory) : KPrivateMemory :=
  {| ptr := ptr this; size := size this; permission := permission this;
     memoryState := s |}.

Inductive KException :=
  | AllocationNotInsideAddressSpace
  | MappingNotPageAligned
  | MappingFailed
  | ResizingFailed
  | RemappingNotInsideAddressSpace
  | RemappingNotPageAligned
  | RemappingFailed
  | PermissionNotPageAligned.

(** A call returns the object and the memory manager as it leaves them, or
    throws; no call changes either before it throws. *)
Inductive Outcome :=
  | Returns (this : KPrivateMemory) (chunks : list ChunkDescriptor)
  | Throws (e : KException).

Definition InsertChunk (c : ChunkDescriptor) (chunks : list ChunkDescriptor)
  : list ChunkDescriptor := chunks ++ [c].

(** [std::clamp(v, lo, hi)] *)
Definition clamp (v lo hi : Z) : Z :=
  if v <? lo then lo else if hi <? v then hi else v.

Definition to_size_t (n : Z) : Z := n mod 2 ^ 64.

Section Memory.

Variable IsInside : Z -> bool.
Variable IsPageAligned : Z -> bool.
Variables Unmapped CodeStatic CodeMutable : MemoryState.

(** KPrivateMemory::KPrivateMemory; [rc] is what [mprotect] returned. *)
Definition construct (pPtr pSize : Z) (pPermission : Permission)
    (memState : MemoryState) (rc : Z) (chunks : list ChunkDescriptor) : Outcome :=
  if negb (IsInside pPtr) || negb (IsInside (pPtr + pSize))
  then Throws AllocationNotInsideAddressSpace
  else if negb (IsPageAligned pPtr) || negb (IsPageAligned pSize)
  then Throws MappingNotPageAligned
  else if rc <? 0 then Throws MappingFailed
  else Returns {| ptr := pPtr; size := pSize; permission := pPermission;
                  memoryState := memState |}
               (InsertChunk {| chunk_ptr := pPtr; chunk_size := pSize;
                               chunk_permission := pPermission;
                               chunk_state := memState |} chunks).

(** KPrivateMemory::Resize *)
Definition Resize (this : KPrivateMemory) (nSize : Z) (rc : Z)
    (chunks : list ChunkDescriptor) : Outcome :=
  if rc <? 0 then Throws ResizingFailed
  else
    let chunks' :=
      if nSize <? size this then
        InsertChunk {| chunk_ptr := ptr this + nSize;
                       chunk_size := size this - nSize;
                       chunk_permission := noPermission;
                       chunk_state := Unmapped |} chunks
      else if size this <? nSize then
        InsertChunk {| chunk_ptr := ptr this + size this;
                       chunk_size := nSize - size this;
                       chunk_permission := permission this;
                       chunk_state := memoryState this |} chunks
      else chunks in
    Returns (set_size nSize this) chunks'.

(** KPrivateMemory::Remap; [rc1] and [rc2] are what the two calls of
    [mprotect] returned. *)
Definition Remap (this : KPrivateMemory) (nPtr nSize : Z) (rc1 rc2 : Z)
    (chunks : list ChunkDescriptor) : Outcome :=
  if negb (IsInside nPtr) || negb (IsInside (nPtr + nSize))
  then Throws RemappingNotInsideAddressSpace
  else if negb (IsPageAligned nPtr) || negb (IsPageAligned nSize)
  then Throws RemappingNotPageAligned
  else if rc1 <? 0 then Throws RemappingFailed
  else if rc2 <? 0 then Throws RemappingFailed
  else Returns this chunks.

(** KPrivateMemory::UpdatePermission *)
Definition UpdatePermission (this : KPrivateMemory) (pPtr pSize : Z)
    (pPermission : Permission) (chunks : list ChunkDescriptor) : Outcome :=
  let pPtr := clamp pPtr (ptr this) (ptr this + size this) in
  let pSize := Z.min pSize (to_size_t ((ptr this + size this) - pPtr)) in
  if negb (pPtr =? 0) && negb (IsPageAligned pPtr)
  then Throws PermissionNotPageAligned
  else
    let this' :=
      if bool_decide (memoryState this = CodeStatic) && w pPermission
      then set_memoryState CodeMutable this
      else this in
    Returns this'
            (InsertChunk {| chunk_ptr := pPtr; chunk_size := pSize;
                            chunk_permission := pPermission;
                            chunk_state := memoryState this' |} chunks).

(** KPrivateMemory::~KPrivateMemory *)
Definition destroy (this : KPrivateMemory) (chunks : list ChunkDescriptor)
  : list ChunkDescriptor :=
  InsertChunk {| chunk_ptr := ptr this; chunk_size := size this;
                 chunk_permission := noPermission;
                 chunk_state := Unmapped |} chunks.

(** The calls on an object that exists, and a sequence of them that ends at
    the first one that throws. *)
Inductive Call :=
  | CallResize (nSize rc : Z)
  | CallRemap (nPtr nSize rc1 rc2 : Z)
  | CallUpdatePermission (pPtr pSize : Z) (pPermission : Permission).

Definition call (c : Call) (this : KPrivateMemory) (chunks : list ChunkDescriptor)
  : Outcome :=
  match c with
  | CallResize nSize rc => Resize this nSize rc chunks
  | CallRemap nPtr nSize rc1 rc2 => Remap this nPtr nSize rc1 rc2 chunks
  | CallUpdatePermission pPtr pSize pPermission =>
      UpdatePermission this pPtr pSize pPermission chunks
  end.

Fixpoint calls (l : list Call) (this : KPrivateMemory) (chunks : list ChunkDescriptor)
  : Outcome :=
  match l with
  | [] => Returns this chunks
  | c :: l =>
      match call c this chunks with
      | Returns this' chunks' => calls l this' chunks'
      | Throws e => Throws e
      end
  end.

Definition makes_writable (c : Call) : bool :=
  match c with
  | CallUpdatePermission _ _ pPermission => w pPermission
  | _ => false
  end.

End Memory.

(** One choice of the parameters, for the concrete runs: pages of 0x1000
    bytes, an address space of 39 bits and three different state values. *)
Definition IsPageAligned0 (p : Z) : bool := p mod 4096 =? 0.
Definition IsInside0 (p : Z) : bool := (0 <=? p) && (p <? 2 ^ 39).
Definition Unmapped0 : MemoryState := 0.
Definition CodeStatic0 : MemoryState := 0x00DC7E03.
Definition CodeMutable0 : MemoryState := 0x03FEBD04.

Definition readExecute : Permission := {| r := true; w := false; x := true |}.
Definition readWrite : Permission := {| r := true; w := true; x := false |}.

Definition code0 : KPrivateMemory :=
  {| ptr := 0x8000000; size := 0x4000; permission := readExecute;
     memoryState := CodeStatic0 |}.

End Kernel.


(** * Properties *)

Section Properties.

Variable ext : External.

(** ** Stepping through the monad *)

Lemma bind_Ok {A B} (m : M A) (k : A -> M B) w a w' :
  m w = Ok a w' -> bind m k w = k a w'.
Proof. unfold bind. intros ->. reflexivity. Qed.

Lemma bind_Throw {A B} (m : M A) (k : A -> M B) w e w' :
  m w = Throw e w' -> bind m k w = Throw e w'.
Proof. unfold bind. intros ->. reflexivity. Qed.

Lemma bind_Undefined {A B} (m : M A) (k : A -> M B) w :
  m w = Undefined -> bind m k w = Undefined.
Proof. unfold bind. intros ->. reflexivity. Qed.

Lemma bind_ret_unit (m : M unit) w : (m ;;; ret tt) w = m w.
Proof. unfold bind. destruct (m w) as [[] ?| ? ?| |]; reflexivity. Qed.

Lemma getTexture_Ok this t w :
  textures w !! this = Some t -> getTexture this w = Ok t w.
Proof. unfold getTexture. intros ->. reflexivity. Qed.

Lemma modifyTexture_Ok this f t w :
  textures w !! this = Some t ->
  modifyTexture this f w = Ok tt (set_textures (<[this := f t]> (textures w)) w).
Proof. unfold modifyTexture. intros ->. reflexivity. Qed.

Lemma WaitOnBacking_Ok this t w :
  textures w !! this = Some t -> GetBacking t <> VK_NULL_HANDLE ->
  WaitOnBacking this w = Ok false w.
Proof.
  intros Ht Hb. unfold WaitOnBacking. rewrite (bind_Ok _ _ _ _ _ (getTexture_Ok _ _ _ Ht)).
  destruct (Z.eqb_spec (GetBacking t) VK_NULL_HANDLE) as [E|E]; [contradiction|reflexivity].
Qed.

(** ** The checks of SynchronizeHost *)

Lemma SynchronizeHostImpl_checks w this t pCycle :
  textures w !! this = Some t ->
  (guest t = None ->
   SynchronizeHostImpl ext this pCycle w = Throw NoGuestToSynchronizeFrom w) /\
  (forall g, guest t = Some g -> guest_dimensions g <> dimensions t ->
   SynchronizeHostImpl ext this pCycle w = Throw DimensionsDifferent w) /\
  (forall g, guest t = Some g -> guest_dimensions g = dimensions t ->
   (1 < length (mappings g))%nat ->
   SynchronizeHostImpl ext this pCycle w = Throw (MultipleMappings (length (mappings g))) w).
Proof.
  intros Ht. unfold SynchronizeHostImpl.
  rewrite (bind_Ok _ _ _ _ _ (getTexture_Ok _ _ _ Ht)).
  split; [|split].
  - intros ->. reflexivity.
  - intros g -> Hd. destruct (decide (guest_dimensions g <> dimensions t)); [reflexivity|contradiction].
  - intros g -> Hd Hm. destruct (decide (guest_dimensions g <> dimensions t)); [contradiction|].
    apply Nat.ltb_lt in Hm. rewrite Hm. reflexivity.
Qed.

(** What the checks of [SynchronizeHost] and of its buffer overload do catch:
    an absent guest descriptor, different dimensions and more than one
    mapping each make the call throw with the world as it was. *)
Lemma SynchronizeHost_checks w this t :
  textures w !! this = Some t ->
  (guest t = None \/
   exists g, guest t = Some g /\
     (guest_dimensions g <> dimensions t \/ (1 < length (mappings g))%nat)) ->
  fails_unchanged (SynchronizeHost ext this w) w /\
  forall pCycle, fails_unchanged (SynchronizeHostWithBuffer ext this pCycle w) w.
Proof.
  intros Ht Hbad.
  assert (forall pCycle, exists e, SynchronizeHostImpl ext this pCycle w = Throw e w) as Himpl.
  { intros pCycle. destruct (SynchronizeHostImpl_checks w this t pCycle Ht) as (H1 & H2 & H3).
    destruct Hbad as [Hn | (g & Hg & Hbad)]; [eauto|].
    destruct (decide (guest_dimensions g = dimensions t)) as [Hd|Hd]; [|eauto].
    destruct Hbad as [Hne | Hm]; [contradiction | eauto]. }
  split; [|intros pCycle]; unfold SynchronizeHost, SynchronizeHostWithBuffer, fails_unchanged.
  - destruct (Himpl None) as (e & He). exists e. apply bind_Throw, He.
  - destruct (Himpl pCycle) as (e & He). exists e. apply bind_Throw, He.
Qed.

(** C4: a guest descriptor with no mapping passes the three checks of
    [SynchronizeHostImpl], which test for more than one mapping only, and the
    call goes on to [guest->mappings[0]] on an empty vector: undefined
    behaviour, where the specification has a fatal error. *)
Theorem SynchronizeHost_zero_mappings :
  guest unmapped_texture = Some (guest0 [] dims1 Linear) /\
  SynchronizeHost ext 0%nat unmapped_world = Undefined /\
  (forall pCycle, SynchronizeHostWithBuffer ext 0%nat pCycle unmapped_world = Undefined) /\
  ~ fails_unchanged (SynchronizeHost ext 0%nat unmapped_world) unmapped_world.
Proof.
  split; [reflexivity|]. split; [reflexivity|]. split; [intros pCycle; reflexivity|].
  intros (e & He). discriminate He.
Qed.

(** ** The checks of SynchronizeGuest *)

(** C9: with a guest descriptor, an undefined layout and more than one guest
    mapping, [SynchronizeGuest] and [SynchronizeGuestWithBuffer] return
    without doing anything: the undefined-layout check comes before the
    check of the number of mappings. *)
Theorem undefined_layout_before_mapping_check w this t g pCycle :
  textures w !! this = Some t ->
  guest t = Some g ->
  layout t = eUndefined ->
  (1 < length (mappings g))%nat ->
  SynchronizeGuest ext this w = Ok tt w /\
  SynchronizeGuestWithBuffer ext this pCycle w = Ok [] w.
Proof.
  intros Ht Hg Hl _. unfold SynchronizeGuest, SynchronizeGuestWithBuffer.
  rewrite !(bind_Ok _ _ _ _ _ (getTexture_Ok _ _ _ Ht)), Hg.
  destruct (decide (layout t = eUndefined)); [split; reflexivity | contradiction].
Qed.


(** ** What a computation keeps *)

Lemma keeps_ret {A} R `{!Reflexive R} (a : A) : keeps R (ret a).
Proof. intros w w' H. simpl in H. subst. reflexivity. Qed.

Lemma keeps_throw {A} R `{!Reflexive R} e : keeps R (@throw A e).
Proof. intros w w' H. simpl in H. subst. reflexivity. Qed.

Lemma keeps_undefined {A} R : keeps R (@undefined A).
Proof. intros w w' []. Qed.

Lemma keeps_blocked {A} R : keeps R (@blocked A).
Proof. intros w w' []. Qed.

Lemma keeps_bind {A B} R `{!Transitive R} (m : M A) (k : A -> M B) :
  keeps R m -> (forall a, keeps R (k a)) -> keeps R (bind m k).
Proof.
  intros Hm Hk w w' H. unfold bind in H.
  destruct (m w) as [a w1|e w1| |] eqn:E; simpl in H; try contradiction.
  - transitivity w1; [apply Hm; rewrite E; reflexivity | eapply Hk, H].
  - subst. apply Hm. rewrite E. reflexivity.
Qed.

Lemma keeps_when R `{!Reflexive R} b m : keeps R m -> keeps R (when b m).
Proof. destruct b; simpl; [trivial | intros _; apply keeps_ret; assumption]. Qed.

Lemma keeps_weaken {A} (R R' : World -> World -> Prop) (m : M A) :
  (forall w w', R w w' -> R' w w') -> keeps R m -> keeps R' m.
Proof. intros HR Hm w w' H. apply HR, Hm, H. Qed.

#[local] Instance same_objects_refl : Reflexive same_objects.
Proof. intros w. repeat split. Qed.

#[local] Instance same_objects_trans : Transitive same_objects.
Proof. intros a b c (H1 & H2 & H3) (H4 & H5 & H6). repeat split; congruence. Qed.

#[local] Instance same_layouts_refl : Reflexive same_layouts.
Proof. intros w. reflexivity. Qed.

#[local] Instance same_layouts_trans : Transitive same_layouts.
Proof. intros a b c H1 H2. unfold same_layouts in *. congruence. Qed.

#[local] Instance layout_kept_refl this : Reflexive (layout_kept this).
Proof. intros w t Ht _. eauto. Qed.

#[local] Instance layout_kept_trans this : Transitive (layout_kept this).
Proof.
  intros a b c H1 H2 t Ht Hl. destruct (H1 t Ht Hl) as (t1 & Ht1 & E1).
  destruct (H2 t1 Ht1) as (t2 & Ht2 & E2); [congruence|]. exists t2. split; congruence.
Qed.

Lemma same_objects_layouts w w' : same_objects w w' -> same_layouts w w'.
Proof. intros (H & _). unfold same_layouts. rewrite H. reflexivity. Qed.

Lemma same_layouts_kept this w w' : same_layouts w w' -> layout_kept this w w'.
Proof.
  intros H t Ht _. unfold same_layouts in H.
  assert (layout <$> textures w' !! this = Some (layout t)) as E.
  { rewrite <- list_lookup_fmap, H, list_lookup_fmap, Ht. reflexivity. }
  destruct (textures w' !! this) as [t'|]; [|discriminate]. exists t'. split; [reflexivity|].
  simpl in E. congruence.
Qed.

Ltac keeps_step :=
  first
    [ apply keeps_ret; try apply _
    | apply keeps_throw; try apply _
    | apply keeps_undefined
    | apply keeps_blocked
    | apply keeps_when; [apply _|]
    | apply keeps_bind; [apply _| |intros ?] ].

Lemma getTexture_keeps R `{!Reflexive R} this : keeps R (getTexture this).
Proof.
  intros w w' H. unfold getTexture in H. destruct (textures w !! this); simpl in H; [|contradiction].
  subst. reflexivity.
Qed.

Lemma lock_keeps R `{!Reflexive R} c : keeps R (lock c).
Proof.
  intros w w' H. unfold lock in H. destruct c as [id|]; [|simpl in H; subst; reflexivity].
  destruct (cycles w !! id) as [fc|]; [destruct (expired fc)|]; simpl in H; subst; reflexivity.
Qed.

Lemma front_keeps {A} R `{!Reflexive R} (v : list A) : keeps R (front v).
Proof. destruct v; [apply keeps_undefined | apply keeps_ret; assumption]. Qed.

Lemma deref_keeps {A} R `{!Reflexive R} (o : option A) : keeps R (deref o).
Proof. destruct o; [apply keeps_ret; assumption | apply keeps_undefined]. Qed.

Lemma memcpy_keeps dst src n : keeps same_objects (memcpy dst src n).
Proof.
  intros w w' H. unfold memcpy in H.
  destruct (memory w !! dst), (memory w !! src); simpl in H; try contradiction.
  match type of H with after (if ?c then _ else _) _ => destruct c end; simpl in H; [|contradiction].
  subst. repeat split.
Qed.

Lemma convert_keeps f g i o : keeps same_objects (convert f g i o).
Proof.
  intros w w' H. unfold convert in H.
  destruct (memory w !! i), (memory w !! o); simpl in H; try contradiction.
  subst. repeat split.
Qed.

Lemma AllocateStagingBuffer_keeps sz : keeps same_objects (AllocateStagingBuffer sz).
Proof. intros w w' H. simpl in H. subst. repeat split. Qed.

Lemma CopyToGuest_keeps this hostBuffer : keeps same_objects (CopyToGuest ext this hostBuffer).
Proof.
  unfold CopyToGuest. keeps_step; [apply getTexture_keeps, _|].
  keeps_step; [apply deref_keeps, _|]. keeps_step; [apply front_keeps, _|].
  destruct (mode (tileConfig a0)); auto using memcpy_keeps, convert_keeps.
Qed.

Lemma release_all_keeps l : keeps same_objects (release_all ext l).
Proof.
  induction l as [|a l IH]; simpl; [apply keeps_ret, _|].
  keeps_step; [|exact IH].
  destruct a as [b|t|g]; simpl; try (apply keeps_ret, _).
  unfold TextureBufferCopy_release. destruct (copy_stagingBuffer g).
  - apply CopyToGuest_keeps.
  - keeps_step; [apply getTexture_keeps, _|].
    destruct (backing a); try apply keeps_undefined. apply CopyToGuest_keeps.
Qed.

Lemma FenceCycle_Wait_keeps c : keeps same_objects (FenceCycle_Wait ext c).
Proof.
  intros w w' H. unfold FenceCycle_Wait in H.
  destruct (cycles w !! c) as [fc|] eqn:E; [|contradiction].
  destruct (signalled fc); [simpl in H; subst; reflexivity|].
  apply release_all_keeps in H. destruct H as (H1 & H2 & H3). repeat split; try assumption.
  rewrite H3. simpl. apply length_insert.
Qed.

Lemma modifyTexture_keeps_layouts this f :
  (forall t, layout (f t) = layout t) -> keeps same_layouts (modifyTexture this f).
Proof.
  intros Hf w w' H. unfold modifyTexture in H.
  destruct (textures w !! this) as [t|] eqn:E; simpl in H; [|contradiction]. subst.
  unfold same_layouts. simpl. rewrite list_fmap_insert, Hf.
  apply list_insert_id. rewrite list_lookup_fmap, E. reflexivity.
Qed.

Lemma WaitOnBacking_keeps R `{!Reflexive R} this : keeps R (WaitOnBacking this).
Proof.
  unfold WaitOnBacking. intros w w' H. unfold bind, getTexture in H.
  destruct (textures w !! this) as [t|]; [|contradiction].
  destruct (negb (GetBacking t =? VK_NULL_HANDLE)); simpl in H; [|contradiction].
  subst. reflexivity.
Qed.

Lemma WaitOnFence_keeps_layouts this : keeps same_layouts (WaitOnFence ext this).
Proof.
  unfold WaitOnFence. keeps_step; [apply getTexture_keeps, _|].
  keeps_step; [apply lock_keeps, _|]. destruct a0; [|apply keeps_ret, _].
  keeps_step; [|apply modifyTexture_keeps_layouts; reflexivity].
  eapply keeps_weaken; [apply same_objects_layouts | apply FenceCycle_Wait_keeps].
Qed.

(** What [WaitOnFence] leaves behind when it returns: the texture has let go
    of its cycle if that was still alive; nothing else is changed in any
    texture, nothing is submitted and no cycle is created. *)
Lemma WaitOnFence_Ok this t w w' :
  textures w !! this = Some t ->
  WaitOnFence ext this w = Ok tt w' ->
  (textures w' = textures w \/ textures w' = <[this := set_cycle None t]> (textures w)) /\
  submitted w' = submitted w /\
  length (cycles w') = length (cycles w) /\
  WaitOnFence ext this w' = Ok tt w'.
Proof.
  intros Ht H. unfold WaitOnFence in H |- *.
  rewrite (bind_Ok _ _ _ _ _ (getTexture_Ok _ _ _ Ht)) in H.
  unfold bind at 1 in H. destruct (lock (cycle t) w) as [l w0| | |] eqn:El; try discriminate.
  assert (w0 = w) as ->.
  { symmetry. apply (lock_keeps eq (cycle t) w w0). rewrite El. reflexivity. }
  destruct l as [c|].
  - unfold bind at 1 in H.
    destruct (FenceCycle_Wait ext c w) as [[] w1| | |] eqn:Ew; try discriminate.
    destruct (FenceCycle_Wait_keeps c w w1) as (H1 & H2 & H3); [rewrite Ew; reflexivity|].
    rewrite (modifyTexture_Ok this _ t) in H by congruence.
    injection H as <-. simpl. rewrite H1. repeat split; auto.
    assert (<[this := set_cycle None t]> (textures w) !! this = Some (set_cycle None t)) as Ht'.
    { apply list_lookup_insert_eq. eapply lookup_lt_Some, Ht. }
    erewrite bind_Ok; [|apply getTexture_Ok; simpl; exact Ht']. reflexivity.
  - injection H as <-. repeat split; auto.
    rewrite (bind_Ok _ _ _ _ _ (getTexture_Ok _ _ _ Ht)), (bind_Ok _ _ _ _ _ El). reflexivity.
Qed.


(** ** The staging copies *)

Lemma lookup_insert_this {A} (l : list A) i x y :
  l !! i = Some x -> <[i := y]> l !! i = Some y.
Proof. intros H. apply list_lookup_insert_eq. eapply lookup_lt_Some, H. Qed.

Lemma CopyFromStagingBuffer_Ok w this t stagingBuffer :
  textures w !! this = Some t ->
  CopyFromStagingBuffer ext this stagingBuffer w
  = Ok (upload_commands ext t stagingBuffer) (define_layout eTransferDstOptimal this t w).
Proof.
  intros Ht. unfold CopyFromStagingBuffer, upload_commands, define_layout.
  rewrite (bind_Ok _ _ _ _ _ (getTexture_Ok _ _ _ Ht)).
  destruct (decide (layout t <> eTransferDstOptimal)) as [Hd|Hd].
  - destruct (decide (layout t = eUndefined)) as [Hu|Hu].
    + unfold bind at 1. unfold bind at 1. rewrite bool_decide_eq_true_2 by assumption. simpl when.
      rewrite (modifyTexture_Ok _ _ _ _ Ht). unfold ret at 1.
      erewrite bind_Ok; [|apply getTexture_Ok; simpl; eapply lookup_insert_this, Ht].
      simpl. rewrite decide_False by tauto. reflexivity.
    + unfold bind at 1. unfold bind at 1. rewrite bool_decide_eq_false_2 by assumption. simpl when.
      unfold ret at 1 2. rewrite (bind_Ok _ _ _ _ _ (getTexture_Ok _ _ _ Ht)).
      rewrite !decide_True by tauto. reflexivity.
  - unfold bind at 1. unfold ret at 1. rewrite (bind_Ok _ _ _ _ _ (getTexture_Ok _ _ _ Ht)).
    rewrite !decide_False by tauto. rewrite decide_False; [reflexivity|].
    intros Hu. apply Hd. rewrite Hu. discriminate.
Qed.

Lemma CopyIntoStagingBuffer_Ok w this t stagingBuffer :
  textures w !! this = Some t ->
  CopyIntoStagingBuffer ext this stagingBuffer w
  = Ok (download_commands ext t stagingBuffer) (define_layout eTransferSrcOptimal this t w).
Proof.
  intros Ht. unfold CopyIntoStagingBuffer, download_commands, define_layout.
  rewrite (bind_Ok _ _ _ _ _ (getTexture_Ok _ _ _ Ht)).
  destruct (decide (layout t <> eTransferSrcOptimal)) as [Hd|Hd].
  - destruct (decide (layout t = eUndefined)) as [Hu|Hu].
    + unfold bind at 1. unfold bind at 1. rewrite bool_decide_eq_true_2 by assumption. simpl when.
      rewrite (modifyTexture_Ok _ _ _ _ Ht). unfold ret at 1.
      erewrite bind_Ok; [|apply getTexture_Ok; simpl; eapply lookup_insert_this, Ht].
      simpl. rewrite decide_False by tauto. reflexivity.
    + unfold bind at 1. unfold bind at 1. rewrite bool_decide_eq_false_2 by assumption. simpl when.
      unfold ret at 1 2. rewrite (bind_Ok _ _ _ _ _ (getTexture_Ok _ _ _ Ht)).
      rewrite !decide_True by tauto. reflexivity.
  - unfold bind at 1. unfold ret at 1. rewrite (bind_Ok _ _ _ _ _ (getTexture_Ok _ _ _ Ht)).
    rewrite !decide_False by tauto. rewrite decide_False; [reflexivity|].
    intros Hu. apply Hd. rewrite Hu. discriminate.
Qed.

Lemma define_layout_kept L this this' t w :
  textures w !! this = Some t -> layout_kept this' w (define_layout L this t w).
Proof.
  intros Ht t' Ht' Hl. unfold define_layout. destruct (decide (layout t = eUndefined)) as [Hu|Hu]; [|eauto].
  simpl. destruct (decide (this = this')) as [->|Hne].
  - congruence.
  - rewrite list_lookup_insert_ne by assumption. eauto.
Qed.

Lemma CopyFromStagingBuffer_keeps this this' sb :
  keeps (layout_kept this') (CopyFromStagingBuffer ext this sb).
Proof.
  intros w w' H. destruct (textures w !! this) as [t|] eqn:Ht.
  - rewrite (CopyFromStagingBuffer_Ok _ _ _ _ Ht) in H. simpl in H. subst.
    apply define_layout_kept, Ht.
  - unfold CopyFromStagingBuffer, bind, getTexture in H. rewrite Ht in H. contradiction.
Qed.

Lemma CopyIntoStagingBuffer_keeps this this' sb :
  keeps (layout_kept this') (CopyIntoStagingBuffer ext this sb).
Proof.
  intros w w' H. destruct (textures w !! this) as [t|] eqn:Ht.
  - rewrite (CopyIntoStagingBuffer_Ok _ _ _ _ Ht) in H. simpl in H. subst.
    apply define_layout_kept, Ht.
  - unfold CopyIntoStagingBuffer, bind, getTexture in H. rewrite Ht in H. contradiction.
Qed.

(** ** Synchronisation keeps a defined layout *)

Lemma keeps_objects_kept {A} this (m : M A) :
  keeps same_objects m -> keeps (layout_kept this) m.
Proof.
  apply keeps_weaken. intros w w' H. apply same_layouts_kept, same_objects_layouts, H.
Qed.

Lemma keeps_layouts_kept {A} this (m : M A) :
  keeps same_layouts m -> keeps (layout_kept this) m.
Proof. apply keeps_weaken. intros w w'. apply same_layouts_kept. Qed.

Lemma AttachObjects_keeps c objs : keeps same_objects (AttachObjects c objs).
Proof.
  intros w w' H. unfold AttachObjects in H. destruct c as [id|]; [|contradiction].
  destruct (cycles w !! id); simpl in H; [|contradiction]. subst. repeat split.
  simpl. apply length_insert.
Qed.

Lemma Submit_keeps this record :
  keeps (layout_kept this) record -> keeps (layout_kept this) (Submit record).
Proof.
  intros Hr. unfold Submit. apply keeps_bind; [apply _|exact Hr|].
  intros cmds w w' H. simpl in H. subst. intros t Ht _. eauto.
Qed.

Lemma set_cycle_keeps this this' c :
  keeps (layout_kept this') (modifyTexture this (set_cycle c)).
Proof. apply keeps_layouts_kept, modifyTexture_keeps_layouts. reflexivity. Qed.

Lemma WaitOnFence_keeps this this' : keeps (layout_kept this') (WaitOnFence ext this).
Proof. apply keeps_layouts_kept, WaitOnFence_keeps_layouts. Qed.

Lemma wait_unless_keeps this this' pCycle :
  keeps (layout_kept this') (wait_unless ext this pCycle).
Proof.
  unfold wait_unless. keeps_step; [apply getTexture_keeps, _|].
  keeps_step; [apply lock_keeps, _|]. keeps_step. apply WaitOnFence_keeps.
Qed.

Lemma convert_from_guest_keeps g pointer bufferData sz :
  keeps same_objects (convert_from_guest ext g pointer bufferData sz).
Proof.
  unfold convert_from_guest. destruct (mode (tileConfig g)); auto using memcpy_keeps, convert_keeps.
Qed.

Create HintDb keeps.

#[local] Hint Resolve getTexture_keeps lock_keeps front_keeps deref_keeps
  WaitOnBacking_keeps WaitOnFence_keeps wait_unless_keeps set_cycle_keeps
  CopyFromStagingBuffer_keeps CopyIntoStagingBuffer_keeps : keeps.
#[local] Hint Extern 1 (Reflexive _) => apply _ : keeps.
#[local] Hint Extern 2 (keeps (layout_kept _) _) =>
  apply keeps_objects_kept;
  first [ apply memcpy_keeps | apply convert_keeps | apply convert_from_guest_keeps
        | apply AllocateStagingBuffer_keeps
        | apply CopyToGuest_keeps | apply AttachObjects_keeps ] : keeps.
#[local] Hint Extern 3 (keeps (layout_kept _) (Submit _)) => apply Submit_keeps : keeps.

Ltac keeps_tac :=
  repeat first
    [ progress intros
    | apply keeps_ret; apply _
    | apply keeps_throw; apply _
    | apply keeps_undefined
    | apply keeps_blocked
    | solve [eauto with keeps]
    | apply keeps_when; [apply _|]
    | apply keeps_bind; [apply _| |]
    | match goal with |- keeps _ (match ?x with _ => _ end) => destruct x end ].

Lemma SynchronizeHostImpl_keeps this this' pCycle :
  keeps (layout_kept this') (SynchronizeHostImpl ext this pCycle).
Proof. unfold SynchronizeHostImpl. keeps_tac. Qed.

Lemma SynchronizeHost_keeps this this' :
  keeps (layout_kept this') (SynchronizeHost ext this).
Proof. unfold SynchronizeHost. pose proof SynchronizeHostImpl_keeps. keeps_tac. Qed.

Lemma SynchronizeHostWithBuffer_keeps this this' pCycle :
  keeps (layout_kept this') (SynchronizeHostWithBuffer ext this pCycle).
Proof. unfold SynchronizeHostWithBuffer. pose proof SynchronizeHostImpl_keeps. keeps_tac. Qed.

Lemma SynchronizeGuest_keeps this this' :
  keeps (layout_kept this') (SynchronizeGuest ext this).
Proof. unfold SynchronizeGuest. keeps_tac. Qed.

Lemma SynchronizeGuestWithBuffer_keeps this this' pCycle :
  keeps (layout_kept this') (SynchronizeGuestWithBuffer ext this pCycle).
Proof. unfold SynchronizeGuestWithBuffer. keeps_tac. Qed.


(** C10: a staging copy recorded for a texture in the undefined layout sets
    the layout field to the transfer layout of its direction and records no
    barrier back; for every other layout the staging copies, and with them
    the four synchronisation calls, leave the layout field as it was. *)
Theorem staging_copy_defines_layout w this t stagingBuffer :
  textures w !! this = Some t ->
  (layout t = eUndefined ->
   CopyFromStagingBuffer ext this stagingBuffer w
   = Ok [pipelineBarrier eBottomOfPipe eTransfer
           {| barrier_image := GetBacking t;
              srcAccessMask := Z.lor eMemoryRead eMemoryWrite;
              dstAccessMask := eTransferWrite;
              oldLayout := eUndefined;
              newLayout := eTransferDstOptimal;
              subresourceRange := whole_range ext t |};
         copyBufferToImage (vkBuffer stagingBuffer) (GetBacking t) eTransferDstOptimal
           {| imageExtent := dimensions t; imageSubresource := whole_layers ext t |}]
        (set_textures (<[this := set_layout eTransferDstOptimal t]> (textures w)) w) /\
   CopyIntoStagingBuffer ext this stagingBuffer w
   = Ok [pipelineBarrier eBottomOfPipe eTransfer
           {| barrier_image := GetBacking t;
              srcAccessMask := Z.lor eMemoryRead eMemoryWrite;
              dstAccessMask := eTransferRead;
              oldLayout := eUndefined;
              newLayout := eTransferSrcOptimal;
              subresourceRange := whole_range ext t |};
         copyImageToBuffer (GetBacking t) eTransferSrcOptimal (vkBuffer stagingBuffer)
           {| imageExtent := dimensions t; imageSubresource := whole_layers ext t |}]
        (set_textures (<[this := set_layout eTransferSrcOptimal t]> (textures w)) w)) /\
  (layout t <> eUndefined ->
   CopyFromStagingBuffer ext this stagingBuffer w = Ok (upload_commands ext t stagingBuffer) w /\
   CopyIntoStagingBuffer ext this stagingBuffer w = Ok (download_commands ext t stagingBuffer) w /\
   forall pCycle w',
     after (SynchronizeHost ext this w) w' \/
     after (SynchronizeHostWithBuffer ext this pCycle w) w' \/
     after (SynchronizeGuest ext this w) w' \/
     after (SynchronizeGuestWithBuffer ext this pCycle w) w' ->
     layout <$> textures w' !! this = Some (layout t)).
Proof.
  intros Ht. split.
  - intros Hu.
    rewrite (CopyFromStagingBuffer_Ok _ _ _ _ Ht), (CopyIntoStagingBuffer_Ok _ _ _ _ Ht).
    unfold upload_commands, download_commands, define_layout, first_stage.
    rewrite !Hu. simpl. split; reflexivity.
  - intros Hd.
    rewrite (CopyFromStagingBuffer_Ok _ _ _ _ Ht), (CopyIntoStagingBuffer_Ok _ _ _ _ Ht).
    unfold define_layout. rewrite !decide_False by assumption.
    split; [reflexivity|]. split; [reflexivity|].
    intros pCycle w' H.
    assert (layout_kept this w w') as Hk.
    { destruct H as [H|[H|[H|H]]].
      - eapply SynchronizeHost_keeps, H.
      - eapply SynchronizeHostWithBuffer_keeps, H.
      - eapply SynchronizeGuest_keeps, H.
      - eapply SynchronizeGuestWithBuffer_keeps, H. }
    destruct (Hk t Ht Hd) as (t' & -> & <-). reflexivity.
Qed.

(** ** TransitionLayout *)

Lemma WaitOnFence_texture this t w w' :
  textures w !! this = Some t ->
  WaitOnFence ext this w = Ok tt w' ->
  exists t', textures w' !! this = Some t' /\ set_cycle None t' = set_cycle None t.
Proof.
  intros Ht H. destruct (WaitOnFence_Ok _ _ _ _ Ht H) as ([E|E] & _).
  - exists t. rewrite E. auto.
  - exists (set_cycle None t). rewrite E. split; [eapply lookup_insert_this, Ht | reflexivity].
Qed.

Lemma set_cycle_fields t t' :
  set_cycle None t' = set_cycle None t ->
  layout t' = layout t /\ backing t' = backing t /\ guest t' = guest t /\
  dimensions t' = dimensions t /\ format t' = format t /\ tiling t' = tiling t /\
  mipLevels t' = mipLevels t /\ layerCount t' = layerCount t.
Proof. intros H. injection H. intros. repeat split; assumption. Qed.

Lemma fresh_cycle_lookup (cs : list FenceCycle) fc : (cs ++ [fc]) !! length cs = Some fc.
Proof. apply list_lookup_middle. reflexivity. Qed.

(** C6, as the code has it: two calls of [TransitionLayout] with the same
    layout in a row submit one barrier in all if the layout was another one
    before, and nothing if it was that layout already; the second call
    submits nothing, and the layout is the requested one after either call. *)
Theorem TransitionLayout_twice w this t L w0 :
  textures w !! this = Some t ->
  GetBacking t <> VK_NULL_HANDLE ->
  WaitOnFence ext this w = Ok tt w0 ->
  exists w1 w2,
    TransitionLayout ext this L w = Ok tt w1 /\
    TransitionLayout ext this L w1 = Ok tt w2 /\
    submitted w1
    = submitted w ++ (if decide (layout t = L) then [] else [[transition_barrier ext t L]]) /\
    submitted w2 = submitted w1 /\
    layout <$> textures w1 !! this = Some L /\
    layout <$> textures w2 !! this = Some L.
Proof.
  intros Ht Hb Hw.
  destruct (WaitOnFence_texture _ _ _ _ Ht Hw) as (t0 & Ht0 & E0).
  destruct (set_cycle_fields _ _ E0) as (El & Eb & _ & _ & Ef & _ & Em & Ey).
  destruct (WaitOnFence_Ok _ _ _ _ Ht Hw) as (_ & Hs & _ & Hw0).
  assert (GetBacking t0 <> VK_NULL_HANDLE) as Hb0 by (unfold GetBacking; rewrite Eb; exact Hb).
  assert (forall x, TransitionLayout ext this L w = x <->
            (t1 <- getTexture this ;;
             if decide (layout t1 <> L) then
               lCycle <- Submit (ret [transition_barrier ext t1 L]) ;;
               modifyTexture this (set_cycle (Some lCycle)) ;;;
               modifyTexture this (set_layout L)
             else ret tt) w0 = x) as Hfirst.
  { intros x. unfold TransitionLayout.
    rewrite (bind_Ok _ _ _ _ _ (WaitOnBacking_Ok _ _ _ Ht Hb)), (bind_Ok _ _ _ _ _ Hw).
    reflexivity. }
  destruct (decide (layout t = L)) as [HL|HL].
  - exists w0, w0. rewrite app_nil_r, Ht0. simpl. rewrite El.
    assert (TransitionLayout ext this L w0 = Ok tt w0) as H2.
    { unfold TransitionLayout.
      rewrite (bind_Ok _ _ _ _ _ (WaitOnBacking_Ok _ _ _ Ht0 Hb0)), (bind_Ok _ _ _ _ _ Hw0).
      rewrite (bind_Ok _ _ _ _ _ (getTexture_Ok _ _ _ Ht0)).
      rewrite decide_False by (rewrite El; tauto). reflexivity. }
    split; [|split; [exact H2|split; [exact Hs|split; [reflexivity|split; congruence]]]].
    apply Hfirst. rewrite (bind_Ok _ _ _ _ _ (getTexture_Ok _ _ _ Ht0)).
    rewrite decide_False by (rewrite El; tauto). reflexivity.
  - set (c := length (cycles w0)).
    set (fresh := {| signalled := false; attached := []; expired := false |}).
    set (t1 := set_layout L (set_cycle (Some c) t0)).
    set (w1 := set_textures (<[this := t1]> (<[this := set_cycle (Some c) t0]> (textures w0)))
                 (set_submitted (submitted w0 ++ [[transition_barrier ext t0 L]])
                    (set_cycles (cycles w0 ++ [fresh]) w0))).
    assert (textures w1 !! this = Some t1) as Ht1.
    { simpl. eapply lookup_insert_this, lookup_insert_this, Ht0. }
    set (w2 := set_textures (<[this := set_cycle None t1]> (textures w1))
                 (set_cycles (<[c := {| signalled := true; attached := []; expired := false |}]>
                                (cycles w1)) w1)).
    exists w1, w2.
    assert (transition_barrier ext t0 L = transition_barrier ext t L) as Eb'.
    { unfold transition_barrier, whole_range, GetBacking. rewrite El, Eb, Ef, Em, Ey. reflexivity. }
    split; [|split; [|split; [|split; [|split]]]].
    + apply Hfirst. rewrite (bind_Ok _ _ _ _ _ (getTexture_Ok _ _ _ Ht0)).
      rewrite decide_True by (rewrite El; exact HL).
      unfold Submit. unfold bind at 2. unfold ret at 1. unfold bind at 1.
      erewrite bind_Ok; [|apply modifyTexture_Ok; simpl; exact Ht0].
      erewrite (modifyTexture_Ok this _ (set_cycle (Some c) t0))
        by (simpl; eapply lookup_insert_this, Ht0).
      reflexivity.
    + unfold TransitionLayout.
      rewrite (bind_Ok _ _ _ _ _ (WaitOnBacking_Ok _ _ _ Ht1 Hb0)).
      assert (WaitOnFence ext this w1 = Ok tt w2) as Hw1.
      { unfold WaitOnFence. rewrite (bind_Ok _ _ _ _ _ (getTexture_Ok _ _ _ Ht1)).
        unfold lock, bind at 1. simpl cycle. simpl cycles.
        change (length (cycles w0)) with c. unfold c at 1. rewrite fresh_cycle_lookup. simpl expired.
        cbv iota. unfold FenceCycle_Wait, bind at 1. simpl cycles.
        rewrite fresh_cycle_lookup. simpl.
        erewrite (modifyTexture_Ok this _ t1) by (simpl; exact Ht1). reflexivity. }
      rewrite (bind_Ok _ _ _ _ _ Hw1).
      erewrite bind_Ok; [|apply getTexture_Ok; simpl; eapply lookup_insert_this, Ht1].
      rewrite decide_False by (simpl; tauto). reflexivity.
    + simpl. rewrite Hs, Eb'. reflexivity.
    + reflexivity.
    + rewrite Ht1. reflexivity.
    + simpl. erewrite lookup_insert_this by (eapply lookup_insert_this, lookup_insert_this, Ht0).
      reflexivity.
Qed.


(** ** The guarded wait *)

Lemma wait_unless_cases this t pCycle w w' :
  textures w !! this = Some t ->
  wait_unless ext this pCycle w = Ok tt w' ->
  w' = w \/ WaitOnFence ext this w = Ok tt w'.
Proof.
  intros Ht H. unfold wait_unless in H.
  rewrite (bind_Ok _ _ _ _ _ (getTexture_Ok _ _ _ Ht)) in H.
  unfold bind at 1 in H. destruct (lock (cycle t) w) as [l w0| | |] eqn:El; try discriminate.
  assert (w0 = w) as ->.
  { symmetry. apply (lock_keeps eq (cycle t) w w0). rewrite El. reflexivity. }
  destruct (negb (same_cycle l pCycle)); [right; exact H | left].
  unfold when, ret in H. congruence.
Qed.

Lemma wait_unless_None this t w :
  textures w !! this = Some t ->
  wait_unless ext this None w = WaitOnFence ext this w.
Proof.
  intros Ht. unfold wait_unless, WaitOnFence.
  rewrite !(bind_Ok _ _ _ _ _ (getTexture_Ok _ _ _ Ht)).
  unfold bind. destruct (lock (cycle t) w) as [l w0| | |] eqn:El; try reflexivity.
  assert (w0 = w) as ->.
  { symmetry. apply (lock_keeps eq (cycle t) w w0). rewrite El. reflexivity. }
  destruct l as [c|]; simpl.
  - rewrite (getTexture_Ok _ _ _ Ht), El. reflexivity.
  - reflexivity.
Qed.

(** After the guarded wait the texture is as it was, up to having let go of
    its cycle; nothing is submitted and no cycle is created. *)
Lemma wait_unless_Ok this t pCycle w w' :
  textures w !! this = Some t ->
  wait_unless ext this pCycle w = Ok tt w' ->
  (exists t', textures w' !! this = Some t' /\ set_cycle None t' = set_cycle None t /\
              (cycle t' = cycle t \/ cycle t' = None)) /\
  submitted w' = submitted w /\
  length (cycles w') = length (cycles w).
Proof.
  intros Ht H. destruct (wait_unless_cases _ _ _ _ _ Ht H) as [->|Hw].
  - split; [exists t|]; auto.
  - destruct (WaitOnFence_Ok _ _ _ _ Ht Hw) as ([E|E] & Hs & Hc & _); (split; [|auto]).
    + exists t. rewrite E. auto.
    + exists (set_cycle None t). rewrite E.
      split; [eapply lookup_insert_this, Ht | split; [reflexivity | right; reflexivity]].
Qed.

(** ** The copy to the guest *)

(** In the [Linear] tile mode [CopyToGuest] copies the first
    [format->GetSize(dimensions)] bytes of the guest mapping into the host
    buffer: the arguments of [std::memcpy] are the destination first. The
    guest mapping is left as it was. *)
Lemma CopyToGuest_linear w this t g m0 rest hostBuffer hbytes gbytes :
  textures w !! this = Some t ->
  guest t = Some g ->
  mappings g = m0 :: rest ->
  mode (tileConfig g) = Linear ->
  memory w !! hostBuffer = Some hbytes ->
  memory w !! data m0 = Some gbytes ->
  (Z.to_nat (GetSize ext (format t) (dimensions t)) <= length hbytes)%nat ->
  (Z.to_nat (GetSize ext (format t) (dimensions t)) <= length gbytes)%nat ->
  hostBuffer <> data m0 ->
  CopyToGuest ext this hostBuffer w
  = Ok tt (set_memory
             (<[hostBuffer := take (Z.to_nat (GetSize ext (format t) (dimensions t))) gbytes
                              ++ drop (Z.to_nat (GetSize ext (format t) (dimensions t))) hbytes]>
                (memory w)) w).
Proof.
  intros Ht Hg Hm Hmode Hh Hgm Hlh Hlg Hne. unfold CopyToGuest, bind, getTexture.
  rewrite Ht, Hg. simpl. rewrite Hm. simpl. rewrite Hmode. unfold memcpy. rewrite Hh, Hgm.
  apply Nat.leb_le in Hlh, Hlg. rewrite Hlh, Hlg.
  apply Nat.eqb_neq in Hne. rewrite Hne. reflexivity.
Qed.

(** [SynchronizeGuest] on the direct-map path of a [Linear] guest texture:
    nothing is submitted, the guest mapping keeps its bytes and the mapped
    host image receives them. *)
Lemma SynchronizeGuest_direct_linear w this t g m0 img mapped hbytes gbytes w0 :
  textures w !! this = Some t ->
  guest t = Some g ->
  mappings g = [m0] ->
  layout t <> eUndefined ->
  tiling t = eLinear ->
  backing t = MemoryImage img mapped ->
  img <> VK_NULL_HANDLE ->
  mode (tileConfig g) = Linear ->
  WaitOnFence ext this w = Ok tt w0 ->
  memory w0 !! mapped = Some hbytes ->
  memory w0 !! data m0 = Some gbytes ->
  (Z.to_nat (GetSize ext (format t) (dimensions t)) <= length hbytes)%nat ->
  (Z.to_nat (GetSize ext (format t) (dimensions t)) <= length gbytes)%nat ->
  mapped <> data m0 ->
  exists w',
    SynchronizeGuest ext this w = Ok tt w' /\
    submitted w' = submitted w /\
    memory w' !! data m0 = Some gbytes /\
    memory w' !! mapped
    = Some (take (Z.to_nat (GetSize ext (format t) (dimensions t))) gbytes
            ++ drop (Z.to_nat (GetSize ext (format t) (dimensions t))) hbytes).
Proof.
  intros Ht Hg Hm Hl Htl Hbk Himg Hmode Hw Hh Hgm Hlh Hlg Hne.
  destruct (WaitOnFence_texture _ _ _ _ Ht Hw) as (t0 & Ht0 & E0).
  destruct (set_cycle_fields _ _ E0) as (El & Eb & Eg & Ed & Ef & _).
  destruct (WaitOnFence_Ok _ _ _ _ Ht Hw) as (_ & Hs & _).
  pose proof (CopyToGuest_linear w0 this t0 g m0 [] mapped hbytes gbytes Ht0) as Hc.
  rewrite Ef, Ed, Eg in Hc. specialize (Hc Hg Hm Hmode Hh Hgm Hlh Hlg Hne).
  eexists. split; [|split; [|split]].
  - unfold SynchronizeGuest.
    rewrite (bind_Ok _ _ _ _ _ (getTexture_Ok _ _ _ Ht)), Hg.
    rewrite decide_False by assumption. rewrite Hm.
    change (1 <? length [m0])%nat with false. cbv iota.
    erewrite bind_Ok; [|eapply WaitOnBacking_Ok; [exact Ht|]; unfold GetBacking; rewrite Hbk; exact Himg].
    rewrite (bind_Ok _ _ _ _ _ Hw). rewrite Htl, Hbk. simpl. exact Hc.
  - simpl. exact Hs.
  - simpl. rewrite list_lookup_insert_ne by assumption. exact Hgm.
  - simpl. eapply lookup_insert_this, Hh.
Qed.

(** The destructor of a copy guard without a staging buffer copies from the
    mapped data of the backing image. *)
Lemma TextureBufferCopy_release_direct w this t img mapped :
  textures w !! this = Some t ->
  backing t = MemoryImage img mapped ->
  TextureBufferCopy_release ext {| copy_texture := this; copy_stagingBuffer := None |} w
  = CopyToGuest ext this mapped w.
Proof.
  intros Ht Hb. unfold TextureBufferCopy_release. simpl.
  rewrite (bind_Ok _ _ _ _ _ (getTexture_Ok _ _ _ Ht)), Hb. reflexivity.
Qed.

(** On the direct-map path [SynchronizeGuestWithBuffer] runs
    [CopyToGuest] from the mapped image at once and attaches to the supplied
    cycle a copy guard without a staging buffer; releasing that guard, which
    a wait on the cycle does, runs the same [CopyToGuest] once more. *)
Theorem SynchronizeGuestWithBuffer_direct_copies_twice
    w this t g img mapped pc w0 w1 fc :
  textures w !! this = Some t ->
  guest t = Some g ->
  layout t <> eUndefined ->
  (length (mappings g) <= 1)%nat ->
  tiling t = eLinear ->
  backing t = MemoryImage img mapped ->
  img <> VK_NULL_HANDLE ->
  wait_unless ext this (Some pc) w = Ok tt w0 ->
  CopyToGuest ext this mapped w0 = Ok tt w1 ->
  cycles w1 !! pc = Some fc ->
  exists w2,
    SynchronizeGuestWithBuffer ext this (Some pc) w = Ok [] w2 /\
    memory w2 = memory w1 /\
    submitted w2 = submitted w /\
    cycles w2 !! pc
    = Some {| signalled := signalled fc;
              attached := attached fc
                          ++ [AttachedCopy {| copy_texture := this; copy_stagingBuffer := None |}];
              expired := expired fc |} /\
    cycle <$> textures w2 !! this = Some (Some pc) /\
    TextureBufferCopy_release ext {| copy_texture := this; copy_stagingBuffer := None |} w2
    = CopyToGuest ext this mapped w2 /\
    (signalled fc = false -> attached fc = [] ->
     FenceCycle_Wait ext pc w2
     = CopyToGuest ext this mapped
         (set_cycles (<[pc := {| signalled := true; attached := []; expired := expired fc |}]>
                        (cycles w2)) w2)).
Proof.
  intros Ht Hg Hl Hm Htl Hbk Himg Hw Hc Hpc.
  destruct (wait_unless_Ok _ _ _ _ _ Ht Hw) as ((t0 & Ht0 & E0 & _) & Hs & _).
  destruct (set_cycle_fields _ _ E0) as (El & Eb & _).
  destruct (CopyToGuest_keeps this mapped w0 w1) as (Ht1 & Hs1 & _); [rewrite Hc; reflexivity|].
  rewrite <- Ht1 in Ht0.
  set (guard := {| copy_texture := this; copy_stagingBuffer := None |}).
  set (fc' := {| signalled := signalled fc; attached := attached fc ++ [AttachedCopy guard];
                 expired := expired fc |}).
  set (w2 := set_textures (<[this := set_cycle (Some pc) t0]> (textures w1))
               (set_cycles (<[pc := fc']> (cycles w1)) w1)).
  assert (textures w2 !! this = Some (set_cycle (Some pc) t0)) as Ht2.
  { simpl. eapply lookup_insert_this, Ht0. }
  assert (cycles w2 !! pc = Some fc') as Hpc2.
  { simpl. eapply lookup_insert_this, Hpc. }
  exists w2. split; [|split; [|split; [|split; [|split; [|split]]]]].
  - unfold SynchronizeGuestWithBuffer.
    rewrite (bind_Ok _ _ _ _ _ (getTexture_Ok _ _ _ Ht)), Hg.
    rewrite decide_False by assumption.
    apply Nat.nlt_ge, Nat.ltb_nlt in Hm. rewrite Hm.
    erewrite bind_Ok; [|eapply WaitOnBacking_Ok; [exact Ht|]; unfold GetBacking; rewrite Hbk; exact Himg].
    rewrite (bind_Ok _ _ _ _ _ Hw). rewrite Htl, Hbk. simpl.
    rewrite (bind_Ok _ _ _ _ _ Hc).
    unfold AttachObjects, bind at 1. rewrite Hpc.
    erewrite bind_Ok; [|apply modifyTexture_Ok; simpl; exact Ht0]. reflexivity.
  - reflexivity.
  - simpl. congruence.
  - exact Hpc2.
  - rewrite Ht2. reflexivity.
  - apply (TextureBufferCopy_release_direct _ _ _ img _ Ht2). simpl. congruence.
  - intros Hsig Hatt. unfold FenceCycle_Wait. rewrite Hpc2. simpl signalled. rewrite Hsig.
    simpl attached. rewrite Hatt. simpl app. simpl release_all. simpl expired.
    rewrite bind_ret_unit. unfold release.
    apply (TextureBufferCopy_release_direct _ this (set_cycle (Some pc) t0) img mapped);
      [simpl; exact Ht2|simpl; congruence].
Qed.


(** ** SynchronizeHost *)

Lemma upload_commands_ext t t' stagingBuffer :
  set_cycle None t' = set_cycle None t ->
  upload_commands ext t' stagingBuffer = upload_commands ext t stagingBuffer.
Proof.
  intros E. destruct (set_cycle_fields _ _ E) as (El & Eb & _ & Ed & Ef & _ & Em & Ey).
  unfold upload_commands, whole_range, whole_layers, GetBacking.
  rewrite El, Eb, Ed, Ef, Em, Ey. reflexivity.
Qed.

(** The unit a staging upload submits holds one copy of the buffer into the
    image, whatever barriers surround it. *)
Lemma upload_commands_one_copy t stagingBuffer :
  length (List.filter is_copyBufferToImage (upload_commands ext t stagingBuffer)) = 1%nat.
Proof.
  unfold upload_commands.
  destruct (decide (layout t <> eTransferDstOptimal)),
           (decide (layout t <> eTransferDstOptimal /\ layout t <> eUndefined)); reflexivity.
Qed.

Lemma define_layout_lookup L this t w :
  textures w !! this = Some t ->
  textures (define_layout L this t w) !! this
  = Some (if decide (layout t = eUndefined) then set_layout L t else t) /\
  cycles (define_layout L this t w) = cycles w /\
  submitted (define_layout L this t w) = submitted w /\
  memory (define_layout L this t w) = memory w.
Proof.
  intros Ht. unfold define_layout. destruct (decide (layout t = eUndefined)); simpl; auto.
  repeat split. eapply lookup_insert_this, Ht.
Qed.

Lemma SynchronizeHostImpl_staging w this t g m0 pCycle sb w1 w2 w3 :
  textures w !! this = Some t ->
  guest t = Some g ->
  guest_dimensions g = dimensions t ->
  mappings g = [m0] ->
  GetBacking t <> VK_NULL_HANDLE ->
  tiling t = eOptimal \/ holds_memory_image (backing t) = false ->
  AllocateStagingBuffer (GetSize ext (format t) (dimensions t)) w = Ok sb w1 ->
  convert_from_guest ext g (data m0) (staging_data sb) (GetSize ext (format t) (dimensions t)) w1
  = Ok tt w2 ->
  wait_unless ext this pCycle w2 = Ok tt w3 ->
  SynchronizeHostImpl ext this pCycle w = Ok (Some sb) w3.
Proof.
  intros Ht Hg Hd Hm Hb Hpath Ha Hc Hw. unfold SynchronizeHostImpl.
  rewrite (bind_Ok _ _ _ _ _ (getTexture_Ok _ _ _ Ht)), Hg.
  rewrite decide_False by (intros H; apply H, Hd). rewrite Hm.
  change (1 <? length [m0])%nat with false. cbv iota.
  unfold front. unfold bind at 1. unfold ret at 1.
  rewrite (bind_Ok _ _ _ _ _ (WaitOnBacking_Ok _ _ _ Ht Hb)).
  assert (bool_decide (tiling t = eOptimal) || negb (holds_memory_image (backing t)) = true) as ->.
  { destruct Hpath as [->| ->]; [reflexivity | apply orb_true_r]. }
  assert ((stagingBuffer <- AllocateStagingBuffer (GetSize ext (format t) (dimensions t)) ;;
           ret (Some stagingBuffer, staging_data stagingBuffer)) w
          = Ok (Some sb, staging_data sb) w1) as Hst
    by (unfold bind; rewrite Ha; reflexivity).
  rewrite (bind_Ok _ _ _ _ _ Hst).
  simpl fst. simpl snd. rewrite (bind_Ok _ _ _ _ _ Hc). simpl when.
  rewrite (bind_Ok _ _ _ _ _ Hw). reflexivity.
Qed.

Lemma SynchronizeHostImpl_direct w this t g m0 pCycle img mapped w1 w2 :
  textures w !! this = Some t ->
  guest t = Some g ->
  guest_dimensions g = dimensions t ->
  mappings g = [m0] ->
  GetBacking t <> VK_NULL_HANDLE ->
  tiling t = eLinear ->
  backing t = MemoryImage img mapped ->
  wait_unless ext this pCycle w = Ok tt w1 ->
  convert_from_guest ext g (data m0) mapped (GetSize ext (format t) (dimensions t)) w1
  = Ok tt w2 ->
  SynchronizeHostImpl ext this pCycle w = Ok None w2.
Proof.
  intros Ht Hg Hd Hm Hb Htl Hbk Hw Hc. unfold SynchronizeHostImpl.
  rewrite (bind_Ok _ _ _ _ _ (getTexture_Ok _ _ _ Ht)), Hg.
  rewrite decide_False by (intros H; apply H, Hd). rewrite Hm.
  change (1 <? length [m0])%nat with false. cbv iota.
  unfold front. unfold bind at 1. unfold ret at 1.
  rewrite (bind_Ok _ _ _ _ _ (WaitOnBacking_Ok _ _ _ Ht Hb)).
  rewrite Htl, Hbk. simpl orb. cbv iota. simpl bool_decide. cbv iota.
  assert ((wait_unless ext this pCycle ;;; ret (@None StagingBuffer, mapped)) w
          = Ok (None, mapped) w1) as Hst
    by (unfold bind; rewrite Hw; reflexivity).
  rewrite (bind_Ok _ _ _ _ _ Hst).
  simpl fst. simpl snd. rewrite (bind_Ok _ _ _ _ _ Hc). reflexivity.
Qed.

(** C7: a [SynchronizeHost] call whose preconditions hold. On the staging
    path it submits one unit, the copy of the staging buffer into the image
    between its barriers, attaches the staging buffer and the texture to the
    cycle of that submission and tracks that cycle. On the direct-map path it
    returns once the guest bytes are converted into the mapped image; nothing
    is submitted, no cycle is created, and the texture tracks the cycle it
    tracked before or, having waited for it, none. *)
Theorem SynchronizeHost_paths w this t g m0 :
  textures w !! this = Some t ->
  guest t = Some g ->
  guest_dimensions g = dimensions t ->
  mappings g = [m0] ->
  GetBacking t <> VK_NULL_HANDLE ->
  (tiling t = eOptimal \/ holds_memory_image (backing t) = false ->
   forall sb w1 w2 w3,
     AllocateStagingBuffer (GetSize ext (format t) (dimensions t)) w = Ok sb w1 ->
     convert_from_guest ext g (data m0) (staging_data sb)
       (GetSize ext (format t) (dimensions t)) w1 = Ok tt w2 ->
     wait_unless ext this None w2 = Ok tt w3 ->
     exists w',
       SynchronizeHost ext this w = Ok tt w' /\
       submitted w' = submitted w ++ [upload_commands ext t sb] /\
       length (cycles w') = S (length (cycles w)) /\
       cycles w' !! length (cycles w)
       = Some {| signalled := false;
                 attached := [AttachedStagingBuffer sb; AttachedTexture this];
                 expired := false |} /\
       cycle <$> textures w' !! this = Some (Some (length (cycles w)))) /\
  (tiling t = eLinear ->
   forall img mapped w1 w2,
     backing t = MemoryImage img mapped ->
     wait_unless ext this None w = Ok tt w1 ->
     convert_from_guest ext g (data m0) mapped
       (GetSize ext (format t) (dimensions t)) w1 = Ok tt w2 ->
     SynchronizeHost ext this w = Ok tt w2 /\
     submitted w2 = submitted w /\
     length (cycles w2) = length (cycles w) /\
     (cycle <$> textures w2 !! this = Some (cycle t) \/
      cycle <$> textures w2 !! this = Some None)).
Proof.
  intros Ht Hg Hd Hm Hb. split.
  - intros Hpath sb w1 w2 w3 Ha Hc Hw.
    pose proof (SynchronizeHostImpl_staging _ _ _ _ _ None _ _ _ _ Ht Hg Hd Hm Hb Hpath Ha Hc Hw) as Himpl.
    destruct (AllocateStagingBuffer_keeps (GetSize ext (format t) (dimensions t)) w w1)
      as (T1 & S1 & C1); [rewrite Ha; reflexivity|].
    destruct (convert_from_guest_keeps g (data m0) (staging_data sb)
                (GetSize ext (format t) (dimensions t)) w1 w2) as (T2 & S2 & C2);
      [rewrite Hc; reflexivity|].
    assert (textures w2 !! this = Some t) as Ht2 by congruence.
    destruct (wait_unless_Ok _ _ _ _ _ Ht2 Hw) as ((t3 & Ht3 & E3 & _) & S3 & C3).
    destruct (define_layout_lookup eTransferDstOptimal this t3 w3 Ht3) as (Htd & Hcd & Hsd & _).
    set (wd := define_layout eTransferDstOptimal this t3 w3) in *.
    set (td := if decide (layout t3 = eUndefined) then set_layout eTransferDstOptimal t3 else t3) in *.
    set (fresh := {| signalled := false; attached := []; expired := false |}).
    set (full := {| signalled := false;
                    attached := [AttachedStagingBuffer sb; AttachedTexture this];
                    expired := false |}).
    assert (length (cycles wd) = length (cycles w)) as Hlen by congruence.
    exists (set_textures (<[this := set_cycle (Some (length (cycles wd))) td]> (textures wd))
              (set_cycles (<[length (cycles wd) := full]> (cycles wd ++ [fresh]))
                 (set_submitted (submitted wd ++ [upload_commands ext t3 sb])
                    (set_cycles (cycles wd ++ [fresh]) wd)))).
    split; [|split; [|split; [|split]]].
    + unfold SynchronizeHost. rewrite (bind_Ok _ _ _ _ _ Himpl).
      unfold Submit. erewrite bind_Ok;
        [|erewrite bind_Ok; [|apply CopyFromStagingBuffer_Ok, Ht3]; reflexivity].
      unfold AttachObjects, bind at 1. simpl cycles. fold wd. rewrite fresh_cycle_lookup.
      erewrite modifyTexture_Ok by (simpl; exact Htd). reflexivity.
    + simpl. rewrite Hsd, S3, S2, S1, (upload_commands_ext _ _ _ E3). reflexivity.
    + simpl. rewrite length_insert, length_app. simpl. lia.
    + simpl. rewrite <- Hlen. apply list_lookup_insert_eq. rewrite length_app. simpl. lia.
    + simpl. erewrite lookup_insert_this by exact Htd. simpl. rewrite Hlen. reflexivity.
  - intros Htl img mapped w1 w2 Hbk Hw Hc.
    pose proof (SynchronizeHostImpl_direct _ _ _ _ _ None _ _ _ _ Ht Hg Hd Hm Hb Htl Hbk Hw Hc) as Himpl.
    destruct (wait_unless_Ok _ _ _ _ _ Ht Hw) as ((t1 & Ht1 & _ & Hcy) & S1 & C1).
    destruct (convert_from_guest_keeps g (data m0) mapped
                (GetSize ext (format t) (dimensions t)) w1 w2) as (T2 & S2 & C2);
      [rewrite Hc; reflexivity|].
    split; [|split; [|split]].
    + unfold SynchronizeHost. rewrite (bind_Ok _ _ _ _ _ Himpl). reflexivity.
    + congruence.
    + congruence.
    + rewrite T2, Ht1. simpl. destruct Hcy as [-> | ->]; auto.
Qed.


(** ** CopyFrom *)

Lemma WaitOnFence_lookup this t j tj w w' :
  textures w !! this = Some t ->
  textures w !! j = Some tj ->
  WaitOnFence ext this w = Ok tt w' ->
  exists tj', textures w' !! j = Some tj' /\ set_cycle None tj' = set_cycle None tj /\
              (cycle tj' = cycle tj \/ cycle tj' = None).
Proof.
  intros Ht Hj H. destruct (WaitOnFence_Ok _ _ _ _ Ht H) as ([E|E] & _); rewrite E.
  - exists tj. auto.
  - destruct (decide (this = j)) as [->|Hne].
    + assert (tj = t) as -> by congruence. exists (set_cycle None t).
      split; [eapply lookup_insert_this, Ht | split; [reflexivity | right; reflexivity]].
    + exists tj. rewrite list_lookup_insert_ne by assumption. auto.
Qed.

Lemma set_cycle_trans t t' t'' :
  set_cycle None t'' = set_cycle None t' -> set_cycle None t' = set_cycle None t ->
  set_cycle None t'' = set_cycle None t.
Proof. congruence. Qed.

(** The two waits with which [CopyFrom] starts leave both textures as they
    were, up to the cycle each of them tracked, submit nothing and create no
    cycle; [CopyFrom] goes on from there with its checks. *)
Lemma CopyFrom_waits w this source subresource dst src w1 w2 :
  textures w !! this = Some dst ->
  textures w !! source = Some src ->
  GetBacking dst <> VK_NULL_HANDLE ->
  GetBacking src <> VK_NULL_HANDLE ->
  WaitOnFence ext this w = Ok tt w1 ->
  WaitOnFence ext source w1 = Ok tt w2 ->
  exists dst2 src2,
    textures w2 !! this = Some dst2 /\ textures w2 !! source = Some src2 /\
    set_cycle None dst2 = set_cycle None dst /\ set_cycle None src2 = set_cycle None src /\
    (cycle dst2 = cycle dst \/ cycle dst2 = None) /\
    (cycle src2 = cycle src \/ cycle src2 = None) /\
    submitted w2 = submitted w /\
    length (cycles w2) = length (cycles w) /\
    CopyFrom ext this source subresource w
    = (if decide (layout src2 = eUndefined) then throw CopyUndefinedLayout
       else if decide (dimensions src2 <> dimensions dst2) then throw CopyDifferentDimensions
       else if decide (format src2 <> format dst2) then throw CopyDifferentFormat
       else
         lCycle <- Submit (CopyFrom_record this source subresource) ;;
         AttachObjects (Some lCycle) [AttachedTexture source; AttachedTexture this] ;;;
         modifyTexture this (set_cycle (Some lCycle))) w2.
Proof.
  intros Hd Hs Hbd Hbs Hw1 Hw2.
  destruct (WaitOnFence_lookup _ _ _ _ _ _ Hd Hd Hw1) as (dst1 & Hd1 & Ed1 & Cd1).
  destruct (WaitOnFence_lookup _ _ _ _ _ _ Hd Hs Hw1) as (src1 & Hs1 & Es1 & Cs1).
  destruct (WaitOnFence_lookup _ _ _ _ _ _ Hs1 Hd1 Hw2) as (dst2 & Hd2 & Ed2 & Cd2).
  destruct (WaitOnFence_lookup _ _ _ _ _ _ Hs1 Hs1 Hw2) as (src2 & Hs2 & Es2 & Cs2).
  destruct (WaitOnFence_Ok _ _ _ _ Hd Hw1) as (_ & S1 & C1 & _).
  destruct (WaitOnFence_Ok _ _ _ _ Hs1 Hw2) as (_ & S2 & C2 & _).
  exists dst2, src2.
  split; [exact Hd2|]. split; [exact Hs2|].
  split; [eapply set_cycle_trans; eassumption|]. split; [eapply set_cycle_trans; eassumption|].
  split; [destruct Cd1 as [<-|E1], Cd2 as [E2|E2]; auto; right; congruence|].
  split; [destruct Cs1 as [<-|E1], Cs2 as [E2|E2]; auto; right; congruence|].
  split; [congruence|]. split; [congruence|].
  unfold CopyFrom.
  rewrite (bind_Ok _ _ _ _ _ (WaitOnBacking_Ok _ _ _ Hd Hbd)), (bind_Ok _ _ _ _ _ Hw1).
  erewrite bind_Ok; [|eapply WaitOnBacking_Ok; [exact Hs1|]].
  2:{ destruct (set_cycle_fields _ _ Es1) as (_ & Eb & _). unfold GetBacking. rewrite Eb. exact Hbs. }
  rewrite (bind_Ok _ _ _ _ _ Hw2).
  rewrite (bind_Ok _ _ _ _ _ (getTexture_Ok _ _ _ Hs2)), (bind_Ok _ _ _ _ _ (getTexture_Ok _ _ _ Hd2)).
  reflexivity.
Qed.

(** C5, as the code has it: a [CopyFrom] whose source is in the undefined
    layout, or differs from the destination in dimensions or format, throws
    after its waits and before anything is recorded or submitted; both
    textures keep every field but the tracked cycle, which each of them
    keeps or, having waited for it, lets go of. *)
Theorem CopyFrom_checks w this source subresource dst src w1 w2 :
  textures w !! this = Some dst ->
  textures w !! source = Some src ->
  GetBacking dst <> VK_NULL_HANDLE ->
  GetBacking src <> VK_NULL_HANDLE ->
  WaitOnFence ext this w = Ok tt w1 ->
  WaitOnFence ext source w1 = Ok tt w2 ->
  layout src = eUndefined \/ dimensions src <> dimensions dst \/ format src <> format dst ->
  (exists e, CopyFrom ext this source subresource w = Throw e w2) /\
  submitted w2 = submitted w /\
  length (cycles w2) = length (cycles w) /\
  exists dst' src',
    textures w2 !! this = Some dst' /\ textures w2 !! source = Some src' /\
    set_cycle None dst' = set_cycle None dst /\ set_cycle None src' = set_cycle None src /\
    (cycle dst' = cycle dst \/ cycle dst' = None) /\
    (cycle src' = cycle src \/ cycle src' = None).
Proof.
  intros Hd Hs Hbd Hbs Hw1 Hw2 Hbad.
  destruct (CopyFrom_waits _ _ _ subresource _ _ _ _ Hd Hs Hbd Hbs Hw1 Hw2)
    as (dst2 & src2 & Hd2 & Hs2 & Ed & Es & Cd & Cs & S & C & ->).
  destruct (set_cycle_fields _ _ Ed) as (_ & _ & _ & Edd & Edf & _).
  destruct (set_cycle_fields _ _ Es) as (Esl & _ & _ & Esd & Esf & _).
  split; [|split; [exact S|split; [exact C|exists dst2, src2; auto 10]]].
  rewrite Esl, Esd, Esf, Edd, Edf.
  destruct (decide (layout src = eUndefined)); [eexists; reflexivity|].
  destruct (decide (dimensions src <> dimensions dst)); [eexists; reflexivity|].
  destruct (decide (format src <> format dst)); [eexists; reflexivity|].
  exfalso. destruct Hbad as [?|[?|?]]; contradiction.
Qed.

Lemma CopyFrom_record_Ok w this source subresource dst src :
  textures w !! this = Some dst ->
  textures w !! source = Some src ->
  layout src <> eUndefined ->
  CopyFrom_record this source subresource w
  = Ok (CopyFrom_commands src dst subresource) (define_layout eTransferDstOptimal this dst w).
Proof.
  intros Hd Hs Hl. unfold CopyFrom_record, CopyFrom_commands, define_layout.
  rewrite (bind_Ok _ _ _ _ _ (getTexture_Ok _ _ _ Hs)), (bind_Ok _ _ _ _ _ (getTexture_Ok _ _ _ Hd)).
  destruct (decide (layout dst = eUndefined)) as [Hu|Hu].
  - rewrite (decide_True (P := layout dst <> eTransferDstOptimal)) by (rewrite Hu; discriminate).
    unfold bind at 1. unfold bind at 1. rewrite bool_decide_eq_true_2 by assumption. simpl when.
    rewrite (modifyTexture_Ok _ _ _ _ Hd). unfold ret at 1.
    erewrite bind_Ok; [|apply getTexture_Ok; simpl; eapply lookup_insert_this, Hd].
    erewrite bind_Ok; [|apply getTexture_Ok; simpl].
    2:{ rewrite list_lookup_insert_ne; [exact Hs|]. intros ->. congruence. }
    rewrite (decide_True (P := layout dst <> eTransferDstOptimal)) by (rewrite Hu; discriminate).
    reflexivity.
  - destruct (decide (layout dst <> eTransferDstOptimal)) as [Hn|Hn].
    + unfold bind at 1. unfold bind at 1. rewrite bool_decide_eq_false_2 by assumption. simpl when.
      unfold ret at 1 2.
      rewrite (bind_Ok _ _ _ _ _ (getTexture_Ok _ _ _ Hd)), (bind_Ok _ _ _ _ _ (getTexture_Ok _ _ _ Hs)).
      rewrite (decide_True (P := layout dst <> eTransferDstOptimal)) by assumption.
      reflexivity.
    + unfold bind at 1. unfold ret at 1.
      rewrite (bind_Ok _ _ _ _ _ (getTexture_Ok _ _ _ Hd)), (bind_Ok _ _ _ _ _ (getTexture_Ok _ _ _ Hs)).
      rewrite (decide_False (P := layout dst <> eTransferDstOptimal)) by assumption.
      reflexivity.
Qed.

Lemma CopyFrom_commands_ext src src' dst dst' subresource :
  set_cycle None src' = set_cycle None src ->
  set_cycle None dst' = set_cycle None dst ->
  CopyFrom_commands src' dst' subresource = CopyFrom_commands src dst subresource.
Proof.
  intros Es Ed.
  destruct (set_cycle_fields _ _ Es) as (Esl & Esb & _).
  destruct (set_cycle_fields _ _ Ed) as (Edl & Edb & _ & Edd & _ & _ & Edm & Edy).
  unfold CopyFrom_commands, GetBacking, level_bound, first_layers.
  rewrite Esl, Esb, Edl, Edb.
  destruct (decide (layout dst = eUndefined)); simpl; rewrite ?Edl, ?Edd, ?Edm, ?Edy; reflexivity.
Qed.

(** [CopyFrom] past its checks: it submits what [CopyFrom_commands] says as
    one unit, attaches the source and the destination to the cycle of the
    submission and has the destination track it. *)
Lemma CopyFrom_Ok w this source subresource dst src w1 w2 :
  textures w !! this = Some dst ->
  textures w !! source = Some src ->
  GetBacking dst <> VK_NULL_HANDLE ->
  GetBacking src <> VK_NULL_HANDLE ->
  WaitOnFence ext this w = Ok tt w1 ->
  WaitOnFence ext source w1 = Ok tt w2 ->
  layout src <> eUndefined ->
  dimensions src = dimensions dst ->
  format src = format dst ->
  exists w',
    CopyFrom ext this source subresource w = Ok tt w' /\
    submitted w' = submitted w ++ [CopyFrom_commands src dst subresource] /\
    cycles w' !! length (cycles w)
    = Some {| signalled := false;
              attached := [AttachedTexture source; AttachedTexture this];
              expired := false |} /\
    (exists dst', textures w' !! this = Some dst' /\
       cycle dst' = Some (length (cycles w)) /\
       layout dst' = if decide (layout dst = eUndefined) then eTransferDstOptimal else layout dst).
Proof.
  intros Hd Hs Hbd Hbs Hw1 Hw2 Hl Hdim Hfmt.
  destruct (CopyFrom_waits _ _ _ subresource _ _ _ _ Hd Hs Hbd Hbs Hw1 Hw2)
    as (dst2 & src2 & Hd2 & Hs2 & Ed & Es & _ & _ & S & C & ->).
  destruct (set_cycle_fields _ _ Ed) as (Edl & _ & _ & Edd & Edf & _).
  destruct (set_cycle_fields _ _ Es) as (Esl & _ & _ & Esd & Esf & _).
  rewrite decide_False by congruence. rewrite decide_False by (intros H; apply H; congruence).
  rewrite decide_False by (intros H; apply H; congruence).
  destruct (define_layout_lookup eTransferDstOptimal this dst2 w2 Hd2) as (Htd & Hcd & Hsd & _).
  set (wd := define_layout eTransferDstOptimal this dst2 w2) in *.
  set (td := if decide (layout dst2 = eUndefined) then set_layout eTransferDstOptimal dst2 else dst2) in *.
  set (fresh := {| signalled := false; attached := []; expired := false |}).
  set (full := {| signalled := false;
                  attached := [AttachedTexture source; AttachedTexture this];
                  expired := false |}).
  assert (length (cycles wd) = length (cycles w)) as Hlen by congruence.
  exists (set_textures (<[this := set_cycle (Some (length (cycles wd))) td]> (textures wd))
            (set_cycles (<[length (cycles wd) := full]> (cycles wd ++ [fresh]))
               (set_submitted (submitted wd ++ [CopyFrom_commands src2 dst2 subresource])
                  (set_cycles (cycles wd ++ [fresh]) wd)))).
  split; [|split; [|split]].
  - unfold Submit. erewrite bind_Ok;
      [|erewrite bind_Ok; [|apply CopyFrom_record_Ok; [exact Hd2|exact Hs2|congruence]]; reflexivity].
    unfold AttachObjects, bind at 1. simpl cycles. fold wd. rewrite fresh_cycle_lookup.
    erewrite modifyTexture_Ok by (simpl; exact Htd). reflexivity.
  - simpl. rewrite Hsd, S, (CopyFrom_commands_ext _ _ _ _ _ Es Ed). reflexivity.
  - simpl. rewrite <- Hlen. apply list_lookup_insert_eq. rewrite length_app. simpl. lia.
  - eexists. split; [simpl; eapply lookup_insert_this, Htd|]. simpl. split; [congruence|].
    unfold td. rewrite Edl. destruct (decide (layout dst = eUndefined)); simpl; congruence.
Qed.


(** The loop over the mip levels records one copy for each level from where
    it starts up to its bound. *)
Lemma copy_levels_seq n sourceBacking destinationBacking dims a mip b l bound :
  0 <= mip ->
  mip + Z.of_nat n = bound ->
  bound < 2 ^ 32 ->
  copy_levels n sourceBacking destinationBacking dims
    {| layers_aspectMask := a; mipLevel := mip; layers_baseArrayLayer := b;
       layers_layerCount := l |} bound
  = map (fun i =>
           copyImage sourceBacking eTransferSrcOptimal destinationBacking eTransferDstOptimal
             {| srcSubresource :=
                  {| layers_aspectMask := a; mipLevel := mip + Z.of_nat i;
                     layers_baseArrayLayer := b; layers_layerCount := l |};
                dstSubresource :=
                  {| layers_aspectMask := a; mipLevel := mip + Z.of_nat i;
                     layers_baseArrayLayer := b; layers_layerCount := l |};
                extent := dims |})
        (seq 0 n).
Proof.
  revert mip. induction n as [|n IH]; intros mip Hmip Hsum Hbound; [reflexivity|].
  cbn [copy_levels mipLevel layers_aspectMask layers_baseArrayLayer layers_layerCount].
  assert ((mip <? bound) = true) as -> by (apply Z.ltb_lt; lia).
  assert (wrap32 (mip + 1) = mip + 1) as -> by (unfold wrap32; apply Z.mod_small; lia).
  rewrite IH by lia. cbn [seq map]. rewrite Z.add_0_r. f_equal.
  rewrite <- seq_shift, map_map. apply map_ext. intros i.
  replace (mip + 1 + Z.of_nat i) with (mip + Z.of_nat (S i)) by lia. reflexivity.
Qed.

(** Where the code records the sequence of the specification: the range
    starts at mip level 0, and the destination is in the transfer-source
    layout exactly when the source is. *)
Lemma CopyFrom_commands_sequence src dst subresource :
  baseMipLevel subresource = 0 ->
  0 <= levelCount subresource < 2 ^ 32 ->
  0 <= mipLevels dst < 2 ^ 32 ->
  (range_layerCount subresource = VK_REMAINING_ARRAY_LAYERS ->
   0 <= layerCount dst - baseArrayLayer subresource < 2 ^ 32) ->
  (layout dst = eTransferSrcOptimal <-> layout src = eTransferSrcOptimal) ->
  CopyFrom_commands src dst subresource = copy_sequence_of_code src dst subresource.
Proof.
  intros Hbase Hlc Hml Hly Hsrc.
  unfold CopyFrom_commands, copy_sequence_of_code, copy_sequence.
  set (dst' := if decide (layout dst = eUndefined) then set_layout eTransferDstOptimal dst else dst).
  assert (mipLevels dst' = mipLevels dst /\ layerCount dst' = layerCount dst /\
          dimensions dst' = dimensions dst) as (Em & Ey & Ed).
  { unfold dst'. destruct (decide (layout dst = eUndefined)); auto. }
  assert (level_bound dst' subresource
          = if levelCount subresource =? VK_REMAINING_MIP_LEVELS
            then mipLevels dst - baseMipLevel subresource
            else levelCount subresource) as Eb.
  { unfold level_bound. rewrite Em, Hbase. destruct (_ =? _); [|reflexivity].
    unfold wrap32. apply Z.mod_small. lia. }
  assert (first_layers dst' subresource
          = {| layers_aspectMask := aspectMask subresource;
               mipLevel := 0;
               layers_baseArrayLayer := baseArrayLayer subresource;
               layers_layerCount :=
                 if range_layerCount subresource =? VK_REMAINING_ARRAY_LAYERS
                 then layerCount dst - baseArrayLayer subresource
                 else range_layerCount subresource |}) as El.
  { unfold first_layers. rewrite Ey, Hbase. f_equal.
    destruct (Z.eqb_spec (range_layerCount subresource) VK_REMAINING_ARRAY_LAYERS) as [E|E];
      [|reflexivity].
    unfold wrap32. apply Z.mod_small. auto. }
  f_equal. f_equal. f_equal; [|f_equal].
  - rewrite El, Eb, Ed.
    set (levels := if levelCount subresource =? VK_REMAINING_MIP_LEVELS
                   then mipLevels dst - baseMipLevel subresource
                   else levelCount subresource).
    assert (0 <= levels < 2 ^ 32) as Hlv.
    { unfold levels. rewrite Hbase. destruct (_ =? _); lia. }
    rewrite Hbase, Z.sub_0_r.
    rewrite (copy_levels_seq (Z.to_nat levels) _ _ _ _ 0 _ _ levels) by lia.
    apply map_ext. intros i. reflexivity.
  - unfold dst'. destruct (decide (layout dst = eUndefined)) as [Hu|Hu].
    + rewrite bool_decide_eq_false_2 by tauto. reflexivity.
    + destruct (decide (layout dst <> eTransferDstOptimal)).
      * rewrite bool_decide_eq_true_2 by tauto. reflexivity.
      * rewrite bool_decide_eq_false_2 by tauto. reflexivity.
  - assert (layout dst' = eTransferSrcOptimal <-> layout src = eTransferSrcOptimal) as Hsrc'.
    { unfold dst'. destruct (decide (layout dst = eUndefined)) as [Hu|Hu]; [|exact Hsrc].
      simpl. split; [discriminate|]. intros H. apply Hsrc in H. congruence. }
    destruct (decide (layout dst' <> eTransferSrcOptimal)),
             (decide (layout src <> eTransferSrcOptimal)); try reflexivity; exfalso; tauto.
Qed.

(** C2, as the code has it: for a range that starts at mip level 0, and a
    destination that is in the transfer-source layout exactly when the
    source is, a [CopyFrom] whose preconditions hold submits one unit: the
    source to the transfer-source layout unless it is in it, the destination
    to the transfer-destination layout unless it is in it, one copy for each
    mip level of the range (the sentinels standing for all the levels and
    layers of the destination that remain), the destination back to its
    layout unless that was transfer-destination or undefined, and the source
    back to its layout unless that was transfer-source. A destination in the
    undefined layout is left in the transfer-destination layout. *)
Theorem CopyFrom_records w this source subresource dst src w1 w2 :
  textures w !! this = Some dst ->
  textures w !! source = Some src ->
  GetBacking dst <> VK_NULL_HANDLE ->
  GetBacking src <> VK_NULL_HANDLE ->
  WaitOnFence ext this w = Ok tt w1 ->
  WaitOnFence ext source w1 = Ok tt w2 ->
  layout src <> eUndefined ->
  dimensions src = dimensions dst ->
  format src = format dst ->
  baseMipLevel subresource = 0 ->
  0 <= levelCount subresource < 2 ^ 32 ->
  0 <= mipLevels dst < 2 ^ 32 ->
  (range_layerCount subresource = VK_REMAINING_ARRAY_LAYERS ->
   0 <= layerCount dst - baseArrayLayer subresource < 2 ^ 32) ->
  (layout dst = eTransferSrcOptimal <-> layout src = eTransferSrcOptimal) ->
  exists w',
    CopyFrom ext this source subresource w = Ok tt w' /\
    submitted w' = submitted w ++ [copy_sequence_of_code src dst subresource] /\
    layout <$> textures w' !! this
    = Some (if decide (layout dst = eUndefined) then eTransferDstOptimal else layout dst).
Proof.
  intros Hd Hs Hbd Hbs Hw1 Hw2 Hl Hdim Hfmt Hbase Hlc Hml Hly Hsrc.
  destruct (CopyFrom_Ok _ _ _ subresource _ _ _ _ Hd Hs Hbd Hbs Hw1 Hw2 Hl Hdim Hfmt)
    as (w' & Hc & Hsub & _ & dst' & Hd' & _ & Hl').
  exists w'. split; [exact Hc|]. split.
  - rewrite Hsub, (CopyFrom_commands_sequence src dst subresource) by assumption. reflexivity.
  - rewrite Hd'. simpl. rewrite Hl'. reflexivity.
Qed.


(** * Further properties of texture.cpp *)

(** ** Waiting *)

#[local] Instance only_memory_refl : Reflexive only_memory.
Proof. intros w. repeat split. Qed.

#[local] Instance only_memory_trans : Transitive only_memory.
Proof. intros a b c (H1 & H2 & H3) (H4 & H5 & H6). repeat split; congruence. Qed.

Lemma memcpy_only_memory dst src n : keeps only_memory (memcpy dst src n).
Proof.
  intros w w' H. unfold memcpy in H.
  destruct (memory w !! dst), (memory w !! src); simpl in H; try contradiction.
  match type of H with after (if ?c then _ else _) _ => destruct c end; simpl in H; [|contradiction].
  subst. repeat split.
Qed.

Lemma convert_only_memory f g i o : keeps only_memory (convert f g i o).
Proof.
  intros w w' H. unfold convert in H.
  destruct (memory w !! i), (memory w !! o); simpl in H; try contradiction.
  subst. repeat split.
Qed.

Lemma CopyToGuest_only_memory this hostBuffer :
  keeps only_memory (CopyToGuest ext this hostBuffer).
Proof.
  unfold CopyToGuest. keeps_step; [apply getTexture_keeps, _|].
  keeps_step; [apply deref_keeps, _|]. keeps_step; [apply front_keeps, _|].
  destruct (mode (tileConfig a0)); auto using memcpy_only_memory, convert_only_memory.
Qed.

Lemma release_all_only_memory l : keeps only_memory (release_all ext l).
Proof.
  induction l as [|a l IH]; simpl; [apply keeps_ret, _|].
  keeps_step; [|exact IH].
  destruct a as [b|t|g]; simpl; try (apply keeps_ret, _).
  unfold TextureBufferCopy_release. destruct (copy_stagingBuffer g).
  - apply CopyToGuest_only_memory.
  - keeps_step; [apply getTexture_keeps, _|].
    destruct (backing a); try apply keeps_undefined. apply CopyToGuest_only_memory.
Qed.

(** A wait on a cycle that returns has signalled it, released what was
    attached to it and touched no other cycle. *)
Lemma FenceCycle_Wait_Ok c fc w w' :
  cycles w !! c = Some fc ->
  FenceCycle_Wait ext c w = Ok tt w' ->
  textures w' = textures w /\ submitted w' = submitted w /\
  cycles w'
  = if signalled fc then cycles w
    else <[c := {| signalled := true; attached := []; expired := expired fc |}]> (cycles w).
Proof.
  intros Hc H. unfold FenceCycle_Wait in H. rewrite Hc in H.
  destruct (signalled fc); [injection H as <-; auto|].
  match type of H with
  | release_all _ _ ?w1 = _ =>
      destruct (release_all_only_memory (attached fc) w1 w') as (H1 & H2 & H3);
        [rewrite H; reflexivity|]
  end.
  auto.
Qed.

Lemma lock_Some c id w :
  lock c w = Ok (Some id) w ->
  c = Some id /\ exists fc, cycles w !! id = Some fc /\ expired fc = false.
Proof.
  unfold lock. destruct c as [i|]; [|discriminate].
  destruct (cycles w !! i) as [fc|] eqn:E; [|discriminate].
  destruct (expired fc) eqn:Ee; [discriminate|]. intros H. injection H as <-. eauto.
Qed.

Lemma lock_result c w : exists l, lock c w = Ok l w.
Proof.
  unfold lock. destruct c as [i|]; [|eauto].
  destruct (cycles w !! i) as [fc|]; [destruct (expired fc)|]; eauto.
Qed.

(** After a wait that returns, the weak reference of the texture does not
    lock. *)
Lemma WaitOnFence_unlocked w this t w' :
  textures w !! this = Some t ->
  WaitOnFence ext this w = Ok tt w' ->
  exists t', textures w' !! this = Some t' /\ lock (cycle t') w' = Ok None w'.
Proof.
  intros Ht H. pose proof H as H0. unfold WaitOnFence in H.
  rewrite (bind_Ok _ _ _ _ _ (getTexture_Ok _ _ _ Ht)) in H.
  destruct (lock_result (cycle t) w) as (l & El). rewrite (bind_Ok _ _ _ _ _ El) in H.
  destruct l as [c|].
  - destruct (WaitOnFence_Ok _ _ _ _ Ht H0) as ([E|E] & _).
    + unfold bind at 1 in H.
      destruct (FenceCycle_Wait ext c w) as [[] w1| | |] eqn:Ew; try discriminate.
      destruct (FenceCycle_Wait_keeps c w w1) as (T1 & _); [rewrite Ew; reflexivity|].
      rewrite (modifyTexture_Ok this _ t) in H by congruence. injection H as <-.
      eexists. split; [simpl; rewrite T1; eapply lookup_insert_this, Ht | reflexivity].
    + eexists. split; [rewrite E; eapply lookup_insert_this, Ht | reflexivity].
  - injection H as <-. exists t. auto.
Qed.

(** X1: when [WaitOnFence] returns, the texture's weak reference no longer
    locks; a cycle it did lock has been signalled and let go of; with nothing
    to lock the call changes nothing; and a second wait changes nothing. *)
Theorem WaitOnFence_settles w this t w' :
  textures w !! this = Some t ->
  WaitOnFence ext this w = Ok tt w' ->
  (exists t', textures w' !! this = Some t' /\ lock (cycle t') w' = Ok None w') /\
  (forall c, lock (cycle t) w = Ok (Some c) w ->
     (exists fc', cycles w' !! c = Some fc' /\ signalled fc' = true) /\
     cycle <$> textures w' !! this = Some None) /\
  (lock (cycle t) w = Ok None w -> w' = w) /\
  WaitOnFence ext this w' = Ok tt w'.
Proof.
  intros Ht H. pose proof H as H0. unfold WaitOnFence in H.
  rewrite (bind_Ok _ _ _ _ _ (getTexture_Ok _ _ _ Ht)) in H.
  destruct (lock_result (cycle t) w) as (l & El). rewrite (bind_Ok _ _ _ _ _ El) in H.
  destruct (WaitOnFence_Ok _ _ _ _ Ht H0) as (_ & _ & _ & Hidem).
  destruct l as [c|].
  - destruct (lock_Some _ _ _ El) as (Ec & fc & Hfc & Hexp).
    unfold bind at 1 in H.
    destruct (FenceCycle_Wait ext c w) as [[] w1| | |] eqn:Ew; try discriminate.
    destruct (FenceCycle_Wait_Ok _ _ _ _ Hfc Ew) as (T1 & S1 & C1).
    rewrite (modifyTexture_Ok this _ t) in H by congruence. injection H as <-.
    assert (textures (set_textures (<[this:=set_cycle None t]> (textures w1)) w1) !! this
            = Some (set_cycle None t)) as Ht'.
    { simpl. rewrite T1. eapply lookup_insert_this, Ht. }
    split; [|split; [|split]].
    + eexists. split; [exact Ht'|]. reflexivity.
    + intros c' Hc'. rewrite El in Hc'. injection Hc' as <-. split.
      * simpl. rewrite C1. destruct (signalled fc) eqn:Es; [eauto|].
        eexists. split; [eapply lookup_insert_this, Hfc | reflexivity].
      * rewrite Ht'. reflexivity.
    + intros Hn. rewrite El in Hn. discriminate.
    + exact Hidem.
  - injection H as <-. split; [|split; [|split]].
    + exists t. auto.
    + intros c Hc. rewrite El in Hc. discriminate.
    + reflexivity.
    + exact Hidem.
Qed.

(** ** Deferred backing *)

Lemma WaitOnBacking_Blocked this t w :
  textures w !! this = Some t -> GetBacking t = VK_NULL_HANDLE ->
  WaitOnBacking this w = Blocked.
Proof.
  intros Ht Hb. unfold WaitOnBacking. rewrite (bind_Ok _ _ _ _ _ (getTexture_Ok _ _ _ Ht)).
  rewrite Hb. reflexivity.
Qed.

Lemma bind_Blocked {A B} (m : M A) (k : A -> M B) w :
  m w = Blocked -> bind m k w = Blocked.
Proof. unfold bind. intros ->. reflexivity. Qed.

(** X2: a texture without backing. [TransitionLayout] and [CopyFrom] block
    at once; the synchronisation calls block once their checks have passed,
    [SynchronizeHost] after it has taken the first mapping. [SynchronizeGuest]
    with an undefined layout is the one call that returns: its early return
    comes before the wait for the backing. *)
Theorem absent_backing_blocks w this t :
  textures w !! this = Some t ->
  GetBacking t = VK_NULL_HANDLE ->
  (forall L, TransitionLayout ext this L w = Blocked) /\
  (forall source subresource, CopyFrom ext this source subresource w = Blocked) /\
  (forall g m0 pCycle,
     guest t = Some g -> guest_dimensions g = dimensions t -> mappings g = [m0] ->
     SynchronizeHost ext this w = Blocked /\
     SynchronizeHostWithBuffer ext this pCycle w = Blocked) /\
  (forall g pCycle,
     guest t = Some g -> (length (mappings g) <= 1)%nat ->
     if decide (layout t = eUndefined)
     then SynchronizeGuest ext this w = Ok tt w /\
          SynchronizeGuestWithBuffer ext this pCycle w = Ok [] w
     else SynchronizeGuest ext this w = Blocked /\
          SynchronizeGuestWithBuffer ext this pCycle w = Blocked).
Proof.
  intros Ht Hb. pose proof (WaitOnBacking_Blocked _ _ _ Ht Hb) as Hblock.
  split; [|split; [|split]].
  - intros L. unfold TransitionLayout. apply bind_Blocked, Hblock.
  - intros source subresource. unfold CopyFrom. apply bind_Blocked, Hblock.
  - intros g m0 pCycle Hg Hd Hm.
    assert (forall p, SynchronizeHostImpl ext this p w = Blocked) as Himpl.
    { intros p. unfold SynchronizeHostImpl.
      rewrite (bind_Ok _ _ _ _ _ (getTexture_Ok _ _ _ Ht)), Hg.
      rewrite decide_False by (intros H; apply H, Hd). rewrite Hm.
      change (1 <? length [m0])%nat with false. cbv iota.
      unfold front. unfold bind at 1. unfold ret at 1.
      apply bind_Blocked, Hblock. }
    split; [unfold SynchronizeHost | unfold SynchronizeHostWithBuffer];
      apply bind_Blocked, Himpl.
  - intros g pCycle Hg Hm. unfold SynchronizeGuest, SynchronizeGuestWithBuffer.
    rewrite !(bind_Ok _ _ _ _ _ (getTexture_Ok _ _ _ Ht)), Hg.
    destruct (decide (layout t = eUndefined)); [split; reflexivity|].
    apply Nat.nlt_ge, Nat.ltb_nlt in Hm. rewrite Hm.
    split; apply bind_Blocked, Hblock.
Qed.

(** A first [TransitionLayout]: what it submits and how it leaves the
    texture. *)
Lemma TransitionLayout_once w this t L w0 :
  textures w !! this = Some t ->
  GetBacking t <> VK_NULL_HANDLE ->
  WaitOnFence ext this w = Ok tt w0 ->
  exists w1 t1,
    TransitionLayout ext this L w = Ok tt w1 /\
    submitted w1
    = submitted w ++ (if decide (layout t = L) then [] else [[transition_barrier ext t L]]) /\
    textures w1 !! this = Some t1 /\
    layout t1 = L /\
    set_cycle None t1 = set_cycle None (set_layout L t) /\
    (layout t <> L ->
     cycle t1 = Some (length (cycles w)) /\
     cycles w1 = cycles w0 ++ [{| signalled := false; attached := []; expired := false |}]) /\
    (layout t = L -> w1 = w0) /\
    memory w1 = memory w0 /\
    length (textures w1) = length (textures w0).
Proof.
  intros Ht Hb Hw.
  destruct (WaitOnFence_texture _ _ _ _ Ht Hw) as (t0 & Ht0 & E0).
  destruct (set_cycle_fields _ _ E0) as (El & Eb & _ & _ & Ef & _ & Em & Ey).
  destruct (WaitOnFence_Ok _ _ _ _ Ht Hw) as (_ & Hs & Hc & _).
  unfold TransitionLayout.
  rewrite (bind_Ok _ _ _ _ _ (WaitOnBacking_Ok _ _ _ Ht Hb)), (bind_Ok _ _ _ _ _ Hw).
  rewrite (bind_Ok _ _ _ _ _ (getTexture_Ok _ _ _ Ht0)).
  destruct (decide (layout t = L)) as [HL|HL].
  - rewrite decide_False by (rewrite El; tauto).
    exists w0, t0. rewrite app_nil_r.
    split; [reflexivity|]. split; [exact Hs|]. split; [exact Ht0|]. split; [congruence|].
    split; [|split; [tauto|auto]].
    injection E0. intros. unfold set_cycle, set_layout. simpl. f_equal; congruence.
  - rewrite decide_True by (rewrite El; exact HL).
    unfold Submit. unfold bind at 2. unfold ret at 1. unfold bind at 1.
    erewrite bind_Ok; [|apply modifyTexture_Ok; simpl; exact Ht0].
    erewrite (modifyTexture_Ok this _ (set_cycle (Some (length (cycles w0))) t0))
      by (simpl; eapply lookup_insert_this, Ht0).
    eexists _, _. split; [reflexivity|].
    split.
    { simpl. rewrite Hs. do 3 f_equal.
      unfold transition_barrier, whole_range, GetBacking. rewrite El, Eb, Ef, Em, Ey. reflexivity. }
    split; [simpl; eapply lookup_insert_this, lookup_insert_this, Ht0|].
    split; [reflexivity|].
    split.
    { injection E0. intros. unfold set_cycle, set_layout. simpl. f_equal; congruence. }
    split; [intros _; simpl; split; [congruence | reflexivity]|].
    split; [intros; contradiction|]. split; [reflexivity|].
    simpl. rewrite !length_insert. reflexivity.
Qed.

(** X3: [SwapBacking] waits for the pending fence, installs the backing and
    the layout it is given and submits nothing; the other fields stay. A
    [TransitionLayout] that follows does not block if the new backing is
    present: it records its barrier against the new image, from the layout
    that came with it. *)
Theorem SwapBacking_then_TransitionLayout w this t pBacking pLayout L w0 :
  textures w !! this = Some t ->
  WaitOnFence ext this w = Ok tt w0 ->
  GetBackingOf pBacking <> VK_NULL_HANDLE ->
  exists w1 t1,
    SwapBacking ext this pBacking pLayout w = Ok tt w1 /\
    textures w1 !! this = Some t1 /\
    backing t1 = pBacking /\ layout t1 = pLayout /\
    guest t1 = guest t /\ dimensions t1 = dimensions t /\ format t1 = format t /\
    tiling t1 = tiling t /\ views t1 = views t /\
    submitted w1 = submitted w /\
    exists w2,
      TransitionLayout ext this L w1 = Ok tt w2 /\
      layout <$> textures w2 !! this = Some L /\
      backing <$> textures w2 !! this = Some pBacking /\
      submitted w2
      = submitted w ++
        (if decide (pLayout = L) then []
         else [[pipelineBarrier (first_stage pLayout) eBottomOfPipe
                  {| barrier_image := GetBackingOf pBacking;
                     srcAccessMask := eMemoryWrite;
                     dstAccessMask := eMemoryRead;
                     oldLayout := pLayout;
                     newLayout := L;
                     subresourceRange := whole_range ext t |}]]).
Proof.
  intros Ht Hw Hb.
  destruct (WaitOnFence_texture _ _ _ _ Ht Hw) as (t0 & Ht0 & E0).
  destruct (set_cycle_fields _ _ E0) as (El & Eb & Eg & Ed & Ef & Etl & Em & Ey).
  destruct (WaitOnFence_Ok _ _ _ _ Ht Hw) as (_ & Hs & _ & Hidem).
  destruct (WaitOnFence_unlocked w this t w0 Ht Hw) as (t0' & Ht0' & Hlock).
  assert (t0' = t0) as -> by congruence.
  set (t1 := {| backing := pBacking; layout := pLayout; guest := guest t0;
                dimensions := dimensions t0; format := format t0; tiling := tiling t0;
                mipLevels := mipLevels t0; layerCount := layerCount t0;
                sampleCount := sampleCount t0; cycle := cycle t0; views := views t0 |}).
  set (w1 := set_textures (<[this := t1]> (textures w0)) w0).
  assert (textures w1 !! this = Some t1) as Ht1 by (simpl; eapply lookup_insert_this, Ht0).
  assert (WaitOnFence ext this w1 = Ok tt w1) as Hw1.
  { unfold WaitOnFence. rewrite (bind_Ok _ _ _ _ _ (getTexture_Ok _ _ _ Ht1)).
    assert (lock (cycle t1) w1 = Ok None w1) as Hl1.
    { unfold lock in Hlock |- *. simpl cycle. simpl cycles.
      destruct (cycle t0) as [c|]; [|reflexivity].
      destruct (cycles w0 !! c) as [fc|]; [destruct (expired fc)|]; try discriminate; reflexivity. }
    rewrite (bind_Ok _ _ _ _ _ Hl1). reflexivity. }
  exists w1, t1. split.
  { unfold SwapBacking. rewrite (bind_Ok _ _ _ _ _ Hw).
    rewrite (modifyTexture_Ok _ _ _ _ Ht0). reflexivity. }
  split; [exact Ht1|]. split; [reflexivity|]. split; [reflexivity|].
  split; [exact Eg|]. split; [exact Ed|]. split; [exact Ef|]. split; [exact Etl|].
  split; [injection E0; auto|]. split; [exact Hs|].
  destruct (TransitionLayout_once w1 this t1 L w1 Ht1 Hb Hw1)
    as (w2 & t2 & H2 & Hs2 & Ht2 & Hl2 & E2 & _).
  exists w2. split; [exact H2|]. split; [rewrite Ht2; simpl; congruence|].
  split.
  { rewrite Ht2. simpl. f_equal. injection E2. auto. }
  rewrite Hs2. simpl submitted. rewrite Hs. f_equal. simpl layout.
  destruct (decide (pLayout = L)); [reflexivity|].
  unfold transition_barrier, whole_range, GetBacking. simpl. rewrite Ef, Em, Ey. reflexivity.
Qed.


(** ** The direct-map path in both directions *)

Lemma memcpy_Ok dst src n d s w :
  memory w !! dst = Some d ->
  memory w !! src = Some s ->
  (Z.to_nat n <= length d)%nat ->
  (Z.to_nat n <= length s)%nat ->
  dst <> src ->
  memcpy dst src n w
  = Ok tt (set_memory (<[dst := take (Z.to_nat n) s ++ drop (Z.to_nat n) d]> (memory w)) w).
Proof.
  intros Hd Hs Hld Hls Hne. unfold memcpy. rewrite Hd, Hs.
  apply Nat.leb_le in Hld, Hls. rewrite Hld, Hls.
  apply Nat.eqb_neq in Hne. rewrite Hne. reflexivity.
Qed.

Lemma convert_Ok f g input output i o w :
  memory w !! input = Some i ->
  memory w !! output = Some o ->
  convert f g input output w = Ok tt (set_memory (<[output := f g i o]> (memory w)) w).
Proof. intros Hi Ho. unfold convert. rewrite Hi, Ho. reflexivity. Qed.

Lemma WaitOnFence_noop this t w :
  textures w !! this = Some t ->
  lock (cycle t) w = Ok None w ->
  WaitOnFence ext this w = Ok tt w.
Proof.
  intros Ht Hl. unfold WaitOnFence.
  rewrite (bind_Ok _ _ _ _ _ (getTexture_Ok _ _ _ Ht)), (bind_Ok _ _ _ _ _ Hl). reflexivity.
Qed.

Lemma lock_set_memory c m w l :
  lock c w = Ok l w -> lock c (set_memory m w) = Ok l (set_memory m w).
Proof.
  unfold lock. simpl. destruct c as [i|]; [|intros H; injection H as <-; reflexivity].
  destruct (cycles w !! i) as [fc|]; [destruct (expired fc)|];
    intros H; injection H as <-; reflexivity.
Qed.

(** X4: [SynchronizeHost] on the direct-map path of a [Linear] guest texture
    copies exactly [format->GetSize(dimensions)] bytes: the mapped image
    starts with that many bytes of the guest mapping and keeps its own bytes
    after them; no other allocation changes and nothing is submitted. *)
Theorem SynchronizeHost_linear_exact w this t g m0 img mapped w0 hbytes gbytes :
  textures w !! this = Some t ->
  guest t = Some g ->
  guest_dimensions g = dimensions t ->
  mappings g = [m0] ->
  tiling t = eLinear ->
  backing t = MemoryImage img mapped ->
  img <> VK_NULL_HANDLE ->
  mode (tileConfig g) = Linear ->
  WaitOnFence ext this w = Ok tt w0 ->
  memory w0 !! mapped = Some hbytes ->
  memory w0 !! data m0 = Some gbytes ->
  (Z.to_nat (GetSize ext (format t) (dimensions t)) <= length hbytes)%nat ->
  (Z.to_nat (GetSize ext (format t) (dimensions t)) <= length gbytes)%nat ->
  mapped <> data m0 ->
  SynchronizeHost ext this w
  = Ok tt (set_memory
             (<[mapped := take (Z.to_nat (GetSize ext (format t) (dimensions t))) gbytes
                          ++ drop (Z.to_nat (GetSize ext (format t) (dimensions t))) hbytes]>
                (memory w0)) w0) /\
  submitted w0 = submitted w.
Proof.
  intros Ht Hg Hd Hm Htl Hbk Himg Hmode Hw Hh Hgm Hlh Hlg Hne.
  destruct (WaitOnFence_Ok _ _ _ _ Ht Hw) as (_ & Hs & _).
  split; [|exact Hs].
  unfold SynchronizeHost.
  rewrite (bind_Ok _ _ _ None
             (set_memory
                (<[mapped := take (Z.to_nat (GetSize ext (format t) (dimensions t))) gbytes
                             ++ drop (Z.to_nat (GetSize ext (format t) (dimensions t))) hbytes]>
                   (memory w0)) w0)); [reflexivity|].
  apply (SynchronizeHostImpl_direct w this t g m0 None img mapped w0); try assumption.
  - unfold GetBacking. rewrite Hbk. exact Himg.
  - rewrite (wait_unless_None _ _ _ Ht). exact Hw.
  - unfold convert_from_guest. rewrite Hmode. apply memcpy_Ok; assumption.
Qed.

(** X5: the round trip on the direct-map path. [SynchronizeHost] followed by
    [SynchronizeGuest] leaves the guest mapping with the bytes it had, in
    each tile mode: for [Block] and [Pitch] because the second conversion
    undoes the first, for [Linear] because neither call writes to the guest
    mapping. Nothing is submitted. *)
Theorem direct_round_trip w this t g m0 img mapped w0 hbytes gbytes :
  textures w !! this = Some t ->
  guest t = Some g ->
  guest_dimensions g = dimensions t ->
  mappings g = [m0] ->
  tiling t = eLinear ->
  backing t = MemoryImage img mapped ->
  img <> VK_NULL_HANDLE ->
  WaitOnFence ext this w = Ok tt w0 ->
  memory w0 !! mapped = Some hbytes ->
  memory w0 !! data m0 = Some gbytes ->
  mapped <> data m0 ->
  (mode (tileConfig g) = Linear ->
   (Z.to_nat (GetSize ext (format t) (dimensions t)) <= length hbytes)%nat /\
   (Z.to_nat (GetSize ext (format t) (dimensions t)) <= length gbytes)%nat) ->
  (forall i o, CopyLinearToBlockLinear ext g (CopyBlockLinearToLinear ext g i o) i = i) ->
  (forall i o, CopyLinearToPitchLinear ext g (CopyPitchLinearToLinear ext g i o) i = i) ->
  exists w1 w2,
    SynchronizeHost ext this w = Ok tt w1 /\
    SynchronizeGuest ext this w1 = Ok tt w2 /\
    memory w2 !! data m0 = Some gbytes /\
    submitted w2 = submitted w.
Proof.
  intros Ht Hg Hd Hm Htl Hbk Himg Hw Hh Hgm Hne Hlin Hblock Hpitch.
  destruct (WaitOnFence_Ok _ _ _ _ Ht Hw) as (_ & Hs & _).
  destruct (WaitOnFence_unlocked _ _ _ _ Ht Hw) as (t0 & Ht0 & Hlock).
  destruct (WaitOnFence_texture _ _ _ _ Ht Hw) as (t0' & Ht0' & E0).
  assert (t0' = t0) as -> by congruence.
  destruct (set_cycle_fields _ _ E0) as (El & Eb & Eg & Edim & Ef & Etl & _).
  set (k := Z.to_nat (GetSize ext (format t) (dimensions t))) in *.
  set (host1 := match mode (tileConfig g) with
                | Linear => take k gbytes ++ drop k hbytes
                | Pitch => CopyPitchLinearToLinear ext g gbytes hbytes
                | Block => CopyBlockLinearToLinear ext g gbytes hbytes
                end).
  set (w1 := set_memory (<[mapped := host1]> (memory w0)) w0).
  assert (convert_from_guest ext g (data m0) mapped (GetSize ext (format t) (dimensions t)) w0
          = Ok tt w1) as Hconv.
  { unfold convert_from_guest, w1, host1. destruct (mode (tileConfig g)).
    - destruct Hlin as [Hlh Hlg]; [reflexivity|]. apply memcpy_Ok; assumption.
    - apply convert_Ok; assumption.
    - apply convert_Ok; assumption. }
  assert (SynchronizeHost ext this w = Ok tt w1) as H1.
  { unfold SynchronizeHost. rewrite (bind_Ok _ _ _ None w1); [reflexivity|].
    apply (SynchronizeHostImpl_direct w this t g m0 None img mapped w0); try assumption.
    - unfold GetBacking. rewrite Hbk. exact Himg.
    - rewrite (wait_unless_None _ _ _ Ht). exact Hw. }
  assert (memory w1 !! mapped = Some host1) as Hh1 by (simpl; eapply lookup_insert_this, Hh).
  assert (memory w1 !! data m0 = Some gbytes) as Hg1.
  { simpl. rewrite list_lookup_insert_ne by assumption. exact Hgm. }
  assert (textures w1 !! this = Some t0) as Ht1 by exact Ht0.
  assert (WaitOnFence ext this w1 = Ok tt w1) as Hw1.
  { apply (WaitOnFence_noop this t0); [exact Ht1|]. apply lock_set_memory, Hlock. }
  destruct (decide (layout t0 = eUndefined)) as [Hu|Hu].
  - exists w1, w1. split; [exact H1|]. split; [|split; [exact Hg1 | exact Hs]].
    unfold SynchronizeGuest. rewrite (bind_Ok _ _ _ _ _ (getTexture_Ok _ _ _ Ht1)), Eg, Hg.
    rewrite decide_True by assumption. reflexivity.
  - set (guest2 := match mode (tileConfig g) with
                   | Linear => gbytes
                   | Pitch => CopyLinearToPitchLinear ext g host1 gbytes
                   | Block => CopyLinearToBlockLinear ext g host1 gbytes
                   end).
    set (w2 := match mode (tileConfig g) with
               | Linear => set_memory (<[mapped := take k gbytes ++ drop k host1]> (memory w1)) w1
               | _ => set_memory (<[data m0 := guest2]> (memory w1)) w1
               end).
    assert (CopyToGuest ext this mapped w1 = Ok tt w2) as Hc.
    { unfold CopyToGuest, bind, getTexture. rewrite Ht1, Eg, Hg. simpl. rewrite Hm. simpl.
      rewrite Ef, Edim. fold k. unfold w2, guest2. destruct (mode (tileConfig g)) eqn:Emode.
      - destruct Hlin as [Hlh Hlg]; [reflexivity|].
        apply memcpy_Ok; try assumption.
        unfold host1. rewrite length_app, length_take, length_drop. lia.
      - apply convert_Ok; assumption.
      - apply convert_Ok; assumption. }
    exists w1, w2. split; [exact H1|]. split; [|split].
    + unfold SynchronizeGuest. rewrite (bind_Ok _ _ _ _ _ (getTexture_Ok _ _ _ Ht1)), Eg, Hg.
      rewrite decide_False by assumption. rewrite Hm.
      change (1 <? length [m0])%nat with false. cbv iota.
      erewrite bind_Ok; [|eapply WaitOnBacking_Ok; [exact Ht1|];
                           unfold GetBacking; rewrite Eb, Hbk; exact Himg].
      rewrite (bind_Ok _ _ _ _ _ Hw1). rewrite Etl, Htl, Eb, Hbk. simpl. exact Hc.
    + unfold w2, guest2, host1. destruct (mode (tileConfig g)); simpl.
      * rewrite list_lookup_insert_ne by assumption.
        rewrite list_lookup_insert_ne by assumption. exact Hgm.
      * erewrite lookup_insert_this; [|rewrite list_lookup_insert_ne by assumption; exact Hgm].
        rewrite Hpitch. reflexivity.
      * erewrite lookup_insert_this; [|rewrite list_lookup_insert_ne by assumption; exact Hgm].
        rewrite Hblock. reflexivity.
    + unfold w2. destruct (mode (tileConfig g)); simpl; exact Hs.
Qed.

(** X6: a tiling that is neither optimal nor linear, over a CPU-mappable
    image. [SynchronizeHost] throws with the world as it was: it has only
    waited for the backing. [SynchronizeGuest] throws after its wait for the
    pending fence, so the world it leaves is the one after that wait. *)
Theorem unimplemented_tiling w this t g m0 img mapped :
  textures w !! this = Some t ->
  guest t = Some g ->
  mappings g = [m0] ->
  tiling t = eDrmFormatModifierEXT ->
  backing t = MemoryImage img mapped ->
  img <> VK_NULL_HANDLE ->
  (guest_dimensions g = dimensions t ->
   forall pCycle,
     SynchronizeHost ext this w = Throw (GuestToHostNotImplemented eDrmFormatModifierEXT) w /\
     SynchronizeHostWithBuffer ext this pCycle w
     = Throw (GuestToHostNotImplemented eDrmFormatModifierEXT) w) /\
  (layout t <> eUndefined ->
   forall w0, WaitOnFence ext this w = Ok tt w0 ->
     SynchronizeGuest ext this w = Throw (HostToGuestNotImplemented eDrmFormatModifierEXT) w0).
Proof.
  intros Ht Hg Hm Htl Hbk Himg.
  assert (GetBacking t <> VK_NULL_HANDLE) as Hb by (unfold GetBacking; rewrite Hbk; exact Himg).
  split.
  - intros Hd pCycle.
    assert (forall p, SynchronizeHostImpl ext this p w
                      = Throw (GuestToHostNotImplemented eDrmFormatModifierEXT) w) as Himpl.
    { intros p. unfold SynchronizeHostImpl.
      rewrite (bind_Ok _ _ _ _ _ (getTexture_Ok _ _ _ Ht)), Hg.
      rewrite decide_False by (intros H; apply H, Hd). rewrite Hm.
      change (1 <? length [m0])%nat with false. cbv iota.
      unfold front. unfold bind at 1. unfold ret at 1.
      rewrite (bind_Ok _ _ _ _ _ (WaitOnBacking_Ok _ _ _ Ht Hb)).
      rewrite Htl, Hbk. reflexivity. }
    split; [unfold SynchronizeHost | unfold SynchronizeHostWithBuffer];
      apply bind_Throw, Himpl.
  - intros Hl w0 Hw. unfold SynchronizeGuest.
    rewrite (bind_Ok _ _ _ _ _ (getTexture_Ok _ _ _ Ht)), Hg.
    rewrite decide_False by assumption. rewrite Hm.
    change (1 <? length [m0])%nat with false. cbv iota.
    rewrite (bind_Ok _ _ _ _ _ (WaitOnBacking_Ok _ _ _ Ht Hb)), (bind_Ok _ _ _ _ _ Hw).
    rewrite Htl, Hbk. reflexivity.
Qed.


(** ** The staging paths that the callers batch or defer *)

Lemma download_commands_ext t t' stagingBuffer :
  set_cycle None t' = set_cycle None t ->
  download_commands ext t' stagingBuffer = download_commands ext t stagingBuffer.
Proof.
  intros E. destruct (set_cycle_fields _ _ E) as (El & Eb & _ & Ed & Ef & _ & Em & Ey).
  unfold download_commands, whole_range, whole_layers, GetBacking.
  rewrite El, Eb, Ed, Ef, Em, Ey. reflexivity.
Qed.

Lemma convert_from_guest_only_memory g pointer bufferData sz :
  keeps only_memory (convert_from_guest ext g pointer bufferData sz).
Proof.
  unfold convert_from_guest.
  destruct (mode (tileConfig g)); auto using memcpy_only_memory, convert_only_memory.
Qed.

Lemma wait_unless_same this t pc w :
  textures w !! this = Some t ->
  lock (cycle t) w = Ok (Some pc) w ->
  wait_unless ext this (Some pc) w = Ok tt w.
Proof.
  intros Ht Hl. unfold wait_unless.
  rewrite (bind_Ok _ _ _ _ _ (getTexture_Ok _ _ _ Ht)), (bind_Ok _ _ _ _ _ Hl).
  unfold same_cycle. rewrite bool_decide_eq_true_2 by reflexivity. reflexivity.
Qed.

(** X7: [SynchronizeHostWithBuffer] on the staging path records the upload
    into the caller's command buffer and submits nothing of its own: no unit,
    no new cycle. It attaches the staging buffer and the texture to the
    supplied cycle and tracks that cycle. If the texture tracked the supplied
    cycle already, the cycle has not been waited for. *)
Theorem SynchronizeHostWithBuffer_staging w this t g m0 pc sb w1 w2 w3 fc :
  textures w !! this = Some t ->
  guest t = Some g ->
  guest_dimensions g = dimensions t ->
  mappings g = [m0] ->
  GetBacking t <> VK_NULL_HANDLE ->
  tiling t = eOptimal \/ holds_memory_image (backing t) = false ->
  AllocateStagingBuffer (GetSize ext (format t) (dimensions t)) w = Ok sb w1 ->
  convert_from_guest ext g (data m0) (staging_data sb)
    (GetSize ext (format t) (dimensions t)) w1 = Ok tt w2 ->
  wait_unless ext this (Some pc) w2 = Ok tt w3 ->
  cycles w3 !! pc = Some fc ->
  (exists w',
     SynchronizeHostWithBuffer ext this (Some pc) w = Ok (upload_commands ext t sb) w' /\
     submitted w' = submitted w /\
     length (cycles w') = length (cycles w) /\
     cycles w' !! pc
     = Some {| signalled := signalled fc;
               attached := attached fc ++ [AttachedStagingBuffer sb; AttachedTexture this];
               expired := expired fc |} /\
     cycle <$> textures w' !! this = Some (Some pc) /\
     layout <$> textures w' !! this
     = Some (if decide (layout t = eUndefined) then eTransferDstOptimal else layout t)) /\
  (lock (cycle t) w = Ok (Some pc) w -> w3 = w2 /\ cycles w !! pc = Some fc).
Proof.
  intros Ht Hg Hd Hm Hb Hpath Ha Hc Hw Hpc.
  pose proof (SynchronizeHostImpl_staging _ _ _ _ _ (Some pc) _ _ _ _
                Ht Hg Hd Hm Hb Hpath Ha Hc Hw) as Himpl.
  destruct (AllocateStagingBuffer_keeps (GetSize ext (format t) (dimensions t)) w w1)
    as (T1 & S1 & C1); [rewrite Ha; reflexivity|].
  destruct (convert_from_guest_keeps g (data m0) (staging_data sb)
              (GetSize ext (format t) (dimensions t)) w1 w2) as (T2 & S2 & C2);
    [rewrite Hc; reflexivity|].
  assert (cycles w2 = cycles w) as C2'.
  { destruct (convert_from_guest_only_memory g (data m0) (staging_data sb)
                (GetSize ext (format t) (dimensions t)) w1 w2) as (_ & C & _);
      [rewrite Hc; reflexivity|].
    rewrite C. unfold AllocateStagingBuffer in Ha. injection Ha as _ <-. reflexivity. }
  assert (textures w2 !! this = Some t) as Ht2 by congruence.
  destruct (wait_unless_Ok _ _ _ _ _ Ht2 Hw) as ((t3 & Ht3 & E3 & _) & S3 & C3).
  destruct (set_cycle_fields _ _ E3) as (El3 & _).
  destruct (define_layout_lookup eTransferDstOptimal this t3 w3 Ht3) as (Htd & Hcd & Hsd & _).
  split.
  - eexists. split; [|split; [|split; [|split; [|split]]]].
    + unfold SynchronizeHostWithBuffer. rewrite (bind_Ok _ _ _ _ _ Himpl).
      rewrite (bind_Ok _ _ _ _ _ (CopyFromStagingBuffer_Ok _ _ _ _ Ht3)).
      unfold AttachObjects, bind at 1. rewrite Hcd, Hpc.
      erewrite bind_Ok; [|apply modifyTexture_Ok; simpl; exact Htd].
      rewrite (upload_commands_ext _ _ _ E3). reflexivity.
    + simpl. congruence.
    + simpl. rewrite length_insert. congruence.
    + simpl. eapply lookup_insert_this, Hpc.
    + simpl. erewrite lookup_insert_this by exact Htd. reflexivity.
    + simpl. erewrite lookup_insert_this by exact Htd. simpl. rewrite El3.
      destruct (decide (layout t = eUndefined)); simpl; congruence.
  - intros Hl.
    assert (lock (cycle t) w2 = Ok (Some pc) w2) as Hl2.
    { unfold lock in Hl |- *. rewrite C2'. destruct (cycle t) as [c|]; [|discriminate].
      destruct (cycles w !! c) as [fc0|]; [destruct (expired fc0)|]; try discriminate.
      injection Hl as <-. reflexivity. }
    rewrite (wait_unless_same _ _ _ _ Ht2 Hl2) in Hw. injection Hw as <-.
    split; [reflexivity | congruence].
Qed.

(** X8: [SynchronizeGuest] on the staging path defers the write to the guest.
    When it returns it has submitted one unit, the copy of the image into the
    staging buffer between its barriers, and the memory holds nothing new but
    the staging buffer: the guest mapping is as the wait left it. The guard
    attached to the new cycle does the write: a wait on that cycle runs
    [CopyToGuest] from the staging buffer. *)
Theorem SynchronizeGuest_staging_defers w this t g w0 sb w1 :
  textures w !! this = Some t ->
  guest t = Some g ->
  layout t <> eUndefined ->
  (length (mappings g) <= 1)%nat ->
  GetBacking t <> VK_NULL_HANDLE ->
  tiling t = eOptimal \/ holds_memory_image (backing t) = false ->
  WaitOnFence ext this w = Ok tt w0 ->
  AllocateStagingBuffer (GetSize ext (format t) (dimensions t)) w0 = Ok sb w1 ->
  exists w',
    SynchronizeGuest ext this w = Ok tt w' /\
    submitted w' = submitted w ++ [download_commands ext t sb] /\
    memory w' = memory w1 /\
    cycles w' !! length (cycles w)
    = Some {| signalled := false;
              attached := [AttachedCopy {| copy_texture := this;
                                           copy_stagingBuffer := Some sb |}];
              expired := false |} /\
    cycle <$> textures w' !! this = Some (Some (length (cycles w))) /\
    layout <$> textures w' !! this = Some (layout t) /\
    FenceCycle_Wait ext (length (cycles w)) w'
    = CopyToGuest ext this (staging_data sb)
        (set_cycles (<[length (cycles w) :=
                         {| signalled := true; attached := []; expired := false |}]>
                       (cycles w')) w').
Proof.
  intros Ht Hg Hl Hm Hb Hpath Hw Ha.
  destruct (WaitOnFence_texture _ _ _ _ Ht Hw) as (t0 & Ht0 & E0).
  destruct (set_cycle_fields _ _ E0) as (El & _).
  destruct (WaitOnFence_Ok _ _ _ _ Ht Hw) as (_ & S0 & C0 & _).
  destruct (AllocateStagingBuffer_keeps (GetSize ext (format t) (dimensions t)) w0 w1)
    as (T1 & S1 & C1); [rewrite Ha; reflexivity|].
  assert (cycles w1 = cycles w0) as C1'
    by (unfold AllocateStagingBuffer in Ha; injection Ha as _ <-; reflexivity).
  assert (textures w1 !! this = Some t0) as Ht1 by congruence.
  set (n := length (cycles w)).
  set (guard := {| copy_texture := this; copy_stagingBuffer := Some sb |}).
  set (fresh := {| signalled := false; attached := []; expired := false |}).
  set (full := {| signalled := false; attached := [AttachedCopy guard]; expired := false |}).
  assert (length (cycles w1) = n) as Hn by (unfold n; congruence).
  set (w' := set_textures (<[this := set_cycle (Some n) t0]> (textures w1))
               (set_cycles (<[n := full]> (cycles w1 ++ [fresh]))
                  (set_submitted (submitted w1 ++ [download_commands ext t0 sb])
                     (set_cycles (cycles w1 ++ [fresh]) w1)))).
  assert (cycles w' !! n = Some full) as Hfull.
  { simpl. apply list_lookup_insert_eq. rewrite length_app. simpl. lia. }
  exists w'. split; [|split; [|split; [|split; [|split; [|split]]]]].
  - unfold SynchronizeGuest.
    rewrite (bind_Ok _ _ _ _ _ (getTexture_Ok _ _ _ Ht)), Hg.
    rewrite decide_False by assumption.
    apply Nat.nlt_ge, Nat.ltb_nlt in Hm. rewrite Hm.
    rewrite (bind_Ok _ _ _ _ _ (WaitOnBacking_Ok _ _ _ Ht Hb)), (bind_Ok _ _ _ _ _ Hw).
    assert (bool_decide (tiling t = eOptimal) || negb (holds_memory_image (backing t)) = true) as ->.
    { destruct Hpath as [->| ->]; [reflexivity | apply orb_true_r]. }
    rewrite (bind_Ok _ _ _ _ _ Ha).
    assert (CopyIntoStagingBuffer ext this sb w1 = Ok (download_commands ext t0 sb) w1) as Hrec.
    { rewrite (CopyIntoStagingBuffer_Ok _ _ _ _ Ht1). unfold define_layout.
      rewrite decide_False by congruence. reflexivity. }
    unfold Submit. erewrite bind_Ok; [|rewrite (bind_Ok _ _ _ _ _ Hrec); reflexivity].
    unfold AttachObjects, bind at 1. simpl cycles. rewrite Hn, <- Hn, fresh_cycle_lookup.
    erewrite modifyTexture_Ok by (simpl; exact Ht1). rewrite Hn. reflexivity.
  - simpl. rewrite S1, S0, (download_commands_ext _ _ _ E0). reflexivity.
  - reflexivity.
  - exact Hfull.
  - simpl. erewrite lookup_insert_this by exact Ht1. reflexivity.
  - simpl. erewrite lookup_insert_this by exact Ht1. simpl. congruence.
  - unfold FenceCycle_Wait. rewrite Hfull. simpl signalled. cbv iota. simpl attached.
    simpl release_all. rewrite bind_ret_unit. reflexivity.
Qed.

(** X9: [SynchronizeGuestWithBuffer] on the staging path records the
    download into the caller's command buffer and submits nothing of its own;
    the guard that will write the guest memory goes to the supplied cycle,
    behind what was attached to it, and the texture tracks that cycle. The
    guest mapping is not written by the call. *)
Theorem SynchronizeGuestWithBuffer_staging w this t g pc w0 sb w1 fc :
  textures w !! this = Some t ->
  guest t = Some g ->
  layout t <> eUndefined ->
  (length (mappings g) <= 1)%nat ->
  GetBacking t <> VK_NULL_HANDLE ->
  tiling t = eOptimal \/ holds_memory_image (backing t) = false ->
  wait_unless ext this (Some pc) w = Ok tt w0 ->
  AllocateStagingBuffer (GetSize ext (format t) (dimensions t)) w0 = Ok sb w1 ->
  cycles w1 !! pc = Some fc ->
  exists w',
    SynchronizeGuestWithBuffer ext this (Some pc) w = Ok (download_commands ext t sb) w' /\
    submitted w' = submitted w /\
    memory w' = memory w1 /\
    length (cycles w') = length (cycles w) /\
    cycles w' !! pc
    = Some {| signalled := signalled fc;
              attached := attached fc
                          ++ [AttachedCopy {| copy_texture := this;
                                              copy_stagingBuffer := Some sb |}];
              expired := expired fc |} /\
    cycle <$> textures w' !! this = Some (Some pc) /\
    layout <$> textures w' !! this = Some (layout t).
Proof.
  intros Ht Hg Hl Hm Hb Hpath Hw Ha Hpc.
  destruct (wait_unless_Ok _ _ _ _ _ Ht Hw) as ((t0 & Ht0 & E0 & _) & S0 & C0).
  destruct (set_cycle_fields _ _ E0) as (El & _).
  destruct (AllocateStagingBuffer_keeps (GetSize ext (format t) (dimensions t)) w0 w1)
    as (T1 & S1 & C1); [rewrite Ha; reflexivity|].
  assert (textures w1 !! this = Some t0) as Ht1 by congruence.
  eexists. split; [|split; [|split; [|split; [|split; [|split]]]]].
  - unfold SynchronizeGuestWithBuffer.
    rewrite (bind_Ok _ _ _ _ _ (getTexture_Ok _ _ _ Ht)), Hg.
    rewrite decide_False by assumption.
    apply Nat.nlt_ge, Nat.ltb_nlt in Hm. rewrite Hm.
    rewrite (bind_Ok _ _ _ _ _ (WaitOnBacking_Ok _ _ _ Ht Hb)), (bind_Ok _ _ _ _ _ Hw).
    assert (bool_decide (tiling t = eOptimal) || negb (holds_memory_image (backing t)) = true) as ->.
    { destruct Hpath as [->| ->]; [reflexivity | apply orb_true_r]. }
    rewrite (bind_Ok _ _ _ _ _ Ha).
    assert (CopyIntoStagingBuffer ext this sb w1 = Ok (download_commands ext t0 sb) w1) as Hrec.
    { rewrite (CopyIntoStagingBuffer_Ok _ _ _ _ Ht1). unfold define_layout.
      rewrite decide_False by congruence. reflexivity. }
    rewrite (bind_Ok _ _ _ _ _ Hrec).
    unfold AttachObjects, bind at 1. rewrite Hpc.
    erewrite bind_Ok; [|apply modifyTexture_Ok; simpl; exact Ht1].
    rewrite (download_commands_ext _ _ _ E0). reflexivity.
  - simpl. congruence.
  - reflexivity.
  - simpl. rewrite length_insert. congruence.
  - simpl. eapply lookup_insert_this, Hpc.
  - simpl. erewrite lookup_insert_this by exact Ht1. reflexivity.
  - simpl. erewrite lookup_insert_this by exact Ht1. simpl. congruence.
Qed.


(** ** The cached layout and the recorded barriers *)

Lemma layout_after_app image l cmds cmds' l' :
  layout_after image l cmds = Some l' ->
  layout_after image l (cmds ++ cmds') = layout_after image l' cmds'.
Proof.
  revert l. induction cmds as [|c cmds IH]; intros l H; simpl in *; [congruence|].
  destruct c; repeat case_decide; try discriminate; auto.
Qed.

(** X10: the barriers of a staging copy chain, and they end in the cached
    layout. The image starts in the layout the texture has cached, every
    barrier starts from the layout the one before left, the copy names the
    transfer layout the image is in, and the sequence leaves the image in
    the layout the texture has cached after the call. *)
Theorem staging_copy_barriers_chain w this t stagingBuffer :
  textures w !! this = Some t ->
  (exists cmds w' t',
     CopyFromStagingBuffer ext this stagingBuffer w = Ok cmds w' /\
     textures w' !! this = Some t' /\
     layout_after (GetBacking t) (layout t) cmds = Some (layout t')) /\
  (exists cmds w' t',
     CopyIntoStagingBuffer ext this stagingBuffer w = Ok cmds w' /\
     textures w' !! this = Some t' /\
     layout_after (GetBacking t) (layout t) cmds = Some (layout t')).
Proof.
  intros Ht. split.
  - destruct (define_layout_lookup eTransferDstOptimal this t w Ht) as (Htd & _).
    eexists _, _, _. split; [apply CopyFromStagingBuffer_Ok, Ht|]. split; [exact Htd|].
    unfold upload_commands.
    destruct (decide (layout t = eUndefined)) as [Hu|Hu].
    + rewrite Hu. simpl. rewrite !decide_True by reflexivity. reflexivity.
    + destruct (decide (layout t <> eTransferDstOptimal)) as [Hd|Hd].
      * rewrite (decide_True (P := layout t <> eTransferDstOptimal /\ layout t <> eUndefined))
          by tauto.
        simpl. rewrite !decide_True by reflexivity. reflexivity.
      * rewrite (decide_False (P := layout t <> eTransferDstOptimal /\ layout t <> eUndefined))
          by tauto.
        destruct (decide (layout t = eTransferDstOptimal)) as [E|E]; [|contradiction].
        simpl. rewrite E. rewrite !decide_True by reflexivity. reflexivity.
  - destruct (define_layout_lookup eTransferSrcOptimal this t w Ht) as (Htd & _).
    eexists _, _, _. split; [apply CopyIntoStagingBuffer_Ok, Ht|]. split; [exact Htd|].
    unfold download_commands.
    destruct (decide (layout t = eUndefined)) as [Hu|Hu].
    + rewrite Hu. simpl. rewrite !decide_True by reflexivity. reflexivity.
    + destruct (decide (layout t <> eTransferSrcOptimal)) as [Hd|Hd].
      * rewrite (decide_True (P := layout t <> eTransferSrcOptimal /\ layout t <> eUndefined))
          by tauto.
        simpl. rewrite !decide_True by reflexivity. reflexivity.
      * rewrite (decide_False (P := layout t <> eTransferSrcOptimal /\ layout t <> eUndefined))
          by tauto.
        destruct (decide (layout t = eTransferSrcOptimal)) as [E|E]; [|contradiction].
        simpl. rewrite E. rewrite !decide_True by reflexivity. reflexivity.
Qed.

Lemma layout_after_copy_levels image l fuel sourceBacking destinationBacking dims layers bound :
  (sourceBacking = image -> l = eTransferSrcOptimal) ->
  (destinationBacking = image -> l = eTransferDstOptimal) ->
  layout_after image l
    (copy_levels fuel sourceBacking destinationBacking dims layers bound) = Some l.
Proof.
  intros Hs Hd. revert layers. induction fuel as [|fuel IH]; intros layers; [reflexivity|].
  simpl. destruct (mipLevel layers <? bound); [|reflexivity].
  simpl. rewrite decide_False by (intros [E N]; apply N; symmetry; auto).
  rewrite decide_False by (intros [E N]; apply N; symmetry; auto).
  apply IH.
Qed.

(** X11: the barriers [CopyFrom] records, for two different images. Those of
    the destination chain and end in the layout the destination has cached
    after the call. Those of the source chain as well, but they end in the
    layout of the source only if the destination is not in the
    transfer-source layout: if it is, the source is left in the
    transfer-source layout, whatever its cached layout says. *)
Theorem CopyFrom_barriers_chain src dst subresource :
  GetBacking src <> GetBacking dst ->
  layout src <> eUndefined ->
  layout_after (GetBacking dst) (layout dst) (CopyFrom_commands src dst subresource)
  = Some (if decide (layout dst = eUndefined) then eTransferDstOptimal else layout dst) /\
  layout_after (GetBacking src) (layout src) (CopyFrom_commands src dst subresource)
  = Some (if decide (layout dst = eTransferSrcOptimal) then eTransferSrcOptimal else layout src).
Proof.
  intros Hne Hl. unfold CopyFrom_commands.
  set (dst' := if decide (layout dst = eUndefined) then set_layout eTransferDstOptimal dst else dst).
  assert (layout dst' = if decide (layout dst = eUndefined) then eTransferDstOptimal else layout dst)
    as El by (unfold dst'; destruct (decide (layout dst = eUndefined)); reflexivity).
  split.
  - erewrite layout_after_app with (l' := layout dst);
      [|destruct (decide (layout src <> eTransferSrcOptimal)); simpl;
        [rewrite decide_False by assumption|]; reflexivity].
    erewrite layout_after_app with (l' := eTransferDstOptimal).
    2:{ destruct (decide (layout dst <> eTransferDstOptimal)) as [H|H]; simpl.
        - rewrite !decide_True by reflexivity. reflexivity.
        - destruct (decide (layout dst = eTransferDstOptimal)) as [E|E]; [|contradiction].
          rewrite E. reflexivity. }
    erewrite layout_after_app with (l' := eTransferDstOptimal);
      [|apply layout_after_copy_levels; [intros E; contradiction | reflexivity]].
    rewrite El.
    destruct (decide (layout dst = eUndefined)) as [Hu|Hu].
    + rewrite decide_False by tauto. simpl.
      simpl. rewrite decide_False by assumption. reflexivity.
    + destruct (decide (layout dst <> eTransferDstOptimal)) as [H|H]; simpl.
      * rewrite !decide_True by reflexivity.
        destruct (decide (layout dst <> eTransferSrcOptimal)); simpl;
          [rewrite decide_False by assumption|]; reflexivity.
      * destruct (decide (layout dst = eTransferDstOptimal)) as [E|E]; [|contradiction].
        rewrite E. simpl. rewrite decide_False by assumption. reflexivity.
  - erewrite layout_after_app with (l' := eTransferSrcOptimal).
    2:{ destruct (decide (layout src <> eTransferSrcOptimal)) as [H|H]; simpl.
        - rewrite !decide_True by reflexivity. reflexivity.
        - destruct (decide (layout src = eTransferSrcOptimal)) as [E|E]; [|contradiction].
          rewrite E. reflexivity. }
    erewrite layout_after_app with (l' := eTransferSrcOptimal);
      [|destruct (decide (layout dst <> eTransferDstOptimal)); simpl;
        [rewrite decide_False by congruence|]; reflexivity].
    erewrite layout_after_app with (l' := eTransferSrcOptimal);
      [|apply layout_after_copy_levels; [reflexivity | intros E; congruence]].
    erewrite layout_after_app with (l' := eTransferSrcOptimal);
      [|destruct (decide (layout dst' <> eTransferDstOptimal)); simpl;
        [rewrite decide_False by congruence|]; reflexivity].
    rewrite El.
    destruct (decide (layout dst = eUndefined)) as [Hu|Hu].
    + rewrite Hu. simpl. rewrite !decide_True by reflexivity. reflexivity.
    + destruct (decide (layout dst = eTransferSrcOptimal)) as [Hs|Hs].
      * rewrite decide_False by tauto. reflexivity.
      * rewrite decide_True by assumption. simpl.
        rewrite !decide_True by reflexivity. reflexivity.
Qed.

(** X12: after a [CopyFrom] between two textures the destination tracks the
    cycle of the copy, which holds both textures, but the source does not: a
    wait on the source returns at once and the cycle of the copy stays
    unsignalled. *)
Theorem CopyFrom_leaves_source_untracked w this source subresource dst src w1 w2 :
  textures w !! this = Some dst ->
  textures w !! source = Some src ->
  source <> this ->
  GetBacking dst <> VK_NULL_HANDLE ->
  GetBacking src <> VK_NULL_HANDLE ->
  WaitOnFence ext this w = Ok tt w1 ->
  WaitOnFence ext source w1 = Ok tt w2 ->
  layout src <> eUndefined ->
  dimensions src = dimensions dst ->
  format src = format dst ->
  (forall c, cycle src = Some c -> (c < length (cycles w))%nat) ->
  exists w',
    CopyFrom ext this source subresource w = Ok tt w' /\
    cycles w' !! length (cycles w)
    = Some {| signalled := false;
              attached := [AttachedTexture source; AttachedTexture this];
              expired := false |} /\
    cycle <$> textures w' !! this = Some (Some (length (cycles w))) /\
    WaitOnFence ext source w' = Ok tt w'.
Proof.
  intros Hd Hs Hne Hbd Hbs Hw1 Hw2 Hl Hdim Hfmt Hvalid.
  destruct (CopyFrom_waits _ _ _ subresource _ _ _ _ Hd Hs Hbd Hbs Hw1 Hw2)
    as (dst2 & src2 & Hd2 & Hs2 & Ed & Es & _ & Cs & S & C & ->).
  destruct (set_cycle_fields _ _ Ed) as (Edl & _ & _ & Edd & Edf & _).
  destruct (set_cycle_fields _ _ Es) as (Esl & _ & _ & Esd & Esf & _).
  destruct (WaitOnFence_lookup _ _ _ _ _ _ Hd Hs Hw1) as (src1 & Hs1 & _).
  destruct (WaitOnFence_unlocked _ _ _ _ Hs1 Hw2) as (src2' & Hs2' & Hlock).
  assert (src2' = src2) as -> by congruence.
  rewrite decide_False by congruence. rewrite decide_False by (intros H; apply H; congruence).
  rewrite decide_False by (intros H; apply H; congruence).
  destruct (define_layout_lookup eTransferDstOptimal this dst2 w2 Hd2) as (Htd & Hcd & Hsd & _).
  set (wd := define_layout eTransferDstOptimal this dst2 w2) in *.
  set (td := if decide (layout dst2 = eUndefined) then set_layout eTransferDstOptimal dst2 else dst2) in *.
  assert (textures wd !! source = Some src2) as Hsd2.
  { unfold wd, define_layout. destruct (decide (layout dst2 = eUndefined)); [|exact Hs2].
    simpl. rewrite list_lookup_insert_ne by congruence. exact Hs2. }
  set (fresh := {| signalled := false; attached := []; expired := false |}).
  set (full := {| signalled := false;
                  attached := [AttachedTexture source; AttachedTexture this];
                  expired := false |}).
  assert (length (cycles wd) = length (cycles w)) as Hlen by congruence.
  set (w' := set_textures (<[this := set_cycle (Some (length (cycles wd))) td]> (textures wd))
               (set_cycles (<[length (cycles wd) := full]> (cycles wd ++ [fresh]))
                  (set_submitted (submitted wd ++ [CopyFrom_commands src2 dst2 subresource])
                     (set_cycles (cycles wd ++ [fresh]) wd)))).
  exists w'. split; [|split; [|split]].
  - unfold Submit. erewrite bind_Ok;
      [|erewrite bind_Ok; [|apply CopyFrom_record_Ok; [exact Hd2|exact Hs2|congruence]]; reflexivity].
    unfold AttachObjects, bind at 1. simpl cycles. fold wd. rewrite fresh_cycle_lookup.
    erewrite modifyTexture_Ok by (simpl; exact Htd). reflexivity.
  - simpl. rewrite <- Hlen. apply list_lookup_insert_eq. rewrite length_app. simpl. lia.
  - simpl. erewrite lookup_insert_this by exact Htd. simpl. rewrite Hlen. reflexivity.
  - apply (WaitOnFence_noop source src2).
    + simpl. rewrite list_lookup_insert_ne by congruence. exact Hsd2.
    + unfold lock in Hlock |- *. destruct (cycle src2) as [c|] eqn:Ec; [|reflexivity].
      assert (c < length (cycles w2))%nat as Hc.
      { rewrite C. apply Hvalid. destruct Cs as [E|E]; congruence. }
      simpl cycles. rewrite Hcd.
      rewrite list_lookup_insert_ne by lia. rewrite lookup_app_l by exact Hc.
      destruct (cycles w2 !! c) as [fc|] eqn:Efc.
      * destruct (expired fc); [reflexivity | discriminate].
      * apply lookup_ge_None in Efc. lia.
Qed.


(** ** The view cache *)

Section Views.

Variable vext : ViewExternal.

Lemma find_app_Some {A} (f : A -> bool) l l' x :
  List.find f l = Some x -> List.find f (l ++ l') = Some x.
Proof.
  induction l as [|a l IH]; simpl; [discriminate|]. destruct (f a); auto.
Qed.

Lemma find_app_None {A} (f : A -> bool) l y :
  List.find f l = None -> f y = true -> List.find f (l ++ [y]) = Some y.
Proof.
  induction l as [|a l IH]; simpl; [intros _ ->; reflexivity|].
  destruct (f a); [discriminate | auto].
Qed.

Lemma find_In {A} (f : A -> bool) l x : List.find f l = Some x -> In x l /\ f x = true.
Proof. apply List.find_some. Qed.

Lemma GetView_Ok created v w t :
  textures w !! view_backing v = Some t ->
  view_own v = None ->
  GetView vext created v w
  = match List.find (serves (view_create_info vext v t)) (views t) with
    | Some item => Ok (snd item) w
    | None =>
        Ok created
           (set_textures
              (<[view_backing v := add_view (view_create_info vext v t, created) t]>
                 (textures w)) w)
    end.
Proof.
  intros Ht Ho. unfold GetView. rewrite Ho.
  rewrite (bind_Ok _ _ _ _ _ (getTexture_Ok _ _ _ Ht)).
  destruct (List.find _ (views t)); [reflexivity|].
  rewrite (bind_Ok _ _ _ _ _ (modifyTexture_Ok _ _ _ _ Ht)). reflexivity.
Qed.

Lemma view_create_info_add v t item :
  view_create_info vext v (add_view item t) = view_create_info vext v t.
Proof. reflexivity. Qed.

(** X13: the view cache gives one handle per description. [GetView] returns
    a handle that the cache of the texture holds for the create info of the
    view, adding at most that one entry, behind the others; from then on
    every [GetView] of a view of that texture with the same format override,
    component mapping and range returns that handle and changes nothing,
    whatever handle the device would make and whatever type the view was
    made with. *)
Theorem GetView_cache_identity created v w t :
  textures w !! view_backing v = Some t ->
  view_own v = None ->
  exists view w' t',
    GetView vext created v w = Ok view w' /\
    textures w' !! view_backing v = Some t' /\
    In (view_create_info vext v t, view) (views t') /\
    (views t' = views t \/ views t' = views t ++ [(view_create_info vext v t, created)]) /\
    forall created' v',
      view_backing v' = view_backing v ->
      view_override v' = view_override v ->
      view_mapping v' = view_mapping v ->
      view_range v' = view_range v ->
      view_own v' = None ->
      GetView vext created' v' w' = Ok view w'.
Proof.
  intros Ht Ho. rewrite (GetView_Ok _ _ _ _ Ht Ho).
  set (info := view_create_info vext v t).
  assert (forall v' t', view_backing v' = view_backing v ->
            view_override v' = view_override v -> view_mapping v' = view_mapping v ->
            view_range v' = view_range v ->
            GetBacking t' = GetBacking t -> dimensions t' = dimensions t ->
            format t' = format t ->
            view_create_info vext v' t' = info) as Hinfo.
  { intros v' t' _ E2 E3 E4 E5 E6 E7. unfold info, view_create_info.
    rewrite E2, E3, E4, E5, E6, E7. reflexivity. }
  destruct (List.find (serves info) (views t)) as [item|] eqn:Ef.
  - destruct (find_In _ _ _ Ef) as [Hin Hs]. apply bool_decide_eq_true in Hs.
    exists (snd item), w, t. split; [reflexivity|]. split; [exact Ht|].
    split; [rewrite <- Hs; destruct item; exact Hin|]. split; [left; reflexivity|].
    intros created' v' E1 E2 E3 E4 E5.
    rewrite (GetView_Ok created' v' w t) by congruence.
    rewrite (Hinfo v' t E1 E2 E3 E4 eq_refl eq_refl eq_refl), Ef. reflexivity.
  - set (t' := add_view (info, created) t).
    assert (<[view_backing v := t']> (textures w) !! view_backing v = Some t') as Ht'
      by (eapply lookup_insert_this, Ht).
    eexists created, _, t'. split; [reflexivity|]. split; [exact Ht'|].
    split; [simpl; apply in_or_app; right; left; reflexivity|].
    split; [right; reflexivity|].
    intros created' v' E1 E2 E3 E4 E5.
    rewrite (GetView_Ok created' v' _ t') by (simpl; congruence).
    rewrite (Hinfo v' t' E1 E2 E3 E4 eq_refl eq_refl eq_refl). simpl views.
    rewrite (find_app_None _ _ (info, created) Ef); [reflexivity|].
    unfold serves. apply bool_decide_eq_true. reflexivity.
Qed.

(** X14: the cache never replaces or drops an entry. A view that the cache
    serves keeps its handle across the [GetView] of any other view of the
    texture, and that call touches nothing but the cache: the layout, the
    backing and the tracked cycle of the texture, the other textures, the
    memory, the cycles and the submitted work stay. *)
Theorem GetView_keeps_entries created created0 v v0 w t item :
  textures w !! view_backing v = Some t ->
  view_own v = None ->
  view_backing v0 = view_backing v ->
  view_own v0 = None ->
  List.find (serves (view_create_info vext v0 t)) (views t) = Some item ->
  exists view w' t',
    GetView vext created v w = Ok view w' /\
    GetView vext created0 v0 w' = Ok (snd item) w' /\
    textures w' !! view_backing v = Some t' /\
    layout t' = layout t /\ backing t' = backing t /\ cycle t' = cycle t /\
    (forall i, i <> view_backing v -> textures w' !! i = textures w !! i) /\
    memory w' = memory w /\ cycles w' = cycles w /\ submitted w' = submitted w.
Proof.
  intros Ht Ho Eb Ho0 Hitem. rewrite (GetView_Ok _ _ _ _ Ht Ho).
  destruct (List.find (serves (view_create_info vext v t)) (views t)) as [found|] eqn:Ef.
  - exists (snd found), w, t. split; [reflexivity|].
    split; [rewrite (GetView_Ok created0 v0 w t) by congruence; rewrite Hitem; reflexivity|].
    repeat split; auto.
  - set (t' := add_view (view_create_info vext v t, created) t).
    assert (<[view_backing v := t']> (textures w) !! view_backing v = Some t') as Ht'
      by (eapply lookup_insert_this, Ht).
    eexists created, _, t'. split; [reflexivity|]. split.
    { rewrite (GetView_Ok created0 v0 _ t') by (simpl; congruence).
      change (view_create_info vext v0 t') with (view_create_info vext v0 t). simpl views.
      rewrite (find_app_Some _ _ _ _ Hitem). reflexivity. }
    split; [exact Ht'|]. repeat split; auto.
    intros i Hi. simpl. apply list_lookup_insert_ne. congruence.
Qed.

End Views.

(** ** Construction *)

(** X15: a texture made from a guest texture alone. With an image from the
    allocator the constructor returns a new texture that has the guest's
    dimensions, format and layer count and one mip level, is optimally tiled
    over a device image for a [Block] guest texture and linear over a mapped
    image otherwise, is in the general layout and tracks the cycle of the one
    barrier the constructor has submitted, from the undefined layout. The
    textures there were are as before. *)
Theorem Texture_fromGuest_Ok pGuest image mappedSize w :
  image <> VK_NULL_HANDLE ->
  exists w' t,
    Texture_fromGuest ext pGuest image mappedSize w = Ok (length (textures w)) w' /\
    textures w' !! length (textures w) = Some t /\
    (forall i x, textures w !! i = Some x -> textures w' !! i = Some x) /\
    guest t = Some pGuest /\
    dimensions t = guest_dimensions pGuest /\
    format t = guest_format pGuest /\
    mipLevels t = 1 /\
    layerCount t = guest_layerCount pGuest /\
    layout t = eGeneral /\
    (tiling t, backing t)
    = (match mode (tileConfig pGuest) with
       | Block => (eOptimal, DeviceImage image)
       | _ => (eLinear, MemoryImage image (length (memory w)))
       end) /\
    cycle t = Some (length (cycles w)) /\
    submitted w'
    = submitted w ++
      [[pipelineBarrier eBottomOfPipe eBottomOfPipe
          {| barrier_image := image;
             srcAccessMask := eMemoryWrite;
             dstAccessMask := eMemoryRead;
             oldLayout := eUndefined;
             newLayout := eGeneral;
             subresourceRange :=
               {| aspectMask := vkAspect ext (guest_format pGuest); baseMipLevel := 0;
                  levelCount := 1; baseArrayLayer := 0;
                  range_layerCount := guest_layerCount pGuest |} |}]].
Proof.
  intros Himg. unfold Texture_fromGuest.
  set (tl := match mode (tileConfig pGuest) with Block => eOptimal | _ => eLinear end).
  set (t0 := {| backing := NoBacking; layout := eUndefined; guest := Some pGuest;
                dimensions := guest_dimensions pGuest; format := guest_format pGuest;
                tiling := tl; mipLevels := 1; layerCount := guest_layerCount pGuest;
                sampleCount := eSampleCount1; cycle := None; views := [] |}).
  set (this := length (textures w)).
  set (b := match mode (tileConfig pGuest) with
            | Block => DeviceImage image
            | _ => MemoryImage image (length (memory w))
            end).
  set (wa := set_textures (textures w ++ [t0]) w).
  assert (exists wb, (if decide (tl <> eLinear) then AllocateImage image
                      else AllocateMappedImage image mappedSize) wa = Ok b wb /\
                     textures wb = textures wa /\ cycles wb = cycles w /\
                     submitted wb = submitted w) as (wb & Hb & Tb & Cb & Sb).
  { unfold tl, b. destruct (mode (tileConfig pGuest)); simpl; eexists; repeat split. }
  set (tc := set_backing b t0).
  set (wc := set_textures (<[this := tc]> (textures wb)) wb).
  assert (textures wb !! this = Some t0) as Htb.
  { rewrite Tb. simpl. apply list_lookup_middle. reflexivity. }
  assert (textures wc !! this = Some tc) as Htc by (simpl; eapply lookup_insert_this, Htb).
  assert (GetBacking tc <> VK_NULL_HANDLE) as Hbc.
  { unfold tc, b, GetBacking. simpl. destruct (mode (tileConfig pGuest)); exact Himg. }
  destruct (TransitionLayout_once wc this tc eGeneral wc Htc Hbc
              (WaitOnFence_noop this tc wc Htc eq_refl))
    as (w' & t1 & H1 & S1 & Ht1 & Hl1 & E1 & Hcy & _ & _ & Hlen).
  destruct Hcy as [Hcy _]; [discriminate|].
  destruct (set_cycle_fields _ _ E1) as (_ & Eb1 & Eg1 & Ed1 & Ef1 & Etl1 & Em1 & Ey1).
  exists w', t1. split.
  { unfold newTexture. unfold bind at 1. fold this wa.
    rewrite (bind_Ok _ _ _ _ _ Hb).
    rewrite (bind_Ok _ _ _ _ _ (modifyTexture_Ok _ _ _ _ Htb)). fold tc wc.
    rewrite (bind_Ok _ _ _ _ _ H1). reflexivity. }
  split; [exact Ht1|].
  split.
  { intros i x Hi. assert (i < this)%nat as Hlt by (eapply lookup_lt_Some, Hi).
    clear - Hi Hlt H1 Htc Tb Hbc. unfold TransitionLayout in H1.
    rewrite (bind_Ok _ _ _ _ _ (WaitOnBacking_Ok _ _ _ Htc Hbc)) in H1.
    rewrite (bind_Ok _ _ _ _ _ (WaitOnFence_noop this tc wc Htc eq_refl)) in H1.
    rewrite (bind_Ok _ _ _ _ _ (getTexture_Ok _ _ _ Htc)) in H1.
    rewrite decide_True in H1 by discriminate.
    unfold Submit in H1. unfold bind at 2 in H1. unfold ret at 1 in H1. unfold bind at 1 in H1.
    erewrite bind_Ok in H1; [|apply modifyTexture_Ok; simpl; exact Htc].
    erewrite modifyTexture_Ok in H1 by (simpl; eapply lookup_insert_this, Htc).
    injection H1 as <-. simpl.
    rewrite !list_lookup_insert_ne by lia. rewrite Tb. simpl.
    rewrite lookup_app_l by exact Hlt. exact Hi. }
  split; [exact Eg1|]. split; [exact Ed1|]. split; [exact Ef1|]. split; [exact Em1|].
  split; [exact Ey1|]. split; [exact Hl1|].
  split; [rewrite Etl1, Eb1; unfold tl, b; simpl; destruct (mode (tileConfig pGuest)); reflexivity|].
  split; [rewrite Hcy; simpl; congruence|].
  rewrite S1. simpl submitted. rewrite Sb. simpl. do 3 f_equal.
  unfold transition_barrier, first_stage, whole_range, GetBacking. simpl.
  f_equal. f_equal. unfold b. destruct (mode (tileConfig pGuest)); reflexivity.
Qed.

(** X16: a texture made with an initial layout is in that layout when the
    constructor returns. The image is created undefined or preinitialised;
    for every other initial layout the constructor submits one barrier, from
    the undefined layout to the requested one, and for those two none. *)
Theorem Texture_withLayout_layout pDimensions pFormat initialLayout pTiling
    pMipLevels pLayerCount pSampleCount image mappedSize w :
  image <> VK_NULL_HANDLE ->
  exists w' t,
    Texture_withLayout ext pDimensions pFormat initialLayout pTiling
      pMipLevels pLayerCount pSampleCount image mappedSize w
    = Ok (length (textures w)) w' /\
    textures w' !! length (textures w) = Some t /\
    layout t = initialLayout /\
    guest t = None /\
    GetBacking t = image /\
    submitted w'
    = submitted w ++
      (if decide (initialLayout = eUndefined \/ initialLayout = ePreinitialized) then []
       else [[pipelineBarrier eBottomOfPipe eBottomOfPipe
                {| barrier_image := image;
                   srcAccessMask := eMemoryWrite;
                   dstAccessMask := eMemoryRead;
                   oldLayout := eUndefined;
                   newLayout := initialLayout;
                   subresourceRange :=
                     {| aspectMask := vkAspect ext pFormat; baseMipLevel := 0;
                        levelCount := pMipLevels; baseArrayLayer := 0;
                        range_layerCount := pLayerCount |} |}]]).
Proof.
  intros Himg. unfold Texture_withLayout.
  set (layout0 := if decide (initialLayout = ePreinitialized) then ePreinitialized else eUndefined).
  set (t0 := {| backing := NoBacking; layout := layout0; guest := None;
                dimensions := pDimensions; format := pFormat;
                tiling := pTiling; mipLevels := pMipLevels; layerCount := pLayerCount;
                sampleCount := pSampleCount; cycle := None; views := [] |}).
  set (this := length (textures w)).
  set (wa := set_textures (textures w ++ [t0]) w).
  assert (exists b wb, (if decide (pTiling <> eLinear) then AllocateImage image
                        else AllocateMappedImage image mappedSize) wa = Ok b wb /\
                       GetBackingOf b = image /\
                       textures wb = textures wa /\ submitted wb = submitted w)
    as (b & wb & Hb & Hgb & Tb & Sb).
  { destruct (decide (pTiling <> eLinear)); simpl; eexists _, _; repeat split. }
  set (tc := set_backing b t0).
  set (wc := set_textures (<[this := tc]> (textures wb)) wb).
  assert (textures wb !! this = Some t0) as Htb.
  { rewrite Tb. simpl. apply list_lookup_middle. reflexivity. }
  assert (textures wc !! this = Some tc) as Htc by (simpl; eapply lookup_insert_this, Htb).
  assert (GetBacking tc <> VK_NULL_HANDLE) as Hbc by (unfold tc, GetBacking; simpl; congruence).
  destruct (TransitionLayout_once wc this tc initialLayout wc Htc Hbc
              (WaitOnFence_noop this tc wc Htc eq_refl))
    as (w' & t1 & H1 & S1 & Ht1 & Hl1 & E1 & _ & Hsame & _).
  destruct (set_cycle_fields _ _ E1) as (_ & Eb1 & Eg1 & _).
  unfold newTexture. unfold bind at 1. fold this wa.
  rewrite (bind_Ok _ _ _ _ _ Hb).
  rewrite (bind_Ok _ _ _ _ _ (modifyTexture_Ok _ _ _ _ Htb)). fold tc wc.
  destruct (decide (initialLayout = layout0)) as [Heq|Hneq].
  - rewrite bool_decide_eq_false_2 by tauto. simpl when.
    exists wc, tc. split; [reflexivity|]. split; [exact Htc|].
    split; [simpl; congruence|]. split; [reflexivity|]. split; [exact Hgb|].
    simpl submitted. rewrite Sb. simpl.
    rewrite decide_True; [rewrite app_nil_r; reflexivity|].
    unfold layout0 in Heq. destruct (decide (initialLayout = ePreinitialized)); auto.
  - rewrite bool_decide_eq_true_2 by assumption. simpl when.
    rewrite (bind_Ok _ _ _ _ _ H1).
    exists w', t1. split; [reflexivity|]. split; [exact Ht1|]. split; [exact Hl1|].
    split; [exact Eg1|]. split; [unfold GetBacking; rewrite Eb1; exact Hgb|].
    rewrite S1. simpl submitted. rewrite Sb. simpl. f_equal.
    assert (layout0 = eUndefined) as E0.
    { unfold layout0 in *. destruct (decide (initialLayout = ePreinitialized)); congruence. }
    rewrite decide_False by congruence.
    rewrite decide_False by (rewrite <- E0; intros [?|?]; unfold layout0 in *;
                             destruct (decide (initialLayout = ePreinitialized)); congruence).
    unfold transition_barrier, first_stage, whole_range, GetBacking. simpl.
    rewrite E0, Hgb. reflexivity.
Qed.


End Properties.

(** * Properties of KPrivateMemory.cpp *)

Section KernelProperties.

Variable IsPageAligned : Z -> bool.
Variables Unmapped CodeStatic CodeMutable : Z.

Lemma clamp_between v lo hi : lo <= hi -> lo <= Kernel.clamp v lo hi <= hi.
Proof.
  intros H. unfold Kernel.clamp.
  destruct (v <? lo) eqn:E1; [lia|]. destruct (hi <? v) eqn:E2; lia.
Qed.

(** X18: a permission update never reaches outside the object's region.
    Whatever range is asked for, [UpdatePermission] throws only when the
    start, brought into the region, is neither null nor page aligned, and
    then changes nothing; otherwise it inserts one descriptor, which carries
    the permission asked for and the object's state after the call, starts
    inside the region, is no longer than asked and ends inside the region. The
    object keeps its start, its size and the permission it was made with. *)
Theorem UpdatePermission_confined (this : Kernel.KPrivateMemory) pPtr pSize pPermission chunks :
  0 <= Kernel.ptr this -> 0 <= Kernel.size this ->
  Kernel.ptr this + Kernel.size this < 2 ^ 64 ->
  0 <= pSize ->
  let start := Kernel.clamp pPtr (Kernel.ptr this) (Kernel.ptr this + Kernel.size this) in
  if negb (start =? 0) && negb (IsPageAligned start)
  then Kernel.UpdatePermission IsPageAligned CodeStatic CodeMutable
         this pPtr pSize pPermission chunks = Kernel.Throws Kernel.PermissionNotPageAligned
  else exists this' c,
    Kernel.UpdatePermission IsPageAligned CodeStatic CodeMutable
      this pPtr pSize pPermission chunks = Kernel.Returns this' (chunks ++ [c]) /\
    Kernel.ptr this' = Kernel.ptr this /\ Kernel.size this' = Kernel.size this /\
    Kernel.permission this' = Kernel.permission this /\
    Kernel.chunk_permission c = pPermission /\
    Kernel.chunk_state c = Kernel.memoryState this' /\
    Kernel.chunk_ptr c = start /\
    Kernel.ptr this <= Kernel.chunk_ptr c /\
    0 <= Kernel.chunk_size c <= pSize /\
    Kernel.chunk_ptr c + Kernel.chunk_size c <= Kernel.ptr this + Kernel.size this.
Proof.
  intros Hp Hs Hmax Hn start.
  pose proof (clamp_between pPtr (Kernel.ptr this) (Kernel.ptr this + Kernel.size this)
                ltac:(lia)) as Hc.
  fold start in Hc.
  unfold Kernel.UpdatePermission. fold start.
  destruct (negb (start =? 0) && negb (IsPageAligned start)); [reflexivity|].
  eexists _, _. split; [reflexivity|]. cbn [Kernel.chunk_ptr Kernel.chunk_size
    Kernel.chunk_permission Kernel.chunk_state].
  assert (Kernel.to_size_t (Kernel.ptr this + Kernel.size this - start)
          = Kernel.ptr this + Kernel.size this - start) as ->
    by (unfold Kernel.to_size_t; apply Z.mod_small; lia).
  destruct (bool_decide (Kernel.memoryState this = CodeStatic) && Kernel.w pPermission);
    cbn; repeat split; lia.
Qed.

Lemma call_keeps IsInside c this chunks this' chunks' :
  Kernel.call IsInside IsPageAligned Unmapped CodeStatic CodeMutable c this chunks
    = Kernel.Returns this' chunks' ->
  Kernel.ptr this' = Kernel.ptr this /\
  Kernel.permission this' = Kernel.permission this /\
  Kernel.memoryState this' =
    (if bool_decide (Kernel.memoryState this = CodeStatic) && Kernel.makes_writable c
     then CodeMutable else Kernel.memoryState this) /\
  exists added, chunks' = chunks ++ added /\ (length added <= 1)%nat.
Proof.
  destruct c as [nSize rc|nPtr nSize rc1 rc2|pPtr pSize pPermission]; cbn [Kernel.call].
  - unfold Kernel.Resize. destruct (rc <? 0); [discriminate|].
    intros H. injection H as <- <-. cbn. rewrite andb_false_r.
    repeat split; try reflexivity.
    destruct (nSize <? Kernel.size this); [|destruct (Kernel.size this <? nSize)].
    + eexists; split; [reflexivity|]. cbn. lia.
    + eexists; split; [reflexivity|]. cbn. lia.
    + exists []. rewrite app_nil_r. split; [reflexivity|]. cbn. lia.
  - unfold Kernel.Remap.
    repeat match goal with |- (if ?b then _ else _) = _ -> _ => destruct b; [discriminate|] end.
    intros H. injection H as <- <-. cbn. rewrite andb_false_r.
    repeat split; try reflexivity.
    exists []. rewrite app_nil_r. split; [reflexivity|]. cbn. lia.
  - unfold Kernel.UpdatePermission.
    match goal with |- (if ?b then _ else _) = _ -> _ => destruct b; [discriminate|] end.
    intros H. injection H as <- <-. cbn [Kernel.makes_writable].
    destruct (bool_decide (Kernel.memoryState this = CodeStatic) && Kernel.w pPermission);
      cbn; (repeat split; try reflexivity);
      (eexists; split; [reflexivity|]; cbn; lia).
Qed.

(** X19: what a sequence of calls on one object keeps. Through any calls of
    [Resize], [Remap] and [UpdatePermission] that all return, the object
    keeps its start and the permission it was made with ([Remap] moves
    nothing and [UpdatePermission] does not store the permission); its state
    is the one it started with, except that a static code region has become
    mutable exactly when one of the permission updates made it writable; and
    the memory manager was only given descriptors, at most one for each
    call. *)
Theorem calls_keep IsInside l : forall this chunks this' chunks',
  Kernel.calls IsInside IsPageAligned Unmapped CodeStatic CodeMutable l this chunks
    = Kernel.Returns this' chunks' ->
  Kernel.ptr this' = Kernel.ptr this /\
  Kernel.permission this' = Kernel.permission this /\
  Kernel.memoryState this' =
    (if bool_decide (Kernel.memoryState this = CodeStatic) && existsb Kernel.makes_writable l
     then CodeMutable else Kernel.memoryState this) /\
  exists added, chunks' = chunks ++ added /\ (length added <= length l)%nat.
Proof.
  induction l as [|c l IH]; intros this chunks this' chunks' H; cbn [Kernel.calls] in H.
  - injection H as <- <-. cbn. rewrite andb_false_r. repeat split; try reflexivity.
    exists []. rewrite app_nil_r. split; [reflexivity|]. cbn. lia.
  - destruct (Kernel.call _ _ _ _ _ c this chunks) as [this1 chunks1|e] eqn:Ec; [|discriminate].
    apply call_keeps in Ec. destruct Ec as (Ep & Eperm & Est & added1 & -> & Hl1).
    apply IH in H. destruct H as (Ep' & Eperm' & Est' & added & -> & Hl).
    split; [congruence|]. split; [congruence|]. split.
    + rewrite Est', Est. cbn [existsb].
      destruct (bool_decide (Kernel.memoryState this = CodeStatic)) eqn:Es;
        destruct (Kernel.makes_writable c); cbn;
        rewrite ?Es; cbn; try reflexivity.
      destruct (bool_decide (CodeMutable = CodeStatic) && existsb Kernel.makes_writable l);
        reflexivity.
    + exists (added1 ++ added). rewrite app_assoc. split; [reflexivity|].
      rewrite length_app. cbn. lia.
Qed.

End KernelProperties.


(** * Concrete runs *)

(** C1: [SynchronizeGuest] on the direct-map path of a [Linear] guest
    texture submits nothing, as the specification says, but it does not write
    the host bytes back: the guest mapping keeps its four bytes and the
    mapped host image is overwritten with them. *)
Theorem SynchronizeGuest_linear_overwrites_host :
  memory linear_world !! 0%nat = Some [x01; x02; x03; x04] /\
  memory linear_world !! 1%nat = Some [x0a; x0b; x0c; x0d] /\
  exists w',
    SynchronizeGuest ext0 0%nat linear_world = Ok tt w' /\
    submitted w' = [] /\
    memory w' !! 0%nat = Some [x01; x02; x03; x04] /\
    memory w' !! 1%nat = Some [x01; x02; x03; x04].
Proof.
  split; [reflexivity|]. split; [reflexivity|].
  destruct (SynchronizeGuest_direct_linear ext0 linear_world 0%nat linear_texture
              (guest0 [span0] dims1 Linear) span0 5 1%nat
              [x0a; x0b; x0c; x0d] [x01; x02; x03; x04] linear_world)
    as (w' & H1 & H2 & H3 & H4); try reflexivity; try discriminate; try (simpl; lia).
  exists w'. repeat split; assumption.
Qed.

(** The undefined-layout check hides two guest mappings. *)
Lemma undefined_layout_before_mapping_check_witness :
  length (mappings (guest0 [span0; span2] dims1 Linear)) = 2%nat /\
  SynchronizeGuest ext0 0%nat undefined_world = Ok tt undefined_world /\
  SynchronizeGuestWithBuffer ext0 0%nat None undefined_world = Ok [] undefined_world.
Proof.
  split; [reflexivity|].
  apply (undefined_layout_before_mapping_check ext0 undefined_world 0%nat undefined_texture
           (guest0 [span0; span2] dims1 Linear) None);
    [reflexivity | reflexivity | reflexivity | simpl; lia].
Defined.



(** The comparison of the dimensions that C3 passes over. Where the guest
    and the host dimensions differ, [SynchronizeHost] throws and changes
    nothing, as [SynchronizeHostImpl] compares them; the guest
    synchronisations go on to [CopyToGuest], which copies as many bytes as
    the host dimensions give: over the wide texture that is out of the range
    of the guest mapping; over the other one the call goes through. *)
Lemma SynchronizeGuest_dimensions_unchecked :
  (SynchronizeHost ext0 0%nat wide_world = Throw DimensionsDifferent wide_world /\
   SynchronizeGuest ext0 0%nat wide_world = Undefined /\
   SynchronizeGuestWithBuffer ext0 0%nat None wide_world = Undefined) /\
  (SynchronizeHost ext0 0%nat mismatched_world = Throw DimensionsDifferent mismatched_world /\
   exists w', SynchronizeGuest ext0 0%nat mismatched_world = Ok tt w').
Proof.
  split; [split; [|split]; reflexivity|].
  split; [reflexivity|]. eexists. vm_compute. reflexivity.
Qed.

(** C6: a texture that is in the requested layout already: neither call
    submits anything. *)
Lemma transition_twice_counterexample :
  ~ transition_twice_as_specified ext0 host_world 0%nat eGeneral.
Proof.
  intros H. destruct (H host_texture eq_refl) as (w1 & w2 & H1 & H2 & Hlen & _).
  - discriminate.
  - vm_compute in H1. injection H1 as <-. vm_compute in H2. injection H2 as <-.
    simpl in Hlen. discriminate Hlen.
Qed.

Lemma TransitionLayout_twice_witness :
  exists w1 w2,
    TransitionLayout ext0 0%nat eColorAttachmentOptimal host_world = Ok tt w1 /\
    TransitionLayout ext0 0%nat eColorAttachmentOptimal w1 = Ok tt w2 /\
    submitted w1 = [[transition_barrier ext0 host_texture eColorAttachmentOptimal]] /\
    submitted w2 = submitted w1 /\
    layout <$> textures w1 !! 0%nat = Some eColorAttachmentOptimal /\
    layout <$> textures w2 !! 0%nat = Some eColorAttachmentOptimal.
Proof.
  apply (TransitionLayout_twice ext0 host_world 0%nat host_texture eColorAttachmentOptimal
           host_world); [reflexivity | discriminate | reflexivity].
Defined.

(** C7 on both paths: the optimally tiled texture goes through a staging
    buffer, the linear one is written through its mapping. *)
Lemma SynchronizeHost_paths_witness :
  (exists w',
     SynchronizeHost ext0 0%nat optimal_world = Ok tt w' /\
     submitted w' = [upload_commands ext0 optimal_texture staging0] /\
     cycles w' !! 0%nat
     = Some {| signalled := false;
               attached := [AttachedStagingBuffer staging0; AttachedTexture 0%nat];
               expired := false |} /\
     cycle <$> textures w' !! 0%nat = Some (Some 0%nat)) /\
  (exists w',
     SynchronizeHost ext0 0%nat linear_world = Ok tt w' /\
     submitted w' = [] /\
     cycles w' = [] /\
     memory w' !! 1%nat = Some [x01; x02; x03; x04]).
Proof.
  split.
  - destruct (SynchronizeHost_paths ext0 optimal_world 0%nat optimal_texture
                (guest0 [span0] dims1 Linear) span0) as [Hstaging _];
      [reflexivity | reflexivity | reflexivity | reflexivity | discriminate |].
    destruct (Hstaging (or_introl eq_refl) staging0
                (set_memory (memory optimal_world ++ [[x00; x00; x00; x00]]) optimal_world)
                (set_memory (memory optimal_world ++ [[x01; x02; x03; x04]]) optimal_world)
                (set_memory (memory optimal_world ++ [[x01; x02; x03; x04]]) optimal_world))
      as (w' & H1 & H2 & _ & H4 & H5); [reflexivity | reflexivity | reflexivity |].
    exists w'. repeat split; assumption.
  - destruct (SynchronizeHost_paths ext0 linear_world 0%nat linear_texture
                (guest0 [span0] dims1 Linear) span0) as [_ Hdirect];
      [reflexivity | reflexivity | reflexivity | reflexivity | discriminate |].
    destruct (Hdirect eq_refl 5 1%nat linear_world
                (set_memory [[x01; x02; x03; x04]; [x01; x02; x03; x04]; [x11; x12; x13; x14]]
                   linear_world))
      as (H1 & H2 & H3 & _); [reflexivity | reflexivity | reflexivity |].
    eexists. split; [exact H1|]. split; [exact H2|]. split; [|reflexivity].
    simpl in H3. simpl. reflexivity.
Defined.

(** [CopyToGuest] runs once in the call and once more in the wait on the
    supplied cycle. *)
Lemma SynchronizeGuestWithBuffer_direct_copies_twice_witness :
  exists w2,
    SynchronizeGuestWithBuffer ext0 0%nat (Some 0%nat) batched_world = Ok [] w2 /\
    cycles w2 !! 0%nat
    = Some {| signalled := false;
              attached := [AttachedCopy {| copy_texture := 0%nat; copy_stagingBuffer := None |}];
              expired := false |} /\
    FenceCycle_Wait ext0 0%nat w2
    = CopyToGuest ext0 0%nat 1%nat
        (set_cycles (<[0%nat := {| signalled := true; attached := []; expired := false |}]>
                       (cycles w2)) w2).
Proof.
  destruct (SynchronizeGuestWithBuffer_direct_copies_twice ext0 batched_world 0%nat
              linear_texture (guest0 [span0] dims1 Linear) 5 1%nat 0%nat batched_world
              (set_memory [[x01; x02; x03; x04]; [x01; x02; x03; x04]; [x11; x12; x13; x14]]
                 batched_world)
              idle_cycle)
    as (w2 & H1 & _ & _ & H4 & _ & _ & H7);
    [reflexivity | reflexivity | discriminate | simpl; lia | reflexivity | reflexivity
    | discriminate | reflexivity | reflexivity | reflexivity |].
  exists w2. split; [exact H1|]. split; [exact H4|].
  exact (H7 eq_refl eq_refl).
Defined.

(** C8: the call runs [CopyToGuest] at once and attaches the guard to the
    supplied cycle, and the wait on the cycle runs [CopyToGuest] once more
    from the mapped image, but for a [Linear] guest texture neither run
    writes the guest mapping: [CopyToGuest] copies the other way. After the
    call the guest mapping holds what it held and the mapped image has lost
    its bytes to it; after the GPU has rendered into the image again, the
    wait on the cycle overwrites the image once more and leaves the guest
    mapping as it was. *)
Theorem SynchronizeGuestWithBuffer_linear_guest_unwritten :
  memory batched_world !! 0%nat = Some [x01; x02; x03; x04] /\
  memory batched_world !! 1%nat = Some [x0a; x0b; x0c; x0d] /\
  exists w2,
    SynchronizeGuestWithBuffer ext0 0%nat (Some 0%nat) batched_world = Ok [] w2 /\
    cycles w2 !! 0%nat
    = Some {| signalled := false;
              attached := [AttachedCopy {| copy_texture := 0%nat; copy_stagingBuffer := None |}];
              expired := false |} /\
    memory w2 !! 0%nat = Some [x01; x02; x03; x04] /\
    memory w2 !! 1%nat = Some [x01; x02; x03; x04] /\
    memory (rendered w2) !! 1%nat = Some [x21; x22; x23; x24] /\
    exists w3,
      FenceCycle_Wait ext0 0%nat (rendered w2) = Ok tt w3 /\
      memory w3 !! 0%nat = Some [x01; x02; x03; x04] /\
      memory w3 !! 1%nat = Some [x01; x02; x03; x04].
Proof.
  split; [reflexivity|]. split; [reflexivity|].
  eexists. split; [vm_compute; reflexivity|].
  split; [reflexivity|]. split; [reflexivity|]. split; [reflexivity|].
  split; [reflexivity|].
  eexists. split; [vm_compute; reflexivity|].
  split; reflexivity.
Qed.

(** The same run over a block-linear guest texture, where [CopyToGuest]
    converts the image into the guest mapping: both runs write it, the
    second with what the image holds at the time of the wait. *)
Lemma SynchronizeGuestWithBuffer_block_writes_guest_twice :
  memory batched_block_world !! 0%nat = Some [x01; x02; x03; x04] /\
  memory batched_block_world !! 1%nat = Some [x0a; x0b; x0c; x0d] /\
  exists w2,
    SynchronizeGuestWithBuffer ext0 0%nat (Some 0%nat) batched_block_world = Ok [] w2 /\
    memory w2 !! 0%nat = Some (CopyLinearToBlockLinear ext0 (guest0 [span0] dims1 Block)
                                 [x0a; x0b; x0c; x0d] [x01; x02; x03; x04]) /\
    memory w2 !! 1%nat = Some [x0a; x0b; x0c; x0d] /\
    exists w3,
      FenceCycle_Wait ext0 0%nat (rendered w2) = Ok tt w3 /\
      memory w3 !! 0%nat = Some (CopyLinearToBlockLinear ext0 (guest0 [span0] dims1 Block)
                                   [x21; x22; x23; x24] [x0d; x0c; x0b; x0a]) /\
      memory w3 !! 1%nat = Some [x21; x22; x23; x24].
Proof.
  split; [reflexivity|]. split; [reflexivity|].
  eexists. split; [vm_compute; reflexivity|].
  split; [reflexivity|]. split; [reflexivity|].
  eexists. split; [vm_compute; reflexivity|].
  split; reflexivity.
Qed.

(** C5: the destination tracked a cycle still in flight; the failing call
    has waited for it and the destination tracks none. *)
Lemma copy_checks_counterexample :
  ~ copy_checks_as_specified ext0 tracking_world 0%nat 1%nat first_level.
Proof.
  intros H.
  destruct (H tracking_texture undefined_source eq_refl eq_refl (or_introl eq_refl))
    as (e & w' & Hc & _ & dst' & src' & Hd & _ & _ & _ & Hcy & _).
  vm_compute in Hc. injection Hc as _ <-. vm_compute in Hd. injection Hd as <-.
  discriminate Hcy.
Qed.

Lemma CopyFrom_checks_witness :
  (exists e, CopyFrom ext0 0%nat 1%nat first_level tracking_world
             = Throw e (world0 [set_cycle None tracking_texture; undefined_source]
                          [{| signalled := true; attached := []; expired := false |}])) /\
  submitted (world0 [set_cycle None tracking_texture; undefined_source]
               [{| signalled := true; attached := []; expired := false |}]) = [].
Proof.
  destruct (CopyFrom_checks ext0 tracking_world 0%nat 1%nat first_level
              tracking_texture undefined_source
              (world0 [set_cycle None tracking_texture; undefined_source]
                 [{| signalled := true; attached := []; expired := false |}])
              (world0 [set_cycle None tracking_texture; undefined_source]
                 [{| signalled := true; attached := []; expired := false |}]))
    as (H1 & H2 & _);
    [reflexivity | reflexivity | discriminate | discriminate | reflexivity | reflexivity
    | left; reflexivity |].
  split; [exact H1 | reflexivity].
Defined.

(** C10 on a texture in the undefined layout and on one in the general
    layout. *)
Lemma staging_copy_defines_layout_witness :
  (exists cmds w',
     CopyFromStagingBuffer ext0 0%nat staging0 optimal_world = Ok cmds w' /\
     length cmds = 2%nat /\
     layout <$> textures w' !! 0%nat = Some eTransferDstOptimal) /\
  (exists cmds w',
     CopyIntoStagingBuffer ext0 0%nat staging0 optimal_world = Ok cmds w' /\
     length cmds = 2%nat /\
     layout <$> textures w' !! 0%nat = Some eTransferSrcOptimal) /\
  CopyFromStagingBuffer ext0 0%nat staging0 host_world
  = Ok (upload_commands ext0 host_texture staging0) host_world.
Proof.
  destruct (staging_copy_defines_layout ext0 optimal_world 0%nat optimal_texture staging0 eq_refl)
    as [Hu _].
  destruct (staging_copy_defines_layout ext0 host_world 0%nat host_texture staging0 eq_refl)
    as [_ Hd].
  destruct (Hu eq_refl) as [H1 H2]. destruct Hd as (H3 & _); [discriminate|].
  split; [|split; [|exact H3]].
  - eexists _, _. split; [exact H1|]. split; reflexivity.
  - eexists _, _. split; [exact H2|]. split; reflexivity.
Defined.

(** C2: a destination in the undefined layout is not put back. *)
Lemma copy_records_counterexample :
  ~ copy_records_as_specified ext0 undefined_copy_world 0%nat 1%nat first_level.
Proof.
  intros H.
  destruct (H undefined_destination general_source eq_refl eq_refl) as (w' & Hc & Hs);
    [discriminate | reflexivity | reflexivity |].
  vm_compute in Hc. injection Hc as <-. vm_compute in Hs. discriminate Hs.
Qed.

Lemma CopyFrom_records_witness :
  exists w',
    CopyFrom ext0 0%nat 1%nat all_levels copy_world = Ok tt w' /\
    submitted w' = [copy_sequence_of_code general_source host_texture all_levels] /\
    length (copy_sequence_of_code general_source host_texture all_levels) = 7%nat.
Proof.
  destruct (CopyFrom_records ext0 copy_world 0%nat 1%nat all_levels host_texture general_source
              copy_world copy_world)
    as (w' & H1 & H2 & _);
    [reflexivity | reflexivity | discriminate | discriminate | reflexivity | reflexivity
    | discriminate | reflexivity | reflexivity | reflexivity
    | vm_compute; split; [discriminate | reflexivity]
    | vm_compute; split; [discriminate | reflexivity]
    | intros _; vm_compute; split; [discriminate | reflexivity]
    | split; discriminate |].
  exists w'. split; [exact H1|]. split; [exact H2 | reflexivity].
Defined.

(** The two places where [CopyFrom] records something else than the
    specification describes. The loop compares the mip level, which starts at
    the base, with the number of levels: of the two levels asked for from
    level 1 only one is copied. *)
Lemma CopyFrom_commands_from_base_level :
  CopyFrom_commands general_source host_texture levels_from_1
  <> copy_sequence_of_code general_source host_texture levels_from_1 /\
  length (List.filter is_copyImage
            (CopyFrom_commands general_source host_texture levels_from_1)) = 1%nat.
Proof. split; [vm_compute; discriminate | reflexivity]. Qed.

(** And the barrier that puts the source back is recorded when the layout of
    the destination, not that of the source, is not transfer-source: with a
    destination in the transfer-source layout the source is left in it. *)
Lemma CopyFrom_commands_source_not_restored :
  CopyFrom_commands general_source transfer_source_destination first_level
  <> copy_sequence_of_code general_source transfer_source_destination first_level /\
  length (CopyFrom_commands general_source transfer_source_destination first_level) = 4%nat /\
  length (copy_sequence_of_code general_source transfer_source_destination first_level) = 5%nat.
Proof. split; [vm_compute; discriminate | split; reflexivity]. Qed.

(** ** Runs of the further properties *)

(** X1: the destination of [tracking_world] tracks cycle 0, still in flight. *)
Lemma WaitOnFence_settles_witness :
  exists w',
    WaitOnFence ext0 0%nat tracking_world = Ok tt w' /\
    (exists fc', cycles w' !! 0%nat = Some fc' /\ signalled fc' = true) /\
    cycle <$> textures w' !! 0%nat = Some None /\
    WaitOnFence ext0 0%nat w' = Ok tt w'.
Proof.
  eexists. split; [vm_compute; reflexivity|].
  destruct (WaitOnFence_settles ext0 tracking_world 0%nat tracking_texture _
              eq_refl eq_refl) as (_ & H & _ & H4).
  destruct (H 0%nat eq_refl) as [H1 H2].
  split; [exact H1|]. split; [exact H2 | exact H4].
Defined.

(** X2: a texture without backing in the general layout. *)
Lemma absent_backing_blocks_witness :
  TransitionLayout ext0 0%nat eTransferDstOptimal deferred_world = Blocked /\
  CopyFrom ext0 0%nat 0%nat all_levels deferred_world = Blocked /\
  SynchronizeHost ext0 0%nat deferred_world = Blocked /\
  SynchronizeGuest ext0 0%nat deferred_world = Blocked.
Proof.
  destruct (absent_backing_blocks ext0 deferred_world 0%nat deferred_texture
              eq_refl eq_refl) as (H1 & H2 & H3 & H4).
  split; [apply H1|]. split; [apply H2|].
  split.
  - apply (H3 (guest0 [span0] dims1 Linear) span0 None); reflexivity.
  - apply (H4 (guest0 [span0] dims1 Linear) None eq_refl). simpl. lia.
Defined.

(** X3: the backing arrives in the undefined layout and is taken to the
    general one. *)
Lemma SwapBacking_then_TransitionLayout_witness :
  exists w1 w2,
    SwapBacking ext0 0%nat (DeviceImage 6) eUndefined deferred_world = Ok tt w1 /\
    TransitionLayout ext0 0%nat eGeneral w1 = Ok tt w2 /\
    layout <$> textures w2 !! 0%nat = Some eGeneral /\
    backing <$> textures w2 !! 0%nat = Some (DeviceImage 6) /\
    length (submitted w2) = 1%nat.
Proof.
  destruct (SwapBacking_then_TransitionLayout ext0 deferred_world 0%nat deferred_texture
              (DeviceImage 6) eUndefined eGeneral deferred_world)
    as (w1 & t1 & H1 & _ & _ & _ & _ & _ & _ & _ & _ & _ & w2 & H2 & H3 & H4 & H5);
    [reflexivity | reflexivity | discriminate |].
  exists w1, w2. split; [exact H1|]. split; [exact H2|]. split; [exact H3|].
  split; [exact H4|]. rewrite H5. reflexivity.
Defined.

(** X4: the four guest bytes replace the four bytes of the mapped image. *)
Lemma SynchronizeHost_linear_exact_witness :
  SynchronizeHost ext0 0%nat linear_world
  = Ok tt (set_memory [[x01; x02; x03; x04]; [x01; x02; x03; x04]; [x11; x12; x13; x14]]
             linear_world).
Proof.
  destruct (SynchronizeHost_linear_exact ext0 linear_world 0%nat linear_texture
              (guest0 [span0] dims1 Linear) span0 5 1%nat linear_world
              [x0a; x0b; x0c; x0d] [x01; x02; x03; x04]) as [H _];
    [reflexivity | reflexivity | reflexivity | reflexivity | reflexivity | reflexivity
    | discriminate | reflexivity | reflexivity | reflexivity | reflexivity
    | simpl; lia | simpl; lia | discriminate |].
  exact H.
Defined.

(** X5: a block-linear guest texture under codecs that undo each other. *)
Lemma direct_round_trip_witness :
  exists w1 w2,
    SynchronizeHost ext0 0%nat block_world = Ok tt w1 /\
    SynchronizeGuest ext0 0%nat w1 = Ok tt w2 /\
    memory w2 !! 0%nat = Some [x01; x02; x03; x04] /\
    submitted w2 = [].
Proof.
  apply (direct_round_trip ext0 block_world 0%nat block_texture
           (guest0 [span0] dims1 Block) span0 5 1%nat block_world
           [x0a; x0b; x0c; x0d] [x01; x02; x03; x04]);
    [reflexivity | reflexivity | reflexivity | reflexivity | reflexivity | reflexivity
    | discriminate | reflexivity | reflexivity | reflexivity | discriminate
    | discriminate | intros i o; apply rev_involutive | reflexivity].
Defined.

(** X6: the DRM-modifier tiling over a mapped image. *)
Lemma unimplemented_tiling_witness :
  SynchronizeHost ext0 0%nat drm_world
  = Throw (GuestToHostNotImplemented eDrmFormatModifierEXT) drm_world /\
  SynchronizeGuest ext0 0%nat drm_world
  = Throw (HostToGuestNotImplemented eDrmFormatModifierEXT) drm_world.
Proof.
  destruct (unimplemented_tiling ext0 drm_world 0%nat drm_texture
              (guest0 [span0] dims1 Linear) span0 5 1%nat) as [H1 H2];
    [reflexivity | reflexivity | reflexivity | reflexivity | reflexivity | discriminate |].
  split.
  - apply (H1 eq_refl None).
  - apply H2; [discriminate | reflexivity].
Defined.

(** X7: the upload is recorded for the caller and the supplied cycle holds
    the staging buffer and the texture. *)
Lemma SynchronizeHostWithBuffer_staging_witness :
  exists w',
    SynchronizeHostWithBuffer ext0 0%nat (Some 0%nat) batched_optimal_world
    = Ok (upload_commands ext0 optimal_texture staging0) w' /\
    submitted w' = [] /\
    cycles w'
    = [{| signalled := false;
          attached := [AttachedStagingBuffer staging0; AttachedTexture 0%nat];
          expired := false |}] /\
    cycle <$> textures w' !! 0%nat = Some (Some 0%nat) /\
    layout <$> textures w' !! 0%nat = Some eTransferDstOptimal.
Proof.
  destruct (SynchronizeHostWithBuffer_staging ext0 batched_optimal_world 0%nat optimal_texture
              (guest0 [span0] dims1 Linear) span0 0%nat staging0
              (set_memory (memory batched_optimal_world ++ [[x00; x00; x00; x00]])
                 batched_optimal_world)
              (set_memory (memory batched_optimal_world ++ [[x01; x02; x03; x04]])
                 batched_optimal_world)
              (set_memory (memory batched_optimal_world ++ [[x01; x02; x03; x04]])
                 batched_optimal_world)
              idle_cycle)
    as [(w' & H1 & H2 & H3 & H4 & H5 & H6) _];
    [reflexivity | reflexivity | reflexivity | reflexivity | discriminate
    | left; reflexivity | reflexivity | reflexivity | reflexivity | reflexivity |].
  exists w'. split; [exact H1|]. split; [exact H2|].
  split; [|split; [exact H5 | exact H6]].
  destruct (cycles w') as [|c [|c' l]]; try discriminate H3.
  injection H4 as ->. reflexivity.
Defined.

(** X8: nothing reaches the guest before the wait on the new cycle. *)
Lemma SynchronizeGuest_staging_defers_witness :
  exists w',
    SynchronizeGuest ext0 0%nat optimal_general_world = Ok tt w' /\
    submitted w' = [download_commands ext0 optimal_general_texture staging0] /\
    memory w' !! 0%nat = Some [x01; x02; x03; x04] /\
    cycle <$> textures w' !! 0%nat = Some (Some 0%nat) /\
    FenceCycle_Wait ext0 0%nat w'
    = CopyToGuest ext0 0%nat 3%nat
        (set_cycles (<[0%nat := {| signalled := true; attached := []; expired := false |}]>
                       (cycles w')) w').
Proof.
  destruct (SynchronizeGuest_staging_defers ext0 optimal_general_world 0%nat
              optimal_general_texture (guest0 [span0] dims1 Linear) optimal_general_world
              staging0
              (set_memory (memory optimal_general_world ++ [[x00; x00; x00; x00]])
                 optimal_general_world))
    as (w' & H1 & H2 & H3 & _ & H5 & _ & H7);
    [reflexivity | reflexivity | discriminate | simpl; lia | discriminate
    | left; reflexivity | reflexivity | reflexivity |].
  exists w'. split; [exact H1|]. split; [exact H2|].
  split; [rewrite H3; reflexivity|]. split; [exact H5 | exact H7].
Defined.

(** X9: the download is recorded for the caller and the supplied cycle holds
    the deferred copy. *)
Lemma SynchronizeGuestWithBuffer_staging_witness :
  exists w',
    SynchronizeGuestWithBuffer ext0 0%nat (Some 0%nat) batched_general_world
    = Ok (download_commands ext0 optimal_general_texture staging0) w' /\
    submitted w' = [] /\
    cycles w' !! 0%nat
    = Some {| signalled := false;
              attached := [AttachedCopy {| copy_texture := 0%nat;
                                           copy_stagingBuffer := Some staging0 |}];
              expired := false |} /\
    cycle <$> textures w' !! 0%nat = Some (Some 0%nat).
Proof.
  destruct (SynchronizeGuestWithBuffer_staging ext0 batched_general_world 0%nat
              optimal_general_texture (guest0 [span0] dims1 Linear) 0%nat
              batched_general_world staging0
              (set_memory (memory batched_general_world ++ [[x00; x00; x00; x00]])
                 batched_general_world)
              idle_cycle)
    as (w' & H1 & H2 & _ & _ & H5 & H6 & _);
    [reflexivity | reflexivity | discriminate | simpl; lia | discriminate
    | left; reflexivity | reflexivity | reflexivity | reflexivity |].
  exists w'. split; [exact H1|]. split; [exact H2|]. split; [exact H5 | exact H6].
Defined.

(** X10: an upload into a texture in the undefined layout ends, as the
    cached layout says, in the transfer-destination layout. *)
Lemma staging_copy_barriers_chain_witness :
  exists cmds w' t',
    CopyFromStagingBuffer ext0 0%nat staging0 optimal_world = Ok cmds w' /\
    textures w' !! 0%nat = Some t' /\
    layout_after 6 eUndefined cmds = Some (layout t') /\
    layout t' = eTransferDstOptimal.
Proof.
  destruct (staging_copy_barriers_chain ext0 optimal_world 0%nat optimal_texture staging0
              eq_refl) as [(cmds & w' & t' & H1 & H2 & H3) _].
  exists cmds, w', t'. split; [exact H1|]. split; [exact H2|]. split; [exact H3|].
  vm_compute in H1. injection H1 as <- <-. injection H2 as <-. reflexivity.
Defined.

(** X11: a copy into a destination in the undefined layout. *)
Lemma CopyFrom_barriers_chain_witness :
  layout_after 6 eUndefined (CopyFrom_commands general_source undefined_destination all_levels)
  = Some eTransferDstOptimal /\
  layout_after 8 eGeneral (CopyFrom_commands general_source undefined_destination all_levels)
  = Some eGeneral.
Proof.
  apply (CopyFrom_barriers_chain general_source undefined_destination all_levels);
    discriminate.
Defined.

(** X12: the source tracked cycle 0; after the copy it is attached to the
    new cycle 1, which the destination tracks, and tracks none itself. *)
Lemma CopyFrom_leaves_source_untracked_witness :
  exists w',
    CopyFrom ext0 0%nat 1%nat all_levels tracked_copy_world = Ok tt w' /\
    cycles w' !! 1%nat
    = Some {| signalled := false;
              attached := [AttachedTexture 1%nat; AttachedTexture 0%nat];
              expired := false |} /\
    cycle <$> textures w' !! 0%nat = Some (Some 1%nat) /\
    WaitOnFence ext0 1%nat w' = Ok tt w'.
Proof.
  eapply (CopyFrom_leaves_source_untracked ext0 tracked_copy_world 0%nat 1%nat all_levels
            host_texture tracked_source tracked_copy_world);
    [reflexivity | reflexivity | discriminate | discriminate | discriminate
    | reflexivity | vm_compute; reflexivity | discriminate | reflexivity | reflexivity
    | intros c H; injection H as <-; simpl; lia].
Defined.

(** X13: the first request makes the view, any later request for the same
    description is served with it. *)
Lemma GetView_cache_identity_witness :
  exists w',
    GetView vext0 40 view0 host_world = Ok 40 w' /\
    GetView vext0 99 view0 w' = Ok 40 w'.
Proof.
  destruct (GetView_cache_identity vext0 40 view0 host_world host_texture eq_refl eq_refl)
    as (view & w' & t' & H1 & _ & _ & _ & H5).
  exists w'. assert (view = 40) as ->.
  { vm_compute in H1. injection H1 as <- _. reflexivity. }
  split; [exact H1|]. apply H5; reflexivity.
Defined.

(** X14: the texture serves [view1] from its cache; a request for another
    view leaves that entry in place. *)
Lemma GetView_keeps_entries_witness :
  exists view w',
    GetView vext0 40 view0 viewed_world = Ok view w' /\
    GetView vext0 99 view1 w' = Ok 41 w' /\
    submitted w' = [].
Proof.
  destruct (GetView_keeps_entries vext0 40 99 view0 view1 viewed_world viewed_texture
              (view_create_info vext0 view1 host_texture, 41))
    as (view & w' & t' & H1 & H2 & _ & _ & _ & _ & _ & _ & _ & H3);
    [reflexivity | reflexivity | reflexivity | reflexivity | reflexivity |].
  exists view, w'. split; [exact H1|]. split; [exact H2 | exact H3].
Defined.

(** X15: a texture for a block-linear guest texture. *)
Lemma Texture_fromGuest_Ok_witness :
  exists w' t,
    Texture_fromGuest ext0 (guest0 [span0] dims1 Block) 9 4 host_world = Ok 1%nat w' /\
    textures w' !! 1%nat = Some t /\
    textures w' !! 0%nat = Some host_texture /\
    layout t = eGeneral /\
    (tiling t, backing t) = (eOptimal, DeviceImage 9) /\
    length (submitted w') = 1%nat.
Proof.
  destruct (Texture_fromGuest_Ok ext0 (guest0 [span0] dims1 Block) 9 4 host_world)
    as (w' & t & H1 & H2 & H3 & _ & _ & _ & _ & _ & H9 & H10 & _ & H12); [discriminate|].
  exists w', t. split; [exact H1|]. split; [exact H2|].
  split; [apply H3; reflexivity|]. split; [exact H9|]. split; [exact H10|].
  rewrite H12. reflexivity.
Defined.

(** X16: a texture asked for in the colour-attachment layout. *)
Lemma Texture_withLayout_layout_witness :
  exists w' t,
    Texture_withLayout ext0 dims1 7 eColorAttachmentOptimal eOptimal 3 2 1 9 4 host_world
    = Ok 1%nat w' /\
    textures w' !! 1%nat = Some t /\
    layout t = eColorAttachmentOptimal /\
    GetBacking t = 9 /\
    length (submitted w') = 1%nat.
Proof.
  destruct (Texture_withLayout_layout ext0 dims1 7 eColorAttachmentOptimal eOptimal 3 2 1 9 4
              host_world) as (w' & t & H1 & H2 & H3 & _ & H5 & H6); [discriminate|].
  exists w', t. split; [exact H1|]. split; [exact H2|]. split; [exact H3|].
  split; [exact H5|]. rewrite H6. reflexivity.
Defined.

(** X18: a request that starts below the region and runs past its end is cut
    to the region; one that starts inside at an unaligned address throws. *)
Lemma UpdatePermission_confined_witness :
  Kernel.UpdatePermission Kernel.IsPageAligned0 Kernel.CodeStatic0 Kernel.CodeMutable0
    Kernel.code0 0x7FFF000 0x10000 Kernel.readWrite []
  = Kernel.Returns (Kernel.set_memoryState Kernel.CodeMutable0 Kernel.code0)
      [{| Kernel.chunk_ptr := 0x8000000; Kernel.chunk_size := 0x4000;
          Kernel.chunk_permission := Kernel.readWrite;
          Kernel.chunk_state := Kernel.CodeMutable0 |}] /\
  Kernel.UpdatePermission Kernel.IsPageAligned0 Kernel.CodeStatic0 Kernel.CodeMutable0
    Kernel.code0 0x8000010 0x1000 Kernel.readWrite []
  = Kernel.Throws Kernel.PermissionNotPageAligned.
Proof.
  split.
  - destruct (UpdatePermission_confined Kernel.IsPageAligned0 Kernel.CodeStatic0
                Kernel.CodeMutable0 Kernel.code0 0x7FFF000 0x10000 Kernel.readWrite [])
      as (this' & c & H & _); [simpl; lia | simpl; lia | simpl; lia | lia |].
    vm_compute in H. injection H as <- <-. reflexivity.
  - apply (UpdatePermission_confined Kernel.IsPageAligned0 Kernel.CodeStatic0
             Kernel.CodeMutable0 Kernel.code0 0x8000010 0x1000 Kernel.readWrite []);
      [simpl; lia | simpl; lia | simpl; lia | lia].
Defined.

(** X19: a static code region is made writable once; the later calls leave
    it mutable, where it started and with the permission it was made with. *)
Lemma calls_keep_witness :
  exists this' chunks',
    Kernel.calls Kernel.IsInside0 Kernel.IsPageAligned0 Kernel.Unmapped0 Kernel.CodeStatic0
      Kernel.CodeMutable0
      [Kernel.CallUpdatePermission 0x8000000 0x1000 Kernel.readWrite;
       Kernel.CallResize 0x8000 0;
       Kernel.CallUpdatePermission 0x8000000 0x1000 Kernel.readExecute;
       Kernel.CallRemap 0x9000000 0x8000 0 0]
      Kernel.code0 []
    = Kernel.Returns this' chunks' /\
    Kernel.ptr this' = 0x8000000 /\
    Kernel.permission this' = Kernel.readExecute /\
    Kernel.memoryState this' = Kernel.CodeMutable0 /\
    (length chunks' <= 4)%nat.
Proof.
  destruct (Kernel.calls _ _ _ _ _ _ Kernel.code0 []) as [this' chunks'|e] eqn:E;
    [|vm_compute in E; discriminate E].
  exists this', chunks'. split; [reflexivity|].
  destruct (calls_keep Kernel.IsPageAligned0 Kernel.Unmapped0 Kernel.CodeStatic0
              Kernel.CodeMutable0 Kernel.IsInside0 _ _ _ _ _ E)
    as (H1 & H2 & H3 & added & H4 & H5).
  split; [exact H1|]. split; [exact H2|]. split; [exact H3|].
  rewrite H4. simpl in *. lia.
Defined.
